(** * autowebprompt: the task execution engine and the completion logger

    A shallow embedding of the parts of the Python sources that carry the
    retry accounting of [engine/runner.py], the crash-safe recorder of
    [engine/completion_logger.py] and the response-completion protocol of
    [agents/chatgpt.py] and [agents/claude.py].

    Conventions.
    - Everything the Python code reads from the outside world (the browser
      page, the wall clock, the validator, the uploader) is an input of the
      embedded function: a record of observations per loop iteration.
    - [Outcome A] is the result of a call that may raise a Python
      [Exception]; a function that catches everything itself returns a
      plain value.
    - Clock differences ([time.time() - start], event-loop time) are floats
      in the source and rationals here; the code only compares them.
    - Counters and configured limits are Python ints, here [Z]. *)

From Stdlib Require Import ZArith QArith Bool List String Ascii Lia.
From stdpp Require Import base gmap strings list pretty.

Local Open Scope string_scope.
Local Open Scope Z_scope.

(** A call that either returns or raises an [Exception]. *)
Inductive Outcome (A : Type) : Type :=
| Returns (a : A)
| Raises.
Arguments Returns {A} a.
Arguments Raises {A}.

(** A Python [str] is held as its UTF-8 bytes.  [len] and slicing count
    code points: the bytes that are not continuation bytes (10xxxxxx). *)
Definition is_continuation (c : ascii) : bool :=
  let n := nat_of_ascii c in ((128 <=? n) && (n <? 192))%nat.

(** [len(s)] *)
Fixpoint py_len (s : string) : nat :=
  match s with
  | EmptyString => 0%nat
  | String c rest =>
      ((if is_continuation c then 0 else 1) + py_len rest)%nat
  end.

(** [s[:n]] *)
Fixpoint py_prefix (n : nat) (s : string) : string :=
  match s with
  | EmptyString => EmptyString
  | String c rest =>
      if is_continuation c then String c (py_prefix n rest)
      else match n with
           | O => EmptyString
           | S m => String c (py_prefix m rest)
           end
  end.

(* ===================================================================== *)
(** ** agents/base.py                                                     *)
(* ===================================================================== *)

Module AgentState.

Inductive t : Type :=
| RUNNING | READY | RATE_LIMITED | AUTH_REQUIRED | ERROR | UNKNOWN.

Definition eqb (a b : t) : bool :=
  match a, b with
  | RUNNING, RUNNING | READY, READY | RATE_LIMITED, RATE_LIMITED
  | AUTH_REQUIRED, AUTH_REQUIRED | ERROR, ERROR | UNKNOWN, UNKNOWN => true
  | _, _ => false
  end.

Lemma state_eqb_eq a b : eqb a b = true <-> a = b.
Proof. destruct a, b; simpl; split; intros H; try reflexivity; discriminate. Qed.

End AgentState.

Module TaskStatus.

Inductive t : Type :=
(* Agent statuses (agent was invoked, count toward agent_attempts) *)
| SUCCESS | TIMEOUT | PROMPT_FAILED | DOWNLOAD_FAILED | FILE_CORRUPTED
| MISSING_SHEETS
(* Pipeline statuses (pre-agent infra failures) *)
| NAVIGATION_FAILED | AUTH_FAILED | UPLOAD_FAILED | RATE_LIMITED | UNKNOWN.

(** [TaskStatus.value] *)
Definition value (s : t) : string :=
  match s with
  | SUCCESS => "success"
  | TIMEOUT => "timeout"
  | PROMPT_FAILED => "prompt_failed"
  | DOWNLOAD_FAILED => "download_failed"
  | FILE_CORRUPTED => "file_corrupted"
  | MISSING_SHEETS => "missing_sheets"
  | NAVIGATION_FAILED => "navigation_failed"
  | AUTH_FAILED => "auth_failed"
  | UPLOAD_FAILED => "upload_failed"
  | RATE_LIMITED => "rate_limited"
  | UNKNOWN => "unknown"
  end.

(** The enum is a [str] enum: members compare by value. *)
Definition eqb (a b : t) : bool := String.eqb (value a) (value b).

Lemma status_eqb_eq a b : eqb a b = true <-> a = b.
Proof.
  destruct a, b; unfold eqb; simpl; split; intros H;
    try reflexivity; discriminate.
Qed.

Definition AGENT_STATUSES : list t :=
  [SUCCESS; TIMEOUT; PROMPT_FAILED; DOWNLOAD_FAILED; FILE_CORRUPTED;
   MISSING_SHEETS].

Definition PIPELINE_STATUSES : list t :=
  [NAVIGATION_FAILED; AUTH_FAILED; UPLOAD_FAILED; RATE_LIMITED; UNKNOWN].

End TaskStatus.

(* ===================================================================== *)
(** ** Wall-clock values ([datetime.datetime])                            *)
(* ===================================================================== *)

Module Datetime.

Record datetime : Type := mk_datetime {
  year : nat; month : nat; day : nat;
  hour : nat; minute : nat; second : nat; microsecond : nat
}.

(** Zero-padded decimal rendering, as the [%m], [%d], [%H] ... directives. *)
Fixpoint zeros (n : nat) : string :=
  match n with O => "" | S k => String "0" (zeros k) end.

Definition pad (width : nat) (n : nat) : string :=
  let s := pretty n in
  zeros (width - String.length s) ++ s.

(** [dt.strftime("%Y%m%d_%H%M%S")] *)
Definition strftime_stamp (d : datetime) : string :=
  pad 4 (year d) ++ pad 2 (month d) ++ pad 2 (day d) ++ "_" ++
  pad 2 (hour d) ++ pad 2 (minute d) ++ pad 2 (second d).

Definition is_leap (y : nat) : bool :=
  ((y mod 4 =? 0) && (negb (y mod 100 =? 0) || (y mod 400 =? 0)))%nat.

Definition days_before_year (y : nat) : nat :=
  let p := (y - 1)%nat in (p * 365 + p / 4 - p / 100 + p / 400)%nat.

Definition days_in_month (y m : nat) : nat :=
  match m with
  | 2%nat => if is_leap y then 29 else 28
  | 4%nat | 6%nat | 9%nat | 11%nat => 30
  | _ => 31
  end%nat.

Fixpoint days_before_month_aux (y : nat) (m : nat) : nat :=
  match m with
  | O => O
  | S k => (days_before_month_aux y k + days_in_month y (S k))%nat
  end.

Definition days_before_month (y m : nat) : nat :=
  days_before_month_aux y (m - 1).

(** Proleptic Gregorian ordinal, then microseconds since day 0. *)
Definition toordinal (d : datetime) : nat :=
  (days_before_year (year d) + days_before_month (year d) (month d) + day d)%nat.

Definition to_micros (d : datetime) : Z :=
  (((Z.of_nat (toordinal d) * 24 + Z.of_nat (hour d)) * 60
    + Z.of_nat (minute d)) * 60 + Z.of_nat (second d)) * 1000000
  + Z.of_nat (microsecond d).

(** [(a - b)] as a count of microseconds; [total_seconds()] is this over
    10^6. *)
Definition sub_micros (a b : datetime) : Z := to_micros a - to_micros b.

(** [a / b] rounded to the nearest integer, ties to even ([0 <= a], [0 < b]). *)
Definition div_half_even (a b : Z) : Z :=
  let q := a / b in
  let r := a mod b in
  if 2 * r <? b then q
  else if b <? 2 * r then q + 1
  else if Z.even q then q else q + 1.

(** [round(td.total_seconds(), 2)] for a positive count [m] of
    microseconds, in hundredths of a second.  [total_seconds()] is the
    double nearest to [m / 10^6]: a 53-bit mantissa [mant] at the binary
    exponent [-s].  [round] then takes the two-decimal number nearest to
    that double.  Both steps round ties to even. *)
Definition round2_pos (m : Z) : Z :=
  let d := 1000000 in
  let num (s : Z) := m * 2 ^ Z.max s 0 in
  let den (s : Z) := d * 2 ^ Z.max (- s) 0 in
  let s0 := 52 - (Z.log2 m - Z.log2 d) in
  let s := if num s0 <? den s0 * 2 ^ 52 then s0 + 1 else s0 in
  let mant := div_half_even (num s) (den s) in
  div_half_even (100 * mant * 2 ^ Z.max (- s) 0) (2 ^ Z.max s 0).

Definition round2 (m : Z) : Z :=
  if m =? 0 then 0
  else if 0 <? m then round2_pos m
  else - round2_pos (- m).

(** [round((a - b).total_seconds(), 2)], in hundredths of a second. *)
Definition seconds_between (a b : datetime) : Z := round2 (sub_micros a b).

End Datetime.

(* ===================================================================== *)
(** ** engine/completion_logger.py                                        *)
(* ===================================================================== *)

Module Logger.
Import Datetime.

(** One prompt entry of the JSON document.  Timestamps are stored as ISO
    strings by the source and read back with [fromisoformat]; the value
    itself is kept here. *)
Record PromptEntry : Type := mk_prompt {
  prompt_text : string;
  prompt_start_time : datetime;
  prompt_end_time : option datetime;
  prompt_success : option bool;
  prompt_duration_seconds : option Z;   (* hundredths of a second *)
  response_length : option Z        (* key present only when truthy *)
}.

Record TaskEntry : Type := mk_task {
  task_name : string;
  attempt_number : Z;
  start_time : datetime;
  end_time : option datetime;
  task_status : option string;
  agent_failed : option bool;
  agent_failed_reason : option string;
  deprecated : bool;
  deprecated_reason : option string;
  duration_seconds : option Z;          (* hundredths of a second *)
  prompts : list PromptEntry
}.

(** [session_data] *)
Record SessionData : Type := mk_session {
  session_start_iso : datetime;
  sd_agent_name : string;
  sd_prompt_version : Z;
  sd_task_source : string;
  tasks : list TaskEntry
}.

(** The directory holding the JSON logs: the parsed document stored at each
    path, and which paths can be opened for writing. *)
Record FileSystem : Type := mk_fs {
  files : gmap string SessionData;
  writable : string -> bool
}.

Definition write_file (p : string) (d : SessionData) (fs : FileSystem)
  : FileSystem :=
  if writable fs p
  then {| files := <[p := d]> (files fs); writable := writable fs |}
  else fs.

Record CompletionLogger : Type := mk_logger {
  log_dir : string;
  task_identifier : option string;
  agent_name : string;
  prompt_version : Z;
  task_source : string;
  session_start : datetime;
  session_data : SessionData;
  current_task : option TaskEntry;
  current_prompt : option PromptEntry;
  session_file : string
}.

(** [_clean_name]: three replacements, then [re.sub(r"[^a-zA-Z0-9._-]", "")]. *)
Definition replace_char (c : ascii) : ascii :=
  if (c =? "/")%char then "-"%char
  else if (c =? "\")%char then "-"%char
  else if (c =? " ")%char then "_"%char
  else c.

Definition allowed_char (c : ascii) : bool :=
  let n := nat_of_ascii c in
  ((97 <=? n) && (n <=? 122) || (65 <=? n) && (n <=? 90)
   || (48 <=? n) && (n <=? 57)
   || (c =? ".")%char || (c =? "_")%char || (c =? "-")%char)%nat.

Fixpoint _clean_name (name : string) : string :=
  match name with
  | EmptyString => EmptyString
  | String c rest =>
      let c' := replace_char c in
      if allowed_char c' then String c' (_clean_name rest)
      else _clean_name rest
  end.

(** [_write_to_disk]: dumps [session_data] (and nothing else) to
    [session_file]; a failing write is logged and swallowed. *)
Definition _write_to_disk (cl : CompletionLogger) (fs : FileSystem)
  : FileSystem :=
  write_file (session_file cl) (session_data cl) fs.

(** [task_identifier or "unknown"] *)
Definition or_unknown (task_identifier : option string) : string :=
  match task_identifier with
  | Some "" | None => "unknown"
  | Some id => id
  end.
Arguments or_unknown : simpl never.

(** [__init__].  [mkdir_ok] says whether [log_dir.mkdir] succeeds (it is
    outside any [try]); [now] is [datetime.now()]. *)
Definition init (log_dir : string) (task_identifier : option string)
    (agent_name : string) (prompt_version : Z) (task_source : string)
    (mkdir_ok : bool) (now : datetime) (fs : FileSystem)
  : Outcome (CompletionLogger * FileSystem) :=
  if mkdir_ok then
    let timestamp := strftime_stamp now in
    let clean_id := _clean_name (or_unknown task_identifier) in
    let filename :=
      "completion_" ++ agent_name ++ "_" ++ timestamp ++ "_" ++ clean_id
      ++ ".json" in
    let cl := {|
      log_dir := log_dir;
      task_identifier := task_identifier;
      agent_name := agent_name;
      prompt_version := prompt_version;
      task_source := task_source;
      session_start := now;
      session_data := {| session_start_iso := now;
                         sd_agent_name := agent_name;
                         sd_prompt_version := prompt_version;
                         sd_task_source := task_source;
                         tasks := [] |};
      current_task := None;
      current_prompt := None;
      session_file := log_dir ++ "/" ++ filename |} in
    Returns (cl, _write_to_disk cl fs)
  else Raises.

Definition set_current_task (t : option TaskEntry) (cl : CompletionLogger)
  : CompletionLogger :=
  {| log_dir := log_dir cl; task_identifier := task_identifier cl;
     agent_name := agent_name cl; prompt_version := prompt_version cl;
     task_source := task_source cl; session_start := session_start cl;
     session_data := session_data cl;
     current_task := t;
     current_prompt := current_prompt cl;
     session_file := session_file cl |}.

Definition set_current_prompt (p : option PromptEntry) (cl : CompletionLogger)
  : CompletionLogger :=
  {| log_dir := log_dir cl; task_identifier := task_identifier cl;
     agent_name := agent_name cl; prompt_version := prompt_version cl;
     task_source := task_source cl; session_start := session_start cl;
     session_data := session_data cl;
     current_task := current_task cl;
     current_prompt := p;
     session_file := session_file cl |}.

Definition set_session_data (d : SessionData) (cl : CompletionLogger)
  : CompletionLogger :=
  {| log_dir := log_dir cl; task_identifier := task_identifier cl;
     agent_name := agent_name cl; prompt_version := prompt_version cl;
     task_source := task_source cl; session_start := session_start cl;
     session_data := d;
     current_task := current_task cl;
     current_prompt := current_prompt cl;
     session_file := session_file cl |}.

Definition new_task (name : string) (attempt : Z) (now : datetime)
  : TaskEntry :=
  {| task_name := name; attempt_number := attempt; start_time := now;
     end_time := None; task_status := None; agent_failed := None;
     agent_failed_reason := None; deprecated := false;
     deprecated_reason := None; duration_seconds := None; prompts := [] |}.

(** [start_task] *)
Definition start_task (name : string) (attempt : Z) (now : datetime)
    (cl : CompletionLogger) (fs : FileSystem)
  : CompletionLogger * FileSystem :=
  let cl' := set_current_task (Some (new_task name attempt now)) cl in
  (cl', _write_to_disk cl' fs).

Definition close_task (status : TaskStatus.t) (now : datetime) (t : TaskEntry)
  : TaskEntry :=
  let duration := seconds_between now (start_time t) in
  let ok := TaskStatus.eqb status TaskStatus.SUCCESS in
  {| task_name := task_name t; attempt_number := attempt_number t;
     start_time := start_time t;
     end_time := Some now;
     task_status := Some (TaskStatus.value status);
     agent_failed := Some (negb ok);
     agent_failed_reason :=
       if ok then None else Some (TaskStatus.value status);
     deprecated := deprecated t;
     deprecated_reason := deprecated_reason t;
     duration_seconds := Some duration;
     prompts := prompts t |}.

Definition append_task (t : TaskEntry) (d : SessionData) : SessionData :=
  {| session_start_iso := session_start_iso d;
     sd_agent_name := sd_agent_name d;
     sd_prompt_version := sd_prompt_version d;
     sd_task_source := sd_task_source d;
     tasks := tasks d ++ [t] |}.

(** [end_task] *)
Definition end_task (status : TaskStatus.t) (now : datetime)
    (cl : CompletionLogger) (fs : FileSystem)
  : CompletionLogger * FileSystem :=
  match current_task cl with
  | None => (cl, fs)        (* warning logged, early return *)
  | Some t =>
      let t' := close_task status now t in
      let cl' :=
        set_current_task None
          (set_session_data (append_task t' (session_data cl)) cl) in
      (cl', _write_to_disk cl' fs)
  end.

(** [start_prompt]; [prompt_text[:500]] keeps at most 500 code points. *)
Definition start_prompt (text : string) (now : datetime)
    (cl : CompletionLogger) (fs : FileSystem)
  : CompletionLogger * FileSystem :=
  let p := {| prompt_text := py_prefix 500 text;
              prompt_start_time := now; prompt_end_time := None;
              prompt_success := None; prompt_duration_seconds := None;
              response_length := None |} in
  let cl' := set_current_prompt (Some p) cl in
  (cl', _write_to_disk cl' fs).

Definition close_prompt (success : bool) (resp_len : Z) (now : datetime)
    (p : PromptEntry) : PromptEntry :=
  {| prompt_text := prompt_text p;
     prompt_start_time := prompt_start_time p;
     prompt_end_time := Some now;
     prompt_success := Some success;
     prompt_duration_seconds :=
       Some (seconds_between now (prompt_start_time p));
     response_length :=
       if resp_len =? 0 then response_length p else Some resp_len |}.

Definition add_prompt (p : PromptEntry) (t : TaskEntry) : TaskEntry :=
  {| task_name := task_name t; attempt_number := attempt_number t;
     start_time := start_time t; end_time := end_time t;
     task_status := task_status t; agent_failed := agent_failed t;
     agent_failed_reason := agent_failed_reason t;
     deprecated := deprecated t; deprecated_reason := deprecated_reason t;
     duration_seconds := duration_seconds t;
     prompts := prompts t ++ [p] |}.

(** [end_prompt] *)
Definition end_prompt (success : bool) (resp_len : Z) (now : datetime)
    (cl : CompletionLogger) (fs : FileSystem)
  : CompletionLogger * FileSystem :=
  match current_prompt cl with
  | None => (cl, fs)        (* warning logged, early return *)
  | Some p =>
      let p' := close_prompt success resp_len now p in
      let cl1 :=
        match current_task cl with
        | Some t => set_current_task (Some (add_prompt p' t)) cl
        | None => cl
        end in
      let cl' := set_current_prompt None cl1 in
      (cl', _write_to_disk cl' fs)
  end.

End Logger.

(* ===================================================================== *)
(** ** Shared helpers for the agents                                      *)
(* ===================================================================== *)

(** Python's [sub in s] on strings. *)
Definition str_contains (sub s : string) : bool :=
  match String.index 0 sub s with
  | Some _ => true
  | None => false
  end.

(** [a < b] on clock readings. *)
Definition Qlt_bool (a b : Q) : bool := negb (Qle_bool b a).

(** What a caller has seen of a polling routine after a finite run of
    observations: the value it returned, or that it is still polling. *)
Inductive WaitResult : Type :=
| Response (r : option string)
| Pending.

(* ===================================================================== *)
(** ** agents/chatgpt.py                                                  *)
(* ===================================================================== *)

Module ChatGPT.

Record Agent : Type := mk_agent {
  max_wait_per_prompt : Q;
  check_interval : Q;
  agent_mode : bool;
  extended_thinking : bool;
  _baseline_article_count : Z;
  _baseline_set : bool
}.

(** [__init__] with the values read from the [chatgpt_web] config block. *)
Definition new_agent (max_wait check : Q) (agent_mode ext : bool) : Agent :=
  {| max_wait_per_prompt := max_wait; check_interval := check;
     agent_mode := agent_mode; extended_thinking := ext;
     _baseline_article_count := 0; _baseline_set := false |}.

Definition set_baseline (count : Z) (flag : bool) (a : Agent) : Agent :=
  {| max_wait_per_prompt := max_wait_per_prompt a;
     check_interval := check_interval a;
     agent_mode := agent_mode a; extended_thinking := extended_thinking a;
     _baseline_article_count := count; _baseline_set := flag |}.

(** *** navigate_to_new_chat *)

(** What the page shows during one navigation. *)
Record NavPage : Type := mk_nav {
  nav_goto : Outcome unit;          (* page.goto(project_url, ...) *)
  nav_url : string;                 (* page.url after the load *)
  nav_title : Outcome unit;         (* page.title() *)
  nav_state : AgentState.t;         (* get_state(), which never raises *)
  nav_input_initial : bool;         (* chat input attached within 15s *)
  nav_reload : Outcome unit;        (* page.reload + wait_for_timeout *)
  nav_input_after_reload : bool     (* chat input attached after reload *)
}.

Definition navigate_to_new_chat (a : Agent) (p : NavPage) : bool * Agent :=
  (* the baseline is reset first, inside the try *)
  let a' := set_baseline 0 false a in
  match nav_goto p with
  | Raises => (false, a')
  | Returns _ =>
    match nav_title p with
    | Raises => (false, a')
    | Returns _ =>
      if negb (str_contains "chatgpt.com" (nav_url p)) then (true, a')
      else if AgentState.eqb (nav_state p) AgentState.AUTH_REQUIRED
      then (true, a')
      else if nav_input_initial p then (true, a')
      else
        match nav_reload p with
        | Raises => (false, a')
        | Returns _ =>
            if nav_input_after_reload p then (true, a') else (false, a')
        end
    end
  end.

(** *** wait_for_response *)

(** One poll of Phase 1 (generation start). *)
Record StartSample : Type := mk_start {
  ss_shutdown : bool;     (* shutdown_event and shutdown_event.is_set() *)
  ss_generating : bool;   (* _is_generating() *)
  ss_count : Z            (* _count_response_articles() *)
}.

(** One poll of Phase 2 (stabilization). *)
Record StabSample : Type := mk_stab {
  st_elapsed_top : Q;     (* loop.time() - start_time at the while test *)
  st_shutdown : bool;
  st_generating : bool;
  st_count : Z;
  st_text : option string;  (* _extract_last_response() *)
  st_elapsed : Q          (* loop.time() - start_time after sampling *)
}.

(** Everything one call of [wait_for_response] observes. *)
Record Script : Type := mk_script {
  pre_count : Z;                       (* Phase 0 article count *)
  start_samples : nat -> StartSample;  (* the i-th Phase 1 poll *)
  stab_samples : list StabSample;      (* Phase 2 polls, in order *)
  final_response : option string       (* extraction after the timeout *)
}.

Inductive StartResult : Type :=
| Started | StartShutdown | NeverStarted.

(** [for _ in range(60)]: [n] polls remain, the next one is poll [i]. *)
Fixpoint start_phase (samples : nat -> StartSample) (baseline : Z)
    (n i : nat) : StartResult :=
  match n with
  | O => NeverStarted
  | S n' =>
      let x := samples i in
      if ss_shutdown x then StartShutdown
      else if ss_generating x then Started
      else if baseline <? ss_count x then Started
      else start_phase samples baseline n' (S i)
  end.

Record StabState : Type := mk_state {
  stable_count : Z;
  last_response_text : string;
  last_article_count : Z;
  ever_saw_generating : bool
}.

Definition required_stable : Z := 5.

Definition min_elapsed_sec (a : Agent) : Q :=
  if agent_mode a then 300%Q else 15%Q.

Inductive StepResult : Type :=
| Complete (r : string)       (* "Response complete": return current_response *)
| Continue (s : StabState).

(** The body of the Phase 2 loop after the shutdown test. *)
Definition stab_step (a : Agent) (s : StabState) (x : StabSample)
  : StepResult :=
  let generating := st_generating x in
  let articles_changed := negb (st_count x =? last_article_count s) in
  let last_count := if articles_changed then st_count x
                    else last_article_count s in
  let current_response := default "" (st_text x) in
  if generating || articles_changed then
    Continue {| stable_count := 0;
                last_response_text := current_response;
                last_article_count := last_count;
                ever_saw_generating :=
                  if generating then true else ever_saw_generating s |}
  else
    let text_changed :=
      negb (String.eqb current_response (last_response_text s)) in
    let stable := if text_changed then 0 else stable_count s + 1 in
    let continue_with (c : Z) :=
      Continue {| stable_count := c;
                  last_response_text := current_response;
                  last_article_count := last_count;
                  ever_saw_generating := ever_saw_generating s |} in
    if required_stable <=? stable then
      if (50 <? py_len current_response)%nat then
        if Qle_bool (min_elapsed_sec a) (st_elapsed x)
        then Complete current_response
        else continue_with 0       (* stable but too early *)
      else continue_with 0         (* content too short *)
    else continue_with stable.

Inductive StabResult : Type :=
| Completed (r : string)
| Aborted                      (* shutdown: return None *)
| TimedOut                     (* the while condition failed *)
| Polling (s : StabState).     (* observations exhausted, still looping *)

Fixpoint stabilize (a : Agent) (samples : list StabSample) (s : StabState)
  : StabResult :=
  match samples with
  | [] => Polling s
  | x :: rest =>
      if Qlt_bool (st_elapsed_top x) (max_wait_per_prompt a) then
        if st_shutdown x then Aborted
        else
          match stab_step a s x with
          | Complete r => Completed r
          | Continue s' => stabilize a rest s'
          end
      else TimedOut
  end.

Definition initial_stab_state (baseline_article_count : Z) : StabState :=
  {| stable_count := 0; last_response_text := "";
     last_article_count := baseline_article_count;
     ever_saw_generating := true |}.

Definition wait_for_response (a : Agent) (sc : Script) : WaitResult * Agent :=
  (* Phase 0 *)
  let baseline_article_count := pre_count sc in
  let a' := if _baseline_set a then a
            else set_baseline baseline_article_count true a in
  (* Phase 1 *)
  match start_phase (start_samples sc) baseline_article_count 60 0 with
  | StartShutdown => (Response None, a')
  | NeverStarted => (Response None, a')
  | Started =>
      (* Phase 2 *)
      match stabilize a' (stab_samples sc)
              (initial_stab_state baseline_article_count) with
      | Completed r => (Response (Some r), a')
      | Aborted => (Response None, a')
      | Polling _ => (Pending, a')
      | TimedOut =>
          match final_response sc with
          | Some r =>
              if (50 <? py_len r)%nat
              then (Response (Some r), a') else (Response None, a')
          | None => (Response None, a')
          end
      end
  end.

End ChatGPT.

(* ===================================================================== *)
(** ** agents/claude.py                                                   *)
(* ===================================================================== *)

Module Claude.

Record Agent : Type := mk_agent {
  max_wait_per_prompt : Q;
  check_interval : Q
}.

(** *** navigate_to_new_chat *)

(** The URL built from the config is the argument of [page.goto]; what the
    routine observes is whether the load raised and the state afterwards.
    The two [ensure_*] calls catch everything and their results are
    ignored. *)
Record NavPage : Type := mk_nav {
  nav_goto : Outcome unit;
  nav_state : AgentState.t
}.

Definition navigate_to_new_chat (p : NavPage) : bool :=
  match nav_goto p with
  | Raises => false
  | Returns _ =>
      if AgentState.eqb (nav_state p) AgentState.AUTH_REQUIRED then false
      else true
  end.

(** *** wait_for_response *)

Record Sample : Type := mk_sample {
  cs_shutdown : bool;
  cs_state : AgentState.t;       (* get_state() after the sleep *)
  cs_responses : Outcome Z;      (* len(query_selector_all(response_content)) *)
  cs_final_state : AgentState.t; (* get_state() one second later *)
  cs_response : option string    (* _extract_last_response() *)
}.

Inductive StepResult : Type :=
| Return (r : option string)
| Continue (saw_running : bool).

(** The loop body after the shutdown test and the sleep. *)
Definition poll_step (saw_running : bool) (x : Sample) : StepResult :=
  match cs_state x with
  | AgentState.RUNNING => Continue true
  | AgentState.RATE_LIMITED => Return None
  | AgentState.READY =>
      let started :=
        if saw_running then true
        else match cs_responses x with
             | Returns n => 1 <? n
             | Raises => false
             end in
      if started then
        match cs_final_state x with
        | AgentState.READY => Return (cs_response x)
        | _ => Continue true
        end
      else Continue false
  | _ => Continue saw_running
  end.

Fixpoint poll_loop (a : Agent) (samples : list Sample) (elapsed : Q)
    (saw_running : bool) : WaitResult :=
  if Qlt_bool elapsed (max_wait_per_prompt a) then
    match samples with
    | [] => Pending
    | x :: rest =>
        if cs_shutdown x then Response None
        else
          match poll_step saw_running x with
          | Return r => Response r
          | Continue saw =>
              poll_loop a rest (elapsed + check_interval a)%Q saw
          end
    end
  else Response None.          (* timeout *)

Definition wait_for_response (a : Agent) (samples : list Sample)
  : WaitResult :=
  poll_loop a samples 0%Q false.

End Claude.

(* ===================================================================== *)
(** ** engine/runner.py                                                   *)
(* ===================================================================== *)

Module Runner.
Import Datetime Logger.

(** *** mark_json_deprecated *)

Definition deprecate_task (reason : string) (t : TaskEntry) : TaskEntry :=
  {| task_name := task_name t; attempt_number := attempt_number t;
     start_time := start_time t; end_time := end_time t;
     task_status := task_status t; agent_failed := agent_failed t;
     agent_failed_reason := agent_failed_reason t;
     deprecated := true;
     deprecated_reason := Some reason;
     duration_seconds := duration_seconds t;
     prompts := prompts t |}.

Definition deprecate_all (reason : string) (d : SessionData) : SessionData :=
  {| session_start_iso := session_start_iso d;
     sd_agent_name := sd_agent_name d;
     sd_prompt_version := sd_prompt_version d;
     sd_task_source := sd_task_source d;
     tasks := map (deprecate_task reason) (tasks d) |}.

(** A missing file is left alone; a write that fails is logged only. *)
Definition mark_json_deprecated (json_path : string) (reason : string)
    (fs : FileSystem) : FileSystem :=
  match files fs !! json_path with
  | None => fs
  | Some data => write_file json_path (deprecate_all reason data) fs
  end.

(** *** Configuration read at the top of run_automation *)

Record Config : Type := mk_config {
  max_agent_attempts : Z;
  max_total_attempts : Z;
  max_sec_per_task : Q;
  cfg_task_name : string;
  cfg_agent_name : string;
  cfg_prompt_version : Z;
  cfg_task_source : string;
  files_to_upload : list string;
  json_logs_dir : string;
  no_hold : bool
}.

(** *** What one loop iteration observes *)

(** Calls the agent makes on the logger while it processes the prompts. *)
Inductive PromptEvent : Type :=
| EvStartPrompt (text : string) (now : datetime)
| EvEndPrompt (success : bool) (resp_len : Z) (now : datetime).

Record AttemptEnv : Type := mk_env {
  (* loop top *)
  e_wall_elapsed : Q;           (* time.time() - task_wall_start *)
  e_shutdown : bool;            (* shutdown_event.is_set() *)
  (* Phase 1 *)
  e_launch : Outcome unit;      (* BrowserManager, playwright, launch_browser,
                                   stale pages, new_page, create_agent *)
  e_navigate : bool;            (* agent.navigate_to_new_chat() *)
  e_state : AgentState.t;       (* agent.get_state() *)
  e_login_states : nat -> AgentState.t;  (* get_state() at the k-th login poll *)
  e_upload : bool;              (* agent.upload_files(files_to_upload) *)
  e_pipeline_teardown : Outcome unit;    (* playwright_ctx.__aexit__ in the
                                            inner except PipelineError *)
  (* Phase 2 *)
  e_mkdir_ok : bool;            (* log_dir.mkdir in CompletionLogger() *)
  e_now_init : datetime;        (* datetime.now() in CompletionLogger() *)
  e_now_start : datetime;       (* datetime.now() in start_task *)
  e_prompt_events : list PromptEvent;
  e_prompts : Outcome bool;     (* agent.process_all_prompts(...) *)
  e_timed_out : bool;           (* attempt_timed_out when it is read *)
  e_download : Outcome (list string);    (* download_all_artifacts *)
  e_validate : string -> Outcome (bool * TaskStatus.t);  (* validate_excel_file *)
  e_rename : Outcome unit;      (* the rename_solution_file loop *)
  e_now_end : datetime;         (* datetime.now() in end_task *)
  e_history_and_upload : Outcome unit;   (* conversation file, cloud upload *)
  e_hold_released : bool;       (* the shutdown event is eventually set
                                   while the browser is held open *)
  e_teardown : Outcome unit     (* playwright_ctx.__aexit__ after success *)
}.

(** *** Phase 1 *)

Inductive Phase1Result : Type :=
| P1Ok
| P1Pipeline (status : TaskStatus.t)   (* PipelineError, caught by the loop *)
| P1Crash.                             (* any other exception: not caught *)

(** The login wait: [n] polls remain ([while elapsed < 300], 10s apart),
    the next one is poll [i]; returns the last state read. *)
Fixpoint login_wait (polls : nat -> AgentState.t) (n i : nat)
    (state : AgentState.t) : AgentState.t :=
  match n with
  | O => state
  | S n' =>
      let s := polls i in
      if AgentState.eqb s AgentState.READY then s
      else login_wait polls n' (S i) s
  end.

(** The body of the inner [try]: [inl] is the raised PipelineError. *)
Definition pipeline (cfg : Config) (e : AttemptEnv) : TaskStatus.t + unit :=
  if negb (e_navigate e) then inl TaskStatus.NAVIGATION_FAILED
  else
    let state := e_state e in
    let after_auth : TaskStatus.t + AgentState.t :=
      if AgentState.eqb state AgentState.AUTH_REQUIRED then
        let s := login_wait (e_login_states e) 30 0 state in
        if negb (AgentState.eqb s AgentState.READY)
        then inl TaskStatus.AUTH_FAILED else inr s
      else inr state in
    match after_auth with
    | inl err => inl err
    | inr state =>
        if AgentState.eqb state AgentState.RATE_LIMITED
        then inl TaskStatus.RATE_LIMITED
        else
          match files_to_upload cfg with
          | [] => inr tt
          | _ :: _ =>
              if negb (e_upload e) then inl TaskStatus.UPLOAD_FAILED
              else inr tt
          end
    end.

Definition phase1 (cfg : Config) (e : AttemptEnv) : Phase1Result :=
  match e_launch e with
  | Raises => P1Crash
  | Returns _ =>
      match pipeline cfg e with
      | inl status =>
          (* cleanup, close playwright, re-raise *)
          match e_pipeline_teardown e with
          | Raises => P1Crash
          | Returns _ => P1Pipeline status
          end
      | inr _ => P1Ok
      end
  end.

(** *** Loop state *)

Record RunState : Type := mk_run {
  total_attempts : Z;
  agent_attempts : Z;
  agent_json_paths : list string;
  fs : FileSystem;
  task_success : bool
}.

(** The variables Phase 2 works on: the loop state and this attempt's
    [completion_logger] (None until it is constructed). *)
Record Frame : Type := mk_frame {
  run : RunState;
  completion_logger : option CompletionLogger
}.

(** Phase 2 runs inside [try ... except Exception]: a step returns or
    raises, and the variables keep the values they had at that point. *)
Definition P2 (A : Type) : Type := Frame -> Outcome A * Frame.

Definition ret {A} (a : A) : P2 A := fun f => (Returns a, f).

Definition bind {A B} (m : P2 A) (k : A -> P2 B) : P2 B :=
  fun f =>
    match m f with
    | (Returns a, f') => k a f'
    | (Raises, f') => (Raises, f')
    end.

Notation "'let*' x ':=' c1 'in' c2" := (bind c1 (fun x => c2))
  (at level 10, x name, c1 at level 100, c2 at level 200).
Notation "c1 '>>' c2" := (bind c1 (fun _ => c2))
  (at level 100, c2 at level 200, right associativity).

(** An outside call. *)
Definition call {A} (o : Outcome A) : P2 A := fun f => (o, f).

(** An assignment to the variables. *)
Definition modify (g : Frame -> Frame) : P2 unit := fun f => (Returns tt, g f).

Definition set_total (n : Z) (st : RunState) : RunState :=
  {| total_attempts := n; agent_attempts := agent_attempts st;
     agent_json_paths := agent_json_paths st; fs := fs st;
     task_success := task_success st |}.

(** [agent_attempts += 1] *)
Definition charge (f : Frame) : Frame :=
  {| run := {| total_attempts := total_attempts (run f);
               agent_attempts := agent_attempts (run f) + 1;
               agent_json_paths := agent_json_paths (run f);
               fs := fs (run f);
               task_success := task_success (run f) |};
     completion_logger := completion_logger f |}.

(** Apply a logger method to this attempt's logger and the disk. *)
Definition with_logger
    (op : CompletionLogger -> FileSystem -> CompletionLogger * FileSystem)
    (f : Frame) : Frame :=
  match completion_logger f with
  | None => f
  | Some cl =>
      let '(cl', fs') := op cl (fs (run f)) in
      {| run := {| total_attempts := total_attempts (run f);
                   agent_attempts := agent_attempts (run f);
                   agent_json_paths := agent_json_paths (run f);
                   fs := fs';
                   task_success := task_success (run f) |};
         completion_logger := Some cl' |}
  end.

(** [agent_json_paths.append(completion_logger.session_file)] *)
Definition append_path (f : Frame) : Frame :=
  match completion_logger f with
  | None => f
  | Some cl =>
      {| run := {| total_attempts := total_attempts (run f);
                   agent_attempts := agent_attempts (run f);
                   agent_json_paths :=
                     agent_json_paths (run f) ++ [session_file cl];
                   fs := fs (run f);
                   task_success := task_success (run f) |};
         completion_logger := completion_logger f |}
  end.

(** The three lines every classified exit of Phase 2 shares. *)
Definition close_attempt (status : TaskStatus.t) (now : datetime) : P2 unit :=
  modify charge >>
  modify (with_logger (end_task status now)) >>
  modify append_path.

Definition set_success (f : Frame) : Frame :=
  {| run := {| total_attempts := total_attempts (run f);
               agent_attempts := agent_attempts (run f);
               agent_json_paths := agent_json_paths (run f);
               fs := fs (run f);
               task_success := true |};
     completion_logger := completion_logger f |}.

(** [CompletionLogger(...)] *)
Definition create_logger (cfg : Config) (e : AttemptEnv) : P2 unit :=
  fun f =>
    match Logger.init (json_logs_dir cfg) (Some (cfg_task_name cfg))
            (cfg_agent_name cfg) (cfg_prompt_version cfg)
            (cfg_task_source cfg) (e_mkdir_ok e) (e_now_init e)
            (fs (run f)) with
    | Raises => (Raises, f)
    | Returns (cl, fs') =>
        (Returns tt,
         {| run := {| total_attempts := total_attempts (run f);
                      agent_attempts := agent_attempts (run f);
                      agent_json_paths := agent_json_paths (run f);
                      fs := fs';
                      task_success := task_success (run f) |};
            completion_logger := Some cl |})
    end.

Definition replay_event (ev : PromptEvent) (f : Frame) : Frame :=
  match ev with
  | EvStartPrompt text now => with_logger (start_prompt text now) f
  | EvEndPrompt ok len now => with_logger (end_prompt ok len now) f
  end.

Definition replay_events (evs : list PromptEvent) (f : Frame) : Frame :=
  fold_left (fun f ev => replay_event ev f) evs f.

(** [f.lower().endswith((".xlsx", ".xls"))] *)
Definition lower_char (c : ascii) : ascii :=
  let n := nat_of_ascii c in
  if ((65 <=? n) && (n <=? 90))%nat then ascii_of_nat (n + 32) else c.

Fixpoint lower (s : string) : string :=
  match s with
  | EmptyString => EmptyString
  | String c rest => String (lower_char c) (lower rest)
  end.

Definition endswith (s suffix : string) : bool :=
  let n := String.length s in
  let m := String.length suffix in
  ((m <=? n)%nat && String.eqb (String.substring (n - m) m s) suffix).

Definition is_excel (path : string) : bool :=
  endswith (lower path) ".xlsx" || endswith (lower path) ".xls".

(** The validation loop: the status of the first file that fails. *)
Fixpoint validate_all (validate : string -> Outcome (bool * TaskStatus.t))
    (excel_files : list string) : Outcome (option TaskStatus.t) :=
  match excel_files with
  | [] => Returns None
  | fpath :: rest =>
      match validate fpath with
      | Raises => Raises
      | Returns (true, _) => validate_all validate rest
      | Returns (false, val_status) => Returns (Some val_status)
      end
  end.

(** How the body of Phase 2 leaves the iteration. *)
Inductive Flow : Type :=
| FlowContinue        (* continue: back to the loop top *)
| FlowBreak           (* break after task_success = True *)
| FlowHold.           (* waiting for Ctrl+C with the browser open, forever *)

(** *** Phase 2: the body of the outer [try]

    The timeout guard and the [finally] clause act on the shutdown event
    only (set it when the guard fires, clear it after a timed-out
    attempt); the loop reads the event through [e_shutdown] and the agent
    through its own observations, so the event is not a variable of the
    frame.  [e_timed_out] is the flag the guard leaves behind. *)
Definition phase2_body (cfg : Config) (e : AttemptEnv) : P2 Flow :=
  create_logger cfg e >>
  (fun f => modify (with_logger
     (start_task (cfg_task_name cfg) (total_attempts (run f))
        (e_now_start e))) f) >>
  modify (replay_events (e_prompt_events e)) >>
  let* prompt_success := call (e_prompts e) in
  if negb prompt_success then
    let status := if e_timed_out e then TaskStatus.TIMEOUT
                  else TaskStatus.PROMPT_FAILED in
    close_attempt status (e_now_end e) >>
    (* archival download, cleanup: every exception swallowed *)
    ret FlowContinue
  else
    let* downloaded_files := call (e_download e) in
    match downloaded_files with
    | [] =>
        close_attempt TaskStatus.DOWNLOAD_FAILED (e_now_end e) >>
        ret FlowContinue
    | _ :: _ =>
        match List.filter is_excel downloaded_files with
        | [] =>
            close_attempt TaskStatus.DOWNLOAD_FAILED (e_now_end e) >>
            ret FlowContinue
        | (_ :: _) as excel_files =>
            let* failed := call (validate_all (e_validate e) excel_files) in
            match failed with
            | Some val_status =>
                close_attempt val_status (e_now_end e) >>
                ret FlowContinue
            | None =>
                call (e_rename e) >>
                close_attempt TaskStatus.SUCCESS (e_now_end e) >>
                call (e_history_and_upload e) >>
                if negb (no_hold cfg) && negb (e_hold_released e)
                then ret FlowHold
                else
                  call (e_teardown e) >>
                  modify set_success >>
                  ret FlowBreak
            end
        end
    end.

(** *** The [except Exception] handler of Phase 2 *)
Definition phase2_handler (e : AttemptEnv) (f : Frame) : Frame :=
  let f1 := charge f in
  match completion_logger f1 with
  | Some cl =>
      match current_task cl with
      | Some _ =>
          append_path (with_logger (end_task TaskStatus.UNKNOWN (e_now_end e)) f1)
      | None => f1
      end
  | None => f1
  end.

(** *** One iteration, after the four termination tests *)
Inductive LoopStep : Type :=
| Again (st : RunState)      (* continue *)
| Stop (st : RunState)       (* break *)
| Crash (st : RunState)      (* an exception leaves run_automation *)
| Hold (st : RunState).      (* never returns *)

Definition attempt (cfg : Config) (st : RunState) (e : AttemptEnv)
  : LoopStep :=
  let st1 := set_total (total_attempts st + 1) st in
  match phase1 cfg e with
  | P1Crash => Crash st1
  | P1Pipeline _ => Again st1       (* warning, sleep, continue *)
  | P1Ok =>
      match phase2_body cfg e {| run := st1; completion_logger := None |} with
      | (Returns FlowContinue, f) => Again (run f)
      | (Returns FlowBreak, f) => Stop (run f)
      | (Returns FlowHold, f) => Hold (run f)
      | (Raises, f) => Again (run (phase2_handler e f))
      end
  end.

(** *** The retry loop *)
Inductive RunResult : Type :=
| Returned (st : RunState)   (* run_automation returned task_success *)
| Crashed (st : RunState)
| Held (st : RunState)
| OutOfFuel.

Definition limits_reached (cfg : Config) (st : RunState) (e : AttemptEnv)
  : bool :=
  (max_total_attempts cfg <=? total_attempts st)
  || (max_agent_attempts cfg <=? agent_attempts st)
  || (Qlt_bool 0 (max_sec_per_task cfg)
      && Qle_bool (max_sec_per_task cfg) (e_wall_elapsed e))
  || e_shutdown e.

(** [env i] is what the [i]-th iteration observes. *)
Fixpoint retry_loop (fuel : nat) (cfg : Config) (env : nat -> AttemptEnv)
    (i : nat) (st : RunState) : RunResult :=
  match fuel with
  | O => OutOfFuel
  | S fuel' =>
      if limits_reached cfg st (env i) then Returned st
      else
        match attempt cfg st (env i) with
        | Again st' => retry_loop fuel' cfg env (S i) st'
        | Stop st' => Returned st'
        | Crash st' => Crashed st'
        | Hold st' => Held st'
        end
  end.

(** Post-loop: deprecate earlier agent JSONs. *)
Definition deprecate_earlier (st : RunState) : RunState :=
  if (1 <? length (agent_json_paths st))%nat then
    {| total_attempts := total_attempts st;
       agent_attempts := agent_attempts st;
       agent_json_paths := agent_json_paths st;
       fs := fold_left
               (fun fs path =>
                  mark_json_deprecated path "Superseded by later attempt" fs)
               (removelast (agent_json_paths st)) (fs st);
       task_success := task_success st |}
  else st.

Definition initial_state (fs0 : FileSystem) : RunState :=
  {| total_attempts := 0; agent_attempts := 0; agent_json_paths := [];
     fs := fs0; task_success := false |}.

(** The loop makes at most [max_total_attempts] iterations, plus the one
    that finds the limit reached. *)
Definition run_automation (cfg : Config) (env : nat -> AttemptEnv)
    (fs0 : FileSystem) : RunResult :=
  match retry_loop (S (Z.to_nat (max_total_attempts cfg))) cfg env 0%nat
          (initial_state fs0) with
  | Returned st => Returned (deprecate_earlier st)
  | r => r
  end.

End Runner.

(* ===================================================================== *)
(** * Properties                                                          *)
(* ===================================================================== *)

Local Open Scope list_scope.

(** ** Sample values used by the concrete checks *)

Definition sample_time (s : nat) : Datetime.datetime :=
  Datetime.mk_datetime 2025 3 7 9 5 s 0.

Definition empty_fs : Logger.FileSystem :=
  {| Logger.files := ∅; Logger.writable := fun _ => true |}.

Definition sample_logger : Logger.CompletionLogger :=
  {| Logger.log_dir := "json_logs";
     Logger.task_identifier := Some "demo";
     Logger.agent_name := "chatgpt_web";
     Logger.prompt_version := 1;
     Logger.task_source := "fmwc";
     Logger.session_start := sample_time 2;
     Logger.session_data :=
       {| Logger.session_start_iso := sample_time 2;
          Logger.sd_agent_name := "chatgpt_web";
          Logger.sd_prompt_version := 1;
          Logger.sd_task_source := "fmwc";
          Logger.tasks := [] |};
     Logger.current_task := None;
     Logger.current_prompt := None;
     Logger.session_file :=
       "json_logs/completion_chatgpt_web_20250307_090502_demo.json" |}.

(** ** The completion logger *)

Section LoggerFacts.
Import Datetime Logger.

(** The constructor of the usage example builds [sample_logger] and writes
    its (empty) document. *)
Example init_sample :
  init "json_logs" (Some "demo") "chatgpt_web" 1 "fmwc" true (sample_time 2)
    empty_fs
  = Returns (sample_logger, _write_to_disk sample_logger empty_fs).
Proof. reflexivity. Qed.

Lemma write_file_lookup p d fs :
  writable fs p = true -> files (write_file p d fs) !! p = Some d.
Proof.
  intros Hw. unfold write_file. rewrite Hw. simpl. apply lookup_insert_eq.
Qed.

Lemma write_file_lookup_ne p q d fs :
  p <> q -> files (write_file p d fs) !! q = files fs !! q.
Proof.
  intros Hne. unfold write_file. destruct (writable fs p); simpl; [|done].
  by apply lookup_insert_ne.
Qed.

Lemma write_file_writable p d fs :
  writable (write_file p d fs) = writable fs.
Proof. unfold write_file. by destruct (writable fs p). Qed.

(** Every call that changes the logger ends with a write of [session_data]
    to [session_file]. *)
Lemma mutators_write_session_data cl fs name n text status ok len now :
  snd (start_task name n now cl fs)
    = _write_to_disk (fst (start_task name n now cl fs)) fs
  /\ snd (start_prompt text now cl fs)
    = _write_to_disk (fst (start_prompt text now cl fs)) fs
  /\ (current_task cl <> None ->
      snd (end_task status now cl fs)
        = _write_to_disk (fst (end_task status now cl fs)) fs)
  /\ (current_prompt cl <> None ->
      snd (end_prompt ok len now cl fs)
        = _write_to_disk (fst (end_prompt ok len now cl fs)) fs).
Proof.
  repeat split; try reflexivity.
  - intros H. unfold end_task. destruct (current_task cl); [reflexivity|done].
  - intros H. unfold end_prompt.
    destruct (current_prompt cl); [reflexivity|done].
Qed.

(** C9.  The write that follows [start_task], [start_prompt] and
    [end_prompt] stores the document the logger held BEFORE the call: the
    task just started, the prompt just started and the prompt just closed
    live in [current_task] / [current_prompt], which [_write_to_disk] does
    not dump.  So after these three transitions the file does not reflect
    the transition; the update stays in memory until [end_task]. *)
Theorem in_progress_entries_not_written :
  forall (cl : CompletionLogger) (fs : FileSystem) (name text : string)
         (n len : Z) (ok : bool) (now : datetime),
    (let '(cl', fs') := start_task name n now cl fs in
     current_task cl' = Some (new_task name n now)
     /\ session_data cl' = session_data cl
     /\ fs' = _write_to_disk cl fs)
    /\ (let '(cl', fs') := start_prompt text now cl fs in
        current_prompt cl' <> None
        /\ session_data cl' = session_data cl
        /\ fs' = _write_to_disk cl fs)
    /\ (forall p t,
          current_prompt cl = Some p -> current_task cl = Some t ->
          let '(cl', fs') := end_prompt ok len now cl fs in
          current_task cl'
            = Some (add_prompt (close_prompt ok len now p) t)
          /\ session_data cl' = session_data cl
          /\ fs' = _write_to_disk cl fs).
Proof.
  intros. split; [|split].
  - simpl. auto.
  - simpl. repeat split. discriminate.
  - intros p t Hp Ht. unfold end_prompt. rewrite Hp, Ht. simpl. auto.
Qed.

(** The failing input of C9 run through the code: a fresh logger, then
    [start_task].  The logger holds the started task; the file on disk
    still lists no task at all. *)
Example start_task_not_on_disk :
  let '(cl, fs) := start_task "demo" 1 (sample_time 3) sample_logger
                     (_write_to_disk sample_logger empty_fs) in
  current_task cl = Some (new_task "demo" 1 (sample_time 3))
  /\ tasks <$> (files fs !! session_file cl) = Some [].
Proof. split; reflexivity. Qed.

(** C10.  [end_task] with no active task and [end_prompt] with no active
    prompt return at once: the logger and the disk are what they were. *)
Theorem end_without_active_is_noop :
  forall (cl : CompletionLogger) (fs : FileSystem) (now : datetime),
    (current_task cl = None ->
     forall status, end_task status now cl fs = (cl, fs))
    /\ (current_prompt cl = None ->
        forall ok len, end_prompt ok len now cl fs = (cl, fs)).
Proof.
  intros cl fs now. split; intros H; intros.
  - unfold end_task. by rewrite H.
  - unfold end_prompt. by rewrite H.
Qed.

Lemma end_without_active_is_noop_witness :
  end_task TaskStatus.SUCCESS (sample_time 9) sample_logger empty_fs
    = (sample_logger, empty_fs)
  /\ end_prompt true 11 (sample_time 9) sample_logger empty_fs
    = (sample_logger, empty_fs).
Proof.
  split.
  - apply (proj1 (end_without_active_is_noop sample_logger empty_fs
                    (sample_time 9))).
    reflexivity.
  - apply (proj2 (end_without_active_is_noop sample_logger empty_fs
                    (sample_time 9))).
    reflexivity.
Defined.

End LoggerFacts.

(** ** The ChatGPT agent: baseline and generation start *)

Section ChatGPTFacts.
Import ChatGPT.

Lemma wait_for_response_baseline (a : Agent) (sc : Script) :
  let a' := snd (wait_for_response a sc) in
  _baseline_set a' = true
  /\ _baseline_article_count a'
     = (if _baseline_set a then _baseline_article_count a else pre_count sc).
Proof.
  unfold wait_for_response.
  destruct (start_phase _ _ _ _);
    [destruct (stabilize _ _ _); [| | destruct (final_response sc) as [r|];
       [destruct (py_len r); [|destruct (50 <? _)%nat]|] |] | |];
    simpl; destruct (_baseline_set a) eqn:E; simpl; auto.
Qed.

(** Later calls of one session, each with its own observations. *)
Definition wait_many (a : Agent) (scripts : list Script) : Agent :=
  fold_left (fun a sc => snd (wait_for_response a sc)) scripts a.

Lemma wait_many_keeps_baseline (scripts : list Script) :
  forall a, _baseline_set a = true ->
    _baseline_article_count (wait_many a scripts) = _baseline_article_count a
    /\ _baseline_set (wait_many a scripts) = true.
Proof.
  induction scripts as [|sc rest IH]; intros a Hset; simpl; [auto|].
  destruct (wait_for_response_baseline a sc) as [Hs Hc].
  rewrite Hset in Hc.
  destruct (IH _ Hs) as [IHc IHs]. unfold wait_many in *.
  split; [congruence | exact IHs].
Qed.

(** C4.  The first [wait_for_response] of a session leaves the baseline
    set (to the article count it saw, when none was stored); whatever the
    later calls of the session observe, and however they end, the stored
    baseline keeps the value it had after the first call. *)
Theorem baseline_captured_once :
  forall (a : Agent) (first : Script) (later : list Script),
    let a1 := snd (wait_for_response a first) in
    _baseline_set a1 = true
    /\ _baseline_article_count (wait_many a1 later)
       = _baseline_article_count a1.
Proof.
  intros a first later a1.
  destruct (wait_for_response_baseline a first) as [Hs _].
  split; [exact Hs|].
  apply (wait_many_keeps_baseline later a1 Hs).
Qed.

(** A fresh agent stores the count seen by its first call. *)
Lemma first_call_stores_count max_wait check mode ext sc :
  _baseline_article_count
    (snd (wait_for_response (new_agent max_wait check mode ext) sc))
  = pre_count sc.
Proof.
  destruct (wait_for_response_baseline (new_agent max_wait check mode ext) sc)
    as [_ Hc]. exact Hc.
Qed.

(** Phase 1 on polls that show neither indicator. *)
Lemma start_phase_never (samples : nat -> StartSample) (baseline : Z) :
  forall n i,
    (forall k, (i <= k < i + n)%nat ->
       ss_generating (samples k) = false /\ ss_count (samples k) <= baseline) ->
    start_phase samples baseline n i <> Started.
Proof.
  induction n as [|n IH]; intros i H; simpl; [discriminate|].
  destruct (H i ltac:(lia)) as [Hg Hc].
  destruct (ss_shutdown (samples i)); [discriminate|].
  rewrite Hg.
  destruct (baseline <? ss_count (samples i)) eqn:E; [lia|].
  apply IH. intros k Hk. apply H. lia.
Qed.

Lemma start_phase_started_inv (samples : nat -> StartSample) (baseline : Z) :
  forall n i,
    start_phase samples baseline n i = Started ->
    exists k, (i <= k < i + n)%nat
      /\ (ss_generating (samples k) = true \/ baseline < ss_count (samples k)).
Proof.
  induction n as [|n IH]; intros i H; simpl in H; [discriminate|].
  destruct (ss_shutdown (samples i)); [discriminate|].
  destruct (ss_generating (samples i)) eqn:Hg.
  - exists i. split; [lia | auto].
  - destruct (baseline <? ss_count (samples i)) eqn:E.
    + exists i. split; [lia | right; lia].
    + destruct (IH _ H) as (k & Hk & Hs). exists k. split; [lia | exact Hs].
Qed.

Lemma chatgpt_no_start_returns_none (a : Agent) (sc : Script) :
  (forall k, (k < 60)%nat ->
     ss_generating (start_samples sc k) = false
     /\ ss_count (start_samples sc k) <= pre_count sc) ->
  forall stab fin,
    fst (wait_for_response a
           {| pre_count := pre_count sc; start_samples := start_samples sc;
              stab_samples := stab; final_response := fin |})
    = Response None.
Proof.
  intros H stab fin. unfold wait_for_response.
  cbn [pre_count start_samples stab_samples final_response fst].
  pose proof (start_phase_never (start_samples sc) (pre_count sc) 60 0) as Hn.
  destruct (start_phase (start_samples sc) (pre_count sc) 60 0);
    [exfalso; apply Hn; [intros k Hk; apply H; lia | reflexivity] | |];
    reflexivity.
Qed.

End ChatGPTFacts.

(** ** The Claude agent: no separate start bound *)

Section ClaudeFacts.
Import Claude.

(** A poll shows that generation started when the state is RUNNING, or it
    is READY and the fallback finds more than one response block: the two
    places where the loop sets [saw_running]. *)
Definition shows_start (x : Sample) : bool :=
  match cs_state x with
  | AgentState.RUNNING => true
  | AgentState.READY =>
      match cs_responses x with
      | Returns n => 1 <? n
      | Raises => false
      end
  | _ => false
  end.

Lemma poll_step_no_start (x : Sample) :
  shows_start x = false ->
  poll_step false x = Return None \/ poll_step false x = Continue false.
Proof.
  unfold shows_start, poll_step.
  destruct (cs_state x); try discriminate; auto.
  destruct (cs_responses x) as [n|]; intros H; [rewrite H|]; auto.
Qed.

Lemma poll_loop_no_start (a : Agent) (samples : list Sample) :
  forall elapsed,
    Forall (fun x => shows_start x = false) samples ->
    forall r, poll_loop a samples elapsed false <> Response (Some r).
Proof.
  induction samples as [|x rest IH]; intros elapsed Hall r; simpl.
  - destruct (Qlt_bool _ _); discriminate.
  - inversion Hall as [|? ? Hx Hrest]; subst.
    destruct (Qlt_bool _ _); [|discriminate].
    destruct (cs_shutdown x); [discriminate|].
    destruct (poll_step_no_start x Hx) as [-> | ->]; [discriminate|].
    by apply IH.
Qed.

Lemma inject_succ (n : nat) :
  (inject_Z (Z.of_nat (S n)) == inject_Z (Z.of_nat n) + 1)%Q.
Proof.
  rewrite Nat2Z.inj_succ. unfold Z.succ. rewrite inject_Z_plus. reflexivity.
Qed.

Lemma poll_loop_no_start_timeout (a : Agent) (samples : list Sample) :
  forall elapsed,
    Forall (fun x => shows_start x = false) samples ->
    (max_wait_per_prompt a
       <= elapsed + inject_Z (Z.of_nat (length samples)) * check_interval a)%Q ->
    poll_loop a samples elapsed false = Response None.
Proof.
  induction samples as [|x rest IH]; intros elapsed Hall Hcover; simpl.
  - destruct (Qlt_bool elapsed (max_wait_per_prompt a)) eqn:E; [|reflexivity].
    exfalso. unfold Qlt_bool in E. apply negb_true_iff in E.
    assert (Hle : (max_wait_per_prompt a <= elapsed)%Q).
    { simpl in Hcover. unfold inject_Z in Hcover.
      rewrite Qmult_0_l, Qplus_0_r in Hcover. exact Hcover. }
    apply Qle_bool_iff in Hle. congruence.
  - inversion Hall as [|? ? Hx Hrest]; subst.
    destruct (Qlt_bool elapsed (max_wait_per_prompt a)); [|reflexivity].
    destruct (cs_shutdown x); [reflexivity|].
    destruct (poll_step_no_start x Hx) as [-> | ->]; [reflexivity|].
    apply IH; [exact Hrest|].
    eapply Qle_trans; [exact Hcover|].
    change (length (x :: rest)) with (S (length rest)).
    rewrite inject_succ. apply Qle_lteq. right. ring.
Qed.

(** The observations of the late start: 61 polls, two seconds apart, on
    which the page is READY with no response block; then one RUNNING poll;
    then READY twice with the response on the page. *)
Definition quiet_poll : Sample :=
  {| cs_shutdown := false; cs_state := AgentState.READY;
     cs_responses := Returns 0; cs_final_state := AgentState.READY;
     cs_response := None |}.

Definition running_poll : Sample :=
  {| cs_shutdown := false; cs_state := AgentState.RUNNING;
     cs_responses := Returns 0; cs_final_state := AgentState.RUNNING;
     cs_response := None |}.

Definition finished_poll : Sample :=
  {| cs_shutdown := false; cs_state := AgentState.READY;
     cs_responses := Returns 2; cs_final_state := AgentState.READY;
     cs_response := Some "done" |}.

Definition late_start : list Sample :=
  replicate 61 quiet_poll ++ [running_poll; finished_poll].

Definition default_claude : Agent :=
  {| max_wait_per_prompt := 1800; check_interval := 2 |}.

(** C3 as stated, on the Claude agent: nothing shows a start on any poll
    made within the first 120 seconds, and the routine still goes on to
    return a response. *)
Lemma claude_late_start_returns_response :
  (forall k x,
     late_start !! k = Some x ->
     (inject_Z (Z.of_nat (S k)) * check_interval default_claude <= 120)%Q ->
     shows_start x = false)
  /\ wait_for_response default_claude late_start = Response (Some "done").
Proof.
  split; [|vm_compute; reflexivity].
  intros k x Hk Hq.
  assert (Hlt : (k < 61)%nat).
  { unfold Qle in Hq. simpl in Hq. lia. }
  unfold late_start in Hk.
  rewrite lookup_app_l in Hk by (rewrite length_replicate; exact Hlt).
  apply lookup_replicate in Hk as [-> _]. reflexivity.
Qed.

End ClaudeFacts.

(** C3, amended.  ChatGPT: when none of the 60 start polls shows a
    generation indicator or an article count above the pre-prompt count,
    [wait_for_response] returns None whatever the stabilization phase would
    have observed.  Claude: there is no separate start bound; while no poll
    shows a start the routine never returns a response, and it returns None
    once the polls cover [max_wait_per_prompt]. *)
Theorem no_generation_start_returns_none :
  (forall (a : ChatGPT.Agent) (sc : ChatGPT.Script),
     (forall k, (k < 60)%nat ->
        ChatGPT.ss_generating (ChatGPT.start_samples sc k) = false
        /\ ChatGPT.ss_count (ChatGPT.start_samples sc k)
           <= ChatGPT.pre_count sc) ->
     forall stab fin,
       fst (ChatGPT.wait_for_response a
              {| ChatGPT.pre_count := ChatGPT.pre_count sc;
                 ChatGPT.start_samples := ChatGPT.start_samples sc;
                 ChatGPT.stab_samples := stab;
                 ChatGPT.final_response := fin |})
       = Response None)
  /\ (forall (a : Claude.Agent) (samples : list Claude.Sample),
        Forall (fun x => shows_start x = false) samples ->
        (forall r, Claude.wait_for_response a samples <> Response (Some r))
        /\ ((Claude.max_wait_per_prompt a
               <= inject_Z (Z.of_nat (length samples))
                  * Claude.check_interval a)%Q ->
            Claude.wait_for_response a samples = Response None)).
Proof.
  split.
  - exact chatgpt_no_start_returns_none.
  - intros a samples Hall. split.
    + intros r. by apply poll_loop_no_start.
    + intros Hcover. apply poll_loop_no_start_timeout; [exact Hall|].
      by rewrite Qplus_0_l.
Qed.

Definition idle_start_script : ChatGPT.Script :=
  {| ChatGPT.pre_count := 2;
     ChatGPT.start_samples := fun _ =>
       {| ChatGPT.ss_shutdown := false; ChatGPT.ss_generating := false;
          ChatGPT.ss_count := 2 |};
     ChatGPT.stab_samples := [];
     ChatGPT.final_response := Some "stale text from an earlier answer" |}.

Definition default_chatgpt : ChatGPT.Agent :=
  ChatGPT.new_agent 1800 3 true true.

Definition short_claude : Claude.Agent :=
  {| Claude.max_wait_per_prompt := 10; Claude.check_interval := 2 |}.

Lemma no_generation_start_returns_none_witness :
  fst (ChatGPT.wait_for_response default_chatgpt idle_start_script)
    = Response None
  /\ Claude.wait_for_response short_claude (replicate 5 quiet_poll)
    = Response None.
Proof.
  split.
  - apply (proj1 no_generation_start_returns_none default_chatgpt
             idle_start_script).
    intros k _. simpl. split; [reflexivity | lia].
  - apply (proj2 no_generation_start_returns_none short_claude
             (replicate 5 quiet_poll)).
    + repeat constructor.
    + unfold Qle. simpl. lia.
Defined.

(** ** navigate_to_new_chat *)

(** ChatGPT returns False only when a page call raised or the chat input
    never attached, before and after the reload. *)
Lemma chatgpt_navigate_false (a : ChatGPT.Agent) (p : ChatGPT.NavPage) :
  fst (ChatGPT.navigate_to_new_chat a p) = false ->
  ChatGPT.nav_goto p = Raises \/ ChatGPT.nav_title p = Raises
  \/ (ChatGPT.nav_input_initial p = false
      /\ (ChatGPT.nav_reload p = Raises
          \/ ChatGPT.nav_input_after_reload p = false)).
Proof.
  unfold ChatGPT.navigate_to_new_chat.
  destruct (ChatGPT.nav_goto p); [|auto].
  destruct (ChatGPT.nav_title p); [|auto].
  destruct (negb _); [discriminate|].
  destruct (AgentState.eqb _ _); [discriminate|].
  destruct (ChatGPT.nav_input_initial p); [discriminate|].
  destruct (ChatGPT.nav_reload p); [|auto].
  destruct (ChatGPT.nav_input_after_reload p); [discriminate|auto].
Qed.

(** Claude returns False exactly when the load raised or the loaded page
    asks for a login. *)
Lemma claude_navigate_false (p : Claude.NavPage) :
  Claude.navigate_to_new_chat p = false <->
  Claude.nav_goto p = Raises
  \/ Claude.nav_state p = AgentState.AUTH_REQUIRED.
Proof.
  unfold Claude.navigate_to_new_chat.
  destruct (Claude.nav_goto p) as [[]|]; [|intuition].
  destruct (Claude.nav_state p); simpl; split; intros H;
    try discriminate; auto; destruct H as [H|H]; discriminate.
Qed.

(** C8.  The same observation, a page that loaded and shows the login
    state, on the two agents: ChatGPT returns True and leaves the login to
    the caller's wait loop; Claude returns False, which the runner turns
    into NAVIGATION_FAILED before its wait loop is reached. *)
Theorem navigate_on_login_page :
  (forall (a : ChatGPT.Agent) (url : string) (input1 input2 : bool)
          (reload : Outcome unit),
     fst (ChatGPT.navigate_to_new_chat a
            {| ChatGPT.nav_goto := Returns tt; ChatGPT.nav_url := url;
               ChatGPT.nav_title := Returns tt;
               ChatGPT.nav_state := AgentState.AUTH_REQUIRED;
               ChatGPT.nav_input_initial := input1;
               ChatGPT.nav_reload := reload;
               ChatGPT.nav_input_after_reload := input2 |}) = true)
  /\ Claude.navigate_to_new_chat
       {| Claude.nav_goto := Returns tt;
          Claude.nav_state := AgentState.AUTH_REQUIRED |} = false.
Proof.
  split; [|reflexivity].
  intros a url input1 input2 reload.
  unfold ChatGPT.navigate_to_new_chat. cbn [ChatGPT.nav_goto ChatGPT.nav_title
    ChatGPT.nav_url ChatGPT.nav_state fst].
  destruct (negb (str_contains "chatgpt.com" url)); reflexivity.
Qed.

(** ** The stabilization phase of the ChatGPT agent *)

Section Stabilization.
Import ChatGPT.

Variable a : Agent.

(** A sample with no generation indicator, text [r] and [c] articles. *)
Definition quiet_with (r : string) (c : Z) (x : StabSample) : Prop :=
  st_generating x = false /\ default "" (st_text x) = r /\ st_count x = c.

(** The counter counts the samples at the end of the history that were
    quiet with the text and the article count now remembered. *)
Definition counts_tail (hist : list StabSample) (s : StabState) : Prop :=
  exists pre tail,
    hist = (pre ++ tail)%list
    /\ Z.of_nat (length tail) = stable_count s
    /\ Forall (quiet_with (last_response_text s) (last_article_count s)) tail.

Lemma counts_tail_zero hist s : stable_count s = 0 -> counts_tail hist s.
Proof.
  intros H. exists hist, []. rewrite app_nil_r, H. repeat split. constructor.
Qed.

Lemma stab_step_busy s x :
  st_generating x = true \/ st_count x <> last_article_count s ->
  exists s', stab_step a s x = Continue s' /\ stable_count s' = 0.
Proof.
  intros H. unfold stab_step.
  assert (E : st_generating x || negb (st_count x =? last_article_count s)
              = true).
  { destruct H as [-> | H]; [reflexivity|].
    apply orb_true_iff. right. apply negb_true_iff. lia. }
  rewrite E. eexists. split; reflexivity.
Qed.

Lemma stab_step_text_changed s x :
  default "" (st_text x) <> last_response_text s ->
  exists s', stab_step a s x = Continue s' /\ stable_count s' = 0.
Proof.
  intros H. unfold stab_step.
  destruct (st_generating x || negb (st_count x =? last_article_count s));
    [eexists; split; reflexivity|].
  apply String.eqb_neq in H. rewrite H. simpl.
  eexists; split; reflexivity.
Qed.

Lemma stab_step_complete s x r :
  stab_step a s x = Complete r ->
  required_stable <= stable_count s + 1
  /\ (min_elapsed_sec a <= st_elapsed x)%Q
  /\ (50 < py_len r)%nat
  /\ quiet_with r (last_article_count s) x
  /\ r = last_response_text s.
Proof.
  unfold stab_step, quiet_with.
  destruct (st_generating x) eqn:Hg; [discriminate|]. simpl.
  destruct (st_count x =? last_article_count s) eqn:Hc; [|discriminate].
  simpl.
  destruct (String.eqb (default "" (st_text x)) (last_response_text s))
    eqn:Ht; simpl; [|discriminate].
  destruct (required_stable <=? stable_count s + 1) eqn:Hs; [|discriminate].
  destruct (50 <? py_len (default "" (st_text x)))%nat eqn:Hl;
    [|discriminate].
  destruct (Qle_bool (min_elapsed_sec a) (st_elapsed x)) eqn:He;
    [|discriminate].
  intros [= <-].
  apply String.eqb_eq in Ht. apply Qle_bool_iff in He.
  apply Nat.ltb_lt in Hl.
  repeat split; auto; lia.
Qed.

Lemma stab_step_continue_counts hist s x s' :
  counts_tail hist s ->
  stab_step a s x = Continue s' ->
  counts_tail (hist ++ [x])%list s'.
Proof.
  intros (pre & tail & -> & Hlen & Hall). unfold stab_step.
  destruct (st_generating x) eqn:Hg; simpl.
  { intros [= <-]. by apply counts_tail_zero. }
  destruct (st_count x =? last_article_count s) eqn:Hc; simpl;
    [|intros [= <-]; by apply counts_tail_zero].
  destruct (String.eqb (default "" (st_text x)) (last_response_text s))
    eqn:Ht; simpl;
    [|destruct (required_stable <=? 0); intros [= <-];
      by apply counts_tail_zero].
  apply String.eqb_eq in Ht.
  destruct (required_stable <=? stable_count s + 1) eqn:Hs.
  - destruct (50 <? _)%nat;
      [destruct (Qle_bool _ _); [discriminate|] |];
      intros [= <-]; by apply counts_tail_zero.
  - intros [= <-]. exists pre, (tail ++ [x]). simpl.
    split; [by rewrite app_assoc|].
    split; [rewrite length_app; simpl; lia|].
    rewrite Ht. apply Forall_app. split; [exact Hall|].
    constructor; [|constructor]. unfold quiet_with. repeat split; auto. lia.
Qed.

Lemma stab_step_complete_window hist s x r :
  counts_tail hist s ->
  stab_step a s x = Complete r ->
  exists pre window,
    (hist ++ [x] = pre ++ window)%list
    /\ length window = 5%nat
    /\ Forall (quiet_with r (st_count x)) window.
Proof.
  intros (pre & tail & -> & Hlen & Hall) Hstep.
  destruct (stab_step_complete _ _ _ Hstep)
    as (Hreq & _ & _ & Hq & Hr).
  unfold required_stable in Hreq.
  assert (Hall' : Forall (quiet_with r (st_count x)) (tail ++ [x])).
  { apply Forall_app. destruct Hq as (Hg & Ht & Hc).
    split; [rewrite Hr, Hc; exact Hall|].
    constructor; [|constructor]. repeat split; auto. }
  set (full := tail ++ [x]) in *.
  assert (Hfull : (5 <= length full)%nat).
  { unfold full. rewrite length_app. simpl. lia. }
  exists (pre ++ take (length full - 5) full), (drop (length full - 5) full).
  split; [|split].
  - rewrite <- !app_assoc. fold full. by rewrite take_drop.
  - rewrite length_drop. lia.
  - by apply Forall_drop.
Qed.

Lemma stabilize_completed_window (samples : list StabSample) :
  forall hist s r,
    counts_tail hist s ->
    stabilize a samples s = Completed r ->
    exists pre window post c,
      (hist ++ samples = pre ++ window ++ post)%list
      /\ length window = 5%nat
      /\ Forall (quiet_with r c) window
      /\ (50 < py_len r)%nat
      /\ exists x, last window = Some x
           /\ (min_elapsed_sec a <= st_elapsed x)%Q.
Proof.
  induction samples as [|x rest IH]; intros hist s r Hinv; simpl;
    [discriminate|].
  destruct (Qlt_bool _ _); [|discriminate].
  destruct (st_shutdown x); [discriminate|].
  destruct (stab_step a s x) as [r0|s'] eqn:Hstep.
  - intros [= ->].
    destruct (stab_step_complete_window _ _ _ _ Hinv Hstep)
      as (pre & window & Heq & Hlen & Hall).
    destruct (stab_step_complete _ _ _ Hstep) as (_ & Hel & Hl & _ & _).
    exists pre, window, rest, (st_count x).
    split; [|split; [exact Hlen|split; [exact Hall|split; [exact Hl|]]]].
    + change (x :: rest) with ([x] ++ rest).
      by rewrite (app_assoc hist), Heq, <- app_assoc.
    + exists x. split; [|exact Hel].
      assert (Hlast : last (hist ++ [x]) = Some x) by apply last_snoc.
      rewrite Heq in Hlast. rewrite last_app in Hlast.
      destruct (last window) eqn:E; [congruence|].
      apply last_None in E. subst window. discriminate.
  - intros Hrun.
    destruct (IH (hist ++ [x]) s' r
                (stab_step_continue_counts _ _ _ _ Hinv Hstep) Hrun)
      as (pre & window & post & c & Heq & Hrest).
    exists pre, window, post, c. split; [|exact Hrest].
    rewrite <- Heq, <- app_assoc. reflexivity.
Qed.

End Stabilization.

Section ReturnedText.
Import ChatGPT.

Lemma stabilize_completed_long (a : Agent) (samples : list StabSample) :
  forall s r, stabilize a samples s = Completed r ->
    (50 < py_len r)%nat.
Proof.
  induction samples as [|x rest IH]; intros s r; simpl; [discriminate|].
  destruct (Qlt_bool _ _); [|discriminate].
  destruct (st_shutdown x); [discriminate|].
  destruct (stab_step a s x) as [r0|s'] eqn:Hstep.
  - intros [= ->].
    by destruct (stab_step_complete a s x r Hstep) as (_ & _ & H & _).
  - apply IH.
Qed.

Lemma wait_for_response_some :
  forall (a : Agent) (sc : Script) (r : string),
    fst (wait_for_response a sc) = Response (Some r) ->
    (50 < py_len r)%nat
    /\ (stabilize (snd (wait_for_response a sc)) (stab_samples sc)
          (initial_stab_state (pre_count sc)) = Completed r
        \/ (stabilize (snd (wait_for_response a sc)) (stab_samples sc)
              (initial_stab_state (pre_count sc)) = TimedOut
            /\ final_response sc = Some r)).
Proof.
  intros a sc r. unfold wait_for_response.
  destruct (start_phase _ _ _ _); try discriminate.
  set (a' := if _baseline_set a then a else _).
  destruct (stabilize a' (stab_samples sc) _) as [r0| | |s] eqn:Hst;
    cbn [fst snd]; try discriminate.
  - intros [= ->]. split; [by apply (stabilize_completed_long a' _ _ _ Hst)|].
    left. destruct (final_response sc) as [r1|];
      [destruct (50 <? py_len r1)%nat|]; exact Hst.
  - destruct (final_response sc) as [r1|]; [|discriminate].
    destruct (50 <? py_len r1)%nat eqn:Hl; cbn [fst snd];
      [|discriminate].
    intros [= ->]. split; [by apply Nat.ltb_lt|]. right. auto.
Qed.

End ReturnedText.

(** C2.  In the stabilization loop of the ChatGPT agent: a sample with a
    generation indicator or a changed article count puts the counter back
    to zero; so does a sample whose text differs from the previous one;
    the loop returns the text only on a sample where the counter reaches 5,
    the elapsed time is at least the floor and the text is longer than 50
    characters; and then the five samples up to that return were all
    quiet, with one article count and the returned text.  The one other
    way [wait_for_response] returns a text is the fallback after the
    overall timeout, for a text longer than 50 characters. *)
Theorem stable_counter_protocol :
  forall (a : ChatGPT.Agent),
    (forall s x,
       ChatGPT.st_generating x = true
       \/ ChatGPT.st_count x <> ChatGPT.last_article_count s ->
       exists s', ChatGPT.stab_step a s x = ChatGPT.Continue s'
                  /\ ChatGPT.stable_count s' = 0)
    /\ (forall s x,
          default "" (ChatGPT.st_text x) <> ChatGPT.last_response_text s ->
          exists s', ChatGPT.stab_step a s x = ChatGPT.Continue s'
                     /\ ChatGPT.stable_count s' = 0)
    /\ (forall s x r,
          ChatGPT.stab_step a s x = ChatGPT.Complete r ->
          ChatGPT.required_stable <= ChatGPT.stable_count s + 1
          /\ (ChatGPT.min_elapsed_sec a <= ChatGPT.st_elapsed x)%Q
          /\ (50 < py_len r)%nat)
    /\ (forall samples baseline r,
          ChatGPT.stabilize a samples (ChatGPT.initial_stab_state baseline)
            = ChatGPT.Completed r ->
          exists pre window post c,
            samples = pre ++ window ++ post
            /\ length window = 5%nat
            /\ Forall (quiet_with r c) window
            /\ (50 < py_len r)%nat
            /\ exists x, last window = Some x
                 /\ (ChatGPT.min_elapsed_sec a <= ChatGPT.st_elapsed x)%Q)
    /\ (forall sc r,
          fst (ChatGPT.wait_for_response a sc) = Response (Some r) ->
          (50 < py_len r)%nat
          /\ (ChatGPT.stabilize (snd (ChatGPT.wait_for_response a sc))
                (ChatGPT.stab_samples sc)
                (ChatGPT.initial_stab_state (ChatGPT.pre_count sc))
              = ChatGPT.Completed r
              \/ (ChatGPT.stabilize (snd (ChatGPT.wait_for_response a sc))
                    (ChatGPT.stab_samples sc)
                    (ChatGPT.initial_stab_state (ChatGPT.pre_count sc))
                  = ChatGPT.TimedOut
                  /\ ChatGPT.final_response sc = Some r))).
Proof.
  intros a. split; [|split; [|split; [|split]]].
  - apply stab_step_busy.
  - apply stab_step_text_changed.
  - intros s x r H.
    destruct (stab_step_complete a s x r H) as (H1 & H2 & H3 & _).
    auto.
  - intros samples baseline r H.
    apply (stabilize_completed_window a samples []
             (ChatGPT.initial_stab_state baseline) r); [|exact H].
    by apply counts_tail_zero.
  - apply wait_for_response_some.
Qed.

(** A scripted run: the answer appears as a third article, then the page
    is quiet.  [answer] is 60 characters long. *)
Definition answer : string :=
  "The quarterly totals are in the attached workbook, sheet two".

Definition quiet_sample (elapsed : Z) : ChatGPT.StabSample :=
  {| ChatGPT.st_elapsed_top := inject_Z elapsed;
     ChatGPT.st_shutdown := false;
     ChatGPT.st_generating := false;
     ChatGPT.st_count := 3;
     ChatGPT.st_text := Some answer;
     ChatGPT.st_elapsed := inject_Z elapsed |}.

Definition busy_sample (elapsed : Z) : ChatGPT.StabSample :=
  {| ChatGPT.st_elapsed_top := inject_Z elapsed;
     ChatGPT.st_shutdown := false;
     ChatGPT.st_generating := true;
     ChatGPT.st_count := 3;
     ChatGPT.st_text := Some answer;
     ChatGPT.st_elapsed := inject_Z elapsed |}.

Definition steady_run : list ChatGPT.StabSample :=
  map quiet_sample [301; 304; 307; 310; 313; 316].

(** The first sample shows the new article (counter 0); the next five are
    stable, and the sixth sample returns. *)
Example steady_run_completes :
  ChatGPT.stabilize default_chatgpt steady_run (ChatGPT.initial_stab_state 2)
  = ChatGPT.Completed answer.
Proof. vm_compute. reflexivity. Qed.

(** A busy signal on the sixth sample, just before the threshold: the
    same six samples no longer complete, five more quiet ones are needed. *)
Example late_busy_signal_delays :
  ChatGPT.stabilize default_chatgpt
    (map quiet_sample [301; 304; 307; 310; 313] ++ [busy_sample 316]
     ++ map quiet_sample [319; 322; 325; 328])
    (ChatGPT.initial_stab_state 2)
  = ChatGPT.Polling
      {| ChatGPT.stable_count := 4; ChatGPT.last_response_text := answer;
         ChatGPT.last_article_count := 3;
         ChatGPT.ever_saw_generating := true |}
  /\ ChatGPT.stabilize default_chatgpt
       (map quiet_sample [301; 304; 307; 310; 313] ++ [busy_sample 316]
        ++ map quiet_sample [319; 322; 325; 328; 331])
       (ChatGPT.initial_stab_state 2)
     = ChatGPT.Completed answer.
Proof. split; vm_compute; reflexivity. Qed.

Lemma stable_counter_protocol_witness :
  exists pre window post c,
    steady_run = pre ++ window ++ post
    /\ length window = 5%nat
    /\ Forall (quiet_with answer c) window
    /\ (50 < py_len answer)%nat
    /\ exists x, last window = Some x
         /\ (ChatGPT.min_elapsed_sec default_chatgpt
               <= ChatGPT.st_elapsed x)%Q.
Proof.
  apply (proj1 (proj2 (proj2 (proj2
           (stable_counter_protocol default_chatgpt))))
           steady_run 2 answer).
  vm_compute. reflexivity.
Defined.

(** ** The runner: what the frame operations leave alone *)

Section FrameFacts.
Import Datetime Logger Runner.

Lemma with_logger_counters op f :
  total_attempts (run (with_logger op f)) = total_attempts (run f)
  /\ agent_attempts (run (with_logger op f)) = agent_attempts (run f)
  /\ agent_json_paths (run (with_logger op f)) = agent_json_paths (run f)
  /\ task_success (run (with_logger op f)) = task_success (run f).
Proof.
  unfold with_logger. destruct (completion_logger f) as [cl|]; [|auto].
  destruct (op cl (fs (run f))). simpl. auto.
Qed.

Lemma replay_events_counters evs :
  forall f,
    total_attempts (run (replay_events evs f)) = total_attempts (run f)
    /\ agent_attempts (run (replay_events evs f)) = agent_attempts (run f)
    /\ agent_json_paths (run (replay_events evs f)) = agent_json_paths (run f)
    /\ task_success (run (replay_events evs f)) = task_success (run f).
Proof.
  unfold replay_events.
  induction evs as [|ev rest IH]; intros f; simpl; [auto|].
  destruct (IH (replay_event ev f)) as (A & B & C & D).
  rewrite A, B, C, D.
  destruct ev; simpl; apply with_logger_counters.
Qed.

Lemma append_path_counters f :
  total_attempts (run (append_path f)) = total_attempts (run f)
  /\ agent_attempts (run (append_path f)) = agent_attempts (run f)
  /\ fs (run (append_path f)) = fs (run f)
  /\ completion_logger (append_path f) = completion_logger f.
Proof.
  unfold append_path. destruct (completion_logger f) eqn:E; simpl;
    repeat split; auto.
Qed.

(** The three closing lines charge the attempt once. *)
Lemma close_attempt_counters status now f :
  fst (close_attempt status now f) = Returns tt
  /\ total_attempts (run (snd (close_attempt status now f)))
     = total_attempts (run f)
  /\ agent_attempts (run (snd (close_attempt status now f)))
     = agent_attempts (run f) + 1.
Proof.
  unfold close_attempt, bind, modify. simpl.
  destruct (append_path_counters (with_logger (end_task status now) (charge f)))
    as (A & B & _).
  destruct (with_logger_counters (end_task status now) (charge f))
    as (A' & B' & _).
  rewrite A, B, A', B'. simpl. auto.
Qed.

Lemma create_logger_counters cfg e f :
  total_attempts (run (snd (create_logger cfg e f))) = total_attempts (run f)
  /\ agent_attempts (run (snd (create_logger cfg e f)))
     = agent_attempts (run f).
Proof.
  unfold create_logger, Logger.init. destruct (e_mkdir_ok e); simpl; auto.
Qed.

End FrameFacts.

(** ** The runner: how Phase 2 can end *)

Section Phase2Facts.
Import Datetime Logger Runner.

(** The frame once the logger exists, the task is started and the agent
    has made its calls on the logger: the attempt is open, not yet
    classified. *)
Definition open_frame (cfg : Config) (e : AttemptEnv) (f : Frame) : Frame :=
  let f1 := snd (create_logger cfg e f) in
  replay_events (e_prompt_events e)
    (with_logger
       (start_task (cfg_task_name cfg) (total_attempts (run f1))
          (e_now_start e)) f1).

(** The frame after the attempt was classified with [status]. *)
Definition closed_frame (cfg : Config) (e : AttemptEnv)
    (status : TaskStatus.t) (f : Frame) : Frame :=
  snd (close_attempt status (e_now_end e) (open_frame cfg e f)).

Lemma create_logger_result cfg e f :
  (e_mkdir_ok e = false /\ create_logger cfg e f = (Raises, f))
  \/ (e_mkdir_ok e = true /\ fst (create_logger cfg e f) = Returns tt).
Proof.
  unfold create_logger, Logger.init.
  destruct (e_mkdir_ok e); [right|left]; auto.
Qed.

(** Every way through the body of Phase 2. *)
Lemma phase2_body_cases cfg e f :
  (e_mkdir_ok e = false /\ phase2_body cfg e f = (Raises, f))
  \/ (e_mkdir_ok e = true
      /\ (phase2_body cfg e f = (Raises, open_frame cfg e f)
          \/ exists status,
               phase2_body cfg e f
                 = (Returns FlowContinue, closed_frame cfg e status f)
               \/ (status = TaskStatus.SUCCESS
                   /\ (phase2_body cfg e f
                         = (Raises, closed_frame cfg e status f)
                       \/ phase2_body cfg e f
                            = (Returns FlowHold, closed_frame cfg e status f)
                       \/ phase2_body cfg e f
                            = (Returns FlowBreak,
                               set_success (closed_frame cfg e status f)))))).
Proof.
  destruct (create_logger_result cfg e f) as [[Hm Hc] | [Hm Hc]].
  { left. split; [exact Hm|]. unfold phase2_body, bind. by rewrite Hc. }
  right. split; [exact Hm|].
  unfold closed_frame, open_frame.
  remember (phase2_body cfg e f) as r eqn:Hr.
  unfold phase2_body in Hr.
  cbv beta iota delta [bind modify call ret close_attempt fst snd] in Hr.
  destruct (create_logger cfg e f) as [o f1]. simpl in Hc. subst o.
  cbv beta iota delta [fst snd close_attempt bind modify].
  set (fo := replay_events _ _) in *.
  destruct (e_prompts e) as [[|]|]; [| |by left].
  2:{ right. eexists. left. exact Hr. }
  cbv beta iota delta [negb] in Hr.
  destruct (e_download e) as [[|d ds]|]; [| |by left].
  { right. eexists. left. exact Hr. }
  destruct (List.filter is_excel (d :: ds)) as [|x xs].
  { right. eexists. left. exact Hr. }
  destruct (validate_all (e_validate e) (x :: xs)) as [[val|]|]; [| |by left].
  { right. eexists. left. exact Hr. }
  destruct (e_rename e); [|by left].
  right. exists TaskStatus.SUCCESS. right. split; [reflexivity|].
  destruct (e_history_and_upload e); [|by left].
  destruct (no_hold cfg); destruct (e_hold_released e);
    cbv beta iota delta [andb] in Hr;
    try (right; left; exact Hr);
    (destruct (e_teardown e); [right; right; exact Hr | by left]).
Qed.

End Phase2Facts.

(** ** The runner: the record of one attempt on disk *)

Section RecordFacts.
Import Datetime Logger Runner.

(** [fs'] differs from [fs] at most in the file [p]. *)
Definition touches_only (p : string) (fs fs' : FileSystem) : Prop :=
  writable fs' = writable fs
  /\ forall q, q <> p -> files fs' !! q = files fs !! q.

Lemma touches_only_refl p fs : touches_only p fs fs.
Proof. split; auto. Qed.

Lemma touches_only_trans p fs1 fs2 fs3 :
  touches_only p fs1 fs2 -> touches_only p fs2 fs3 -> touches_only p fs1 fs3.
Proof.
  intros [W1 F1] [W2 F2]. split; [congruence|].
  intros q Hq. rewrite F2, F1; auto.
Qed.

Lemma write_file_touches_only p d fs : touches_only p fs (write_file p d fs).
Proof.
  split; [apply write_file_writable|].
  intros q Hq. apply write_file_lookup_ne. congruence.
Qed.

(** The logger of an attempt that is started and not yet classified: its
    document is still [sd] and it holds a task that is not deprecated. *)
Definition open_logger (p : string) (sd : SessionData)
    (cl : CompletionLogger) : Prop :=
  session_file cl = p /\ session_data cl = sd
  /\ exists t, current_task cl = Some t /\ deprecated t = false.

Lemma start_prompt_open p sd cl fs text now :
  open_logger p sd cl ->
  open_logger p sd (fst (start_prompt text now cl fs))
  /\ touches_only p fs (snd (start_prompt text now cl fs)).
Proof.
  intros (Hp & Hsd & t & Ht & Hd). simpl. split.
  - repeat split; auto. exists t. auto.
  - unfold _write_to_disk. simpl. rewrite Hp. apply write_file_touches_only.
Qed.

Lemma end_prompt_open p sd cl fs ok len now :
  open_logger p sd cl ->
  open_logger p sd (fst (end_prompt ok len now cl fs))
  /\ touches_only p fs (snd (end_prompt ok len now cl fs)).
Proof.
  intros (Hp & Hsd & t & Ht & Hd). unfold end_prompt.
  destruct (current_prompt cl) as [pr|]; simpl.
  - rewrite Ht. simpl. split.
    + repeat split; auto. eexists. split; [reflexivity|]. exact Hd.
    + unfold _write_to_disk. simpl. rewrite Hp.
      apply write_file_touches_only.
  - split; [|apply touches_only_refl]. repeat split; auto. exists t. auto.
Qed.

Lemma with_logger_some op f cl :
  completion_logger f = Some cl ->
  completion_logger (with_logger op f) = Some (fst (op cl (fs (run f))))
  /\ fs (run (with_logger op f)) = snd (op cl (fs (run f))).
Proof.
  intros H. unfold with_logger. rewrite H.
  destruct (op cl (fs (run f))). simpl. auto.
Qed.

Lemma replay_events_open p sd evs :
  forall f cl,
    completion_logger f = Some cl -> open_logger p sd cl ->
    exists cl',
      completion_logger (replay_events evs f) = Some cl'
      /\ open_logger p sd cl'
      /\ touches_only p (fs (run f)) (fs (run (replay_events evs f))).
Proof.
  unfold replay_events.
  induction evs as [|ev rest IH]; intros f cl Hcl Hopen; simpl.
  - exists cl. split; [exact Hcl|]. split; [exact Hopen|].
    apply touches_only_refl.
  - assert (Hstep : exists cl1,
              completion_logger (replay_event ev f) = Some cl1
              /\ open_logger p sd cl1
              /\ touches_only p (fs (run f)) (fs (run (replay_event ev f)))).
    { destruct ev as [text now | ok len now]; simpl.
      - destruct (with_logger_some (start_prompt text now) f cl Hcl)
          as [E1 E2].
        destruct (start_prompt_open p sd cl (fs (run f)) text now Hopen)
          as [O1 O2].
        eexists. rewrite E1, E2. eauto.
      - destruct (with_logger_some (end_prompt ok len now) f cl Hcl)
          as [E1 E2].
        destruct (end_prompt_open p sd cl (fs (run f)) ok len now Hopen)
          as [O1 O2].
        eexists. rewrite E1, E2. eauto. }
    destruct Hstep as (cl1 & H1 & O1 & T1).
    destruct (IH _ cl1 H1 O1) as (cl' & H' & O' & T').
    exists cl'. split; [exact H'|]. split; [exact O'|].
    eapply touches_only_trans; eauto.
Qed.

(** The file an attempt's logger writes: a function of the configuration
    and of the second in which the logger is constructed. *)
Definition attempt_file (cfg : Config) (e : AttemptEnv) : string :=
  json_logs_dir cfg ++ "/" ++
  ("completion_" ++ cfg_agent_name cfg ++ "_" ++ strftime_stamp (e_now_init e)
   ++ "_" ++ _clean_name (or_unknown (Some (cfg_task_name cfg)))
   ++ ".json")%string.

Definition empty_session (cfg : Config) (e : AttemptEnv) : SessionData :=
  {| session_start_iso := e_now_init e;
     sd_agent_name := cfg_agent_name cfg;
     sd_prompt_version := cfg_prompt_version cfg;
     sd_task_source := cfg_task_source cfg;
     tasks := [] |}.

Lemma create_logger_spec cfg e f :
  e_mkdir_ok e = true ->
  let f1 := snd (create_logger cfg e f) in
  total_attempts (run f1) = total_attempts (run f)
  /\ agent_attempts (run f1) = agent_attempts (run f)
  /\ agent_json_paths (run f1) = agent_json_paths (run f)
  /\ task_success (run f1) = task_success (run f)
  /\ touches_only (attempt_file cfg e) (fs (run f)) (fs (run f1))
  /\ exists cl,
       completion_logger f1 = Some cl
       /\ session_file cl = attempt_file cfg e
       /\ session_data cl = empty_session cfg e
       /\ current_task cl = None.
Proof.
  intros Hm. unfold create_logger, Logger.init. rewrite Hm. simpl.
  repeat split; auto.
  - unfold _write_to_disk. simpl. apply write_file_writable.
  - intros q Hq. unfold _write_to_disk. simpl.
    apply write_file_lookup_ne. unfold attempt_file in Hq. congruence.
  - eexists. split; [reflexivity|]. simpl. auto.
Qed.

(** The open frame: counters untouched, the logger open on the attempt's
    file, nothing but that file written. *)
Lemma open_frame_spec cfg e f :
  e_mkdir_ok e = true ->
  let fo := open_frame cfg e f in
  total_attempts (run fo) = total_attempts (run f)
  /\ agent_attempts (run fo) = agent_attempts (run f)
  /\ agent_json_paths (run fo) = agent_json_paths (run f)
  /\ task_success (run fo) = task_success (run f)
  /\ touches_only (attempt_file cfg e) (fs (run f)) (fs (run fo))
  /\ exists cl,
       completion_logger fo = Some cl
       /\ open_logger (attempt_file cfg e) (empty_session cfg e) cl.
Proof.
  intros Hm fo.
  destruct (create_logger_spec cfg e f Hm)
    as (A & B & C & D & T & cl & Hcl & Hp & Hsd & Hct).
  set (f1 := snd (create_logger cfg e f)) in *.
  set (f2 := with_logger
               (start_task (cfg_task_name cfg) (total_attempts (run f1))
                  (e_now_start e)) f1).
  destruct (with_logger_counters
              (start_task (cfg_task_name cfg) (total_attempts (run f1))
                 (e_now_start e)) f1) as (A2 & B2 & C2 & D2).
  destruct (with_logger_some
              (start_task (cfg_task_name cfg) (total_attempts (run f1))
                 (e_now_start e)) f1 cl Hcl) as (L2 & F2).
  fold f2 in A2, B2, C2, D2, L2, F2.
  assert (O2 : open_logger (attempt_file cfg e) (empty_session cfg e)
                 (fst (start_task (cfg_task_name cfg) (total_attempts (run f1))
                         (e_now_start e) cl (fs (run f1))))).
  { simpl. repeat split; auto. eexists. split; reflexivity. }
  destruct (replay_events_open _ _ (e_prompt_events e) f2 _ L2 O2)
    as (cl' & L3 & O3 & T3).
  destruct (replay_events_counters (e_prompt_events e) f2)
    as (A3 & B3 & C3 & D3).
  unfold fo, open_frame. fold f1. fold f2.
  rewrite A3, B3, C3, D3, A2, B2, C2, D2.
  repeat split; auto.
  - destruct T as [TW _], T3 as [TW3 _]. rewrite TW3, F2. simpl.
    unfold _write_to_disk. rewrite write_file_writable. exact TW.
  - intros q Hq. destruct T as [_ TF], T3 as [_ TF3].
    rewrite TF3, F2 by exact Hq. simpl. unfold _write_to_disk. simpl.
    rewrite write_file_lookup_ne by (rewrite Hp; congruence).
    by apply TF.
  - exists cl'. auto.
Qed.

End RecordFacts.

Section CloseFacts.
Import Datetime Logger Runner.

(** Closing an open attempt: one charge, the path appended, and the file
    holding exactly the closed task. *)
Lemma close_attempt_open status now f p sd cl :
  completion_logger f = Some cl ->
  open_logger p sd cl ->
  let fc := snd (close_attempt status now f) in
  total_attempts (run fc) = total_attempts (run f)
  /\ agent_attempts (run fc) = agent_attempts (run f) + 1
  /\ agent_json_paths (run fc) = agent_json_paths (run f) ++ [p]
  /\ task_success (run fc) = task_success (run f)
  /\ touches_only p (fs (run f)) (fs (run fc))
  /\ (exists cl', completion_logger fc = Some cl'
                  /\ current_task cl' = None /\ session_file cl' = p)
  /\ (writable (fs (run f)) p = true ->
      exists t,
        files (fs (run fc)) !! p = Some (append_task t sd)
        /\ deprecated t = false
        /\ task_status t = Some (TaskStatus.value status)).
Proof.
  intros Hcl (Hp & Hsd & t & Ht & Hd) fc.
  unfold fc, close_attempt, bind, modify. simpl.
  unfold append_path, with_logger, charge. simpl. rewrite Hcl.
  unfold end_task. rewrite Ht. simpl.
  repeat split; auto.
  - by rewrite Hp.
  - unfold _write_to_disk. simpl. apply write_file_writable.
  - intros q Hq. unfold _write_to_disk. simpl.
    apply write_file_lookup_ne. rewrite Hp. intros E. by apply Hq.
  - eexists. split; [reflexivity|]. simpl. auto.
  - intros Hw. exists (close_task status now t).
    unfold _write_to_disk. simpl. rewrite Hp, Hsd.
    split; [by apply write_file_lookup|]. simpl. auto.
Qed.

Lemma phase2_handler_cases e f :
  (exists cl t, completion_logger f = Some cl /\ current_task cl = Some t
     /\ phase2_handler e f
        = snd (close_attempt TaskStatus.UNKNOWN (e_now_end e) f))
  \/ ((completion_logger f = None
       \/ exists cl, completion_logger f = Some cl /\ current_task cl = None)
      /\ phase2_handler e f = charge f).
Proof.
  unfold phase2_handler. simpl.
  destruct (completion_logger f) as [cl|] eqn:Hcl; [|right; auto].
  destruct (current_task cl) as [t|] eqn:Ht.
  - left. exists cl, t. auto.
  - right. split; [right; eauto | reflexivity].
Qed.

Lemma phase2_handler_counters e f :
  total_attempts (run (phase2_handler e f)) = total_attempts (run f)
  /\ agent_attempts (run (phase2_handler e f)) = agent_attempts (run f) + 1.
Proof.
  destruct (phase2_handler_cases e f) as [(cl & t & _ & _ & ->) | [_ ->]].
  - destruct (close_attempt_counters TaskStatus.UNKNOWN (e_now_end e) f)
      as (_ & A & B). auto.
  - simpl. auto.
Qed.

(** The state a loop step hands on. *)
Definition state_of (s : LoopStep) : RunState :=
  match s with Again st | Stop st | Crash st | Hold st => st end.

Definition first_frame (st : RunState) : Frame :=
  {| run := set_total (total_attempts st + 1) st;
     completion_logger := None |}.

(** What one attempt does to the list of records and to the disk: nothing,
    or one new path whose file holds one task that is not deprecated. *)
Definition attempt_effect (p : string) (st st' : RunState) : Prop :=
  (agent_json_paths st' = agent_json_paths st /\ fs st' = fs st)
  \/ (agent_json_paths st' = agent_json_paths st ++ [p]
      /\ touches_only p (fs st) (fs st')
      /\ (writable (fs st) p = true ->
          exists d t, files (fs st') !! p = Some d
                      /\ tasks d = [t] /\ deprecated t = false)).

Lemma closed_frame_effect cfg e status st :
  e_mkdir_ok e = true ->
  let fc := closed_frame cfg e status (first_frame st) in
  total_attempts (run fc) = total_attempts st + 1
  /\ agent_attempts (run fc) = agent_attempts st + 1
  /\ task_success (run fc) = task_success st
  /\ agent_json_paths (run fc) = agent_json_paths st ++ [attempt_file cfg e]
  /\ touches_only (attempt_file cfg e) (fs st) (fs (run fc))
  /\ (exists cl', completion_logger fc = Some cl' /\ current_task cl' = None)
  /\ (writable (fs st) (attempt_file cfg e) = true ->
      exists t,
        files (fs (run fc)) !! attempt_file cfg e
          = Some (append_task t (empty_session cfg e))
        /\ deprecated t = false
        /\ task_status t = Some (TaskStatus.value status)).
Proof.
  intros Hm fc.
  destruct (open_frame_spec cfg e (first_frame st) Hm)
    as (A & B & C & D & T & cl & Hcl & Hopen).
  destruct (close_attempt_open status (e_now_end e) _ _ _ _ Hcl Hopen)
    as (A' & B' & C' & D' & T' & (cl' & L' & N' & _) & W').
  fold (closed_frame cfg e status (first_frame st)) in A', B', C', D', T', L', W'.
  fold fc in A', B', C', D', T', L', W'.
  simpl in A, B, C, D, T.
  split_and!.
  - congruence.
  - congruence.
  - congruence.
  - congruence.
  - eapply touches_only_trans; eauto.
  - eauto.
  - intros Hw. apply W'. destruct T as [TW _]. by rewrite TW.
Qed.

End CloseFacts.

Section AttemptFacts.
Import Datetime Logger Runner.

Lemma handler_on_open_frame cfg e st :
  e_mkdir_ok e = true ->
  phase2_handler e (open_frame cfg e (first_frame st))
  = closed_frame cfg e TaskStatus.UNKNOWN (first_frame st).
Proof.
  intros Hm.
  destruct (open_frame_spec cfg e (first_frame st) Hm)
    as (_ & _ & _ & _ & _ & cl & Hcl & (_ & _ & t & Ht & _)).
  destruct (phase2_handler_cases e (open_frame cfg e (first_frame st)))
    as [(cl' & t' & _ & _ & ->) | [[Hn | (cl' & Hcl' & Hn)] _]].
  - reflexivity.
  - congruence.
  - congruence.
Qed.

Lemma handler_on_closed_frame cfg e status st :
  e_mkdir_ok e = true ->
  phase2_handler e (closed_frame cfg e status (first_frame st))
  = charge (closed_frame cfg e status (first_frame st)).
Proof.
  intros Hm.
  destruct (closed_frame_effect cfg e status st Hm)
    as (_ & _ & _ & _ & _ & (cl & Hcl & Hn) & _).
  destruct (phase2_handler_cases e (closed_frame cfg e status (first_frame st)))
    as [(cl' & t' & Hcl' & Ht' & _) | [_ ->]].
  - congruence.
  - reflexivity.
Qed.

(** Every way through one loop iteration. *)
Inductive AttemptCase (cfg : Config) (st : RunState) (e : AttemptEnv)
  : LoopStep -> Prop :=
| CaseCrash :
    phase1 cfg e = P1Crash ->
    AttemptCase cfg st e (Crash (set_total (total_attempts st + 1) st))
| CasePipeline status :
    phase1 cfg e = P1Pipeline status ->
    AttemptCase cfg st e (Again (set_total (total_attempts st + 1) st))
| CaseNoLogger :
    phase1 cfg e = P1Ok -> e_mkdir_ok e = false ->
    fst (phase2_body cfg e (first_frame st)) = Raises ->
    AttemptCase cfg st e (Again (run (charge (first_frame st))))
| CaseUnexpected :
    phase1 cfg e = P1Ok -> e_mkdir_ok e = true ->
    phase2_body cfg e (first_frame st)
      = (Raises, open_frame cfg e (first_frame st)) ->
    AttemptCase cfg st e
      (Again (run (closed_frame cfg e TaskStatus.UNKNOWN (first_frame st))))
| CaseClassified status :
    phase1 cfg e = P1Ok -> e_mkdir_ok e = true ->
    fst (phase2_body cfg e (first_frame st)) = Returns FlowContinue ->
    AttemptCase cfg st e
      (Again (run (closed_frame cfg e status (first_frame st))))
| CaseRaisedAfterSuccess :
    phase1 cfg e = P1Ok -> e_mkdir_ok e = true ->
    phase2_body cfg e (first_frame st)
      = (Raises, closed_frame cfg e TaskStatus.SUCCESS (first_frame st)) ->
    AttemptCase cfg st e
      (Again (run (charge
                     (closed_frame cfg e TaskStatus.SUCCESS (first_frame st)))))
| CaseHold :
    phase1 cfg e = P1Ok -> e_mkdir_ok e = true ->
    fst (phase2_body cfg e (first_frame st)) = Returns FlowHold ->
    AttemptCase cfg st e
      (Hold (run (closed_frame cfg e TaskStatus.SUCCESS (first_frame st))))
| CaseSuccess :
    phase1 cfg e = P1Ok -> e_mkdir_ok e = true ->
    fst (phase2_body cfg e (first_frame st)) = Returns FlowBreak ->
    AttemptCase cfg st e
      (Stop (run (set_success
                    (closed_frame cfg e TaskStatus.SUCCESS (first_frame st))))).

Lemma attempt_cases cfg st e : AttemptCase cfg st e (attempt cfg st e).
Proof.
  unfold attempt. fold (first_frame st).
  destruct (phase1 cfg e) as [| status |] eqn:H1.
  - destruct (phase2_body_cases cfg e (first_frame st))
      as [[Hm Hb] | [Hm [Hb | (status & [Hb | (-> & [Hb | [Hb | Hb]])])]]];
      rewrite Hb.
    + apply CaseNoLogger; auto. by rewrite Hb.
    + rewrite (handler_on_open_frame cfg e st Hm).
      by apply CaseUnexpected.
    + apply CaseClassified; auto. by rewrite Hb.
    + rewrite (handler_on_closed_frame cfg e _ st Hm).
      by apply CaseRaisedAfterSuccess.
    + apply CaseHold; auto. by rewrite Hb.
    + apply CaseSuccess; auto. by rewrite Hb.
  - by eapply CasePipeline.
  - by apply CaseCrash.
Qed.

(** [total_attempts] grows by one in every iteration, whatever happens. *)
Lemma attempt_total cfg st e :
  total_attempts (state_of (attempt cfg st e)) = total_attempts st + 1.
Proof.
  destruct (attempt_cases cfg st e)
    as [ | | | ? Hm | status ? Hm | ? Hm | ? Hm | ? Hm ]; simpl; try reflexivity.
  - destruct (closed_frame_effect cfg e TaskStatus.UNKNOWN st Hm) as (A & _).
    exact A.
  - destruct (closed_frame_effect cfg e status st Hm) as (A & _). exact A.
  - destruct (closed_frame_effect cfg e TaskStatus.SUCCESS st Hm) as (A & _).
    exact A.
  - destruct (closed_frame_effect cfg e TaskStatus.SUCCESS st Hm) as (A & _).
    exact A.
  - destruct (closed_frame_effect cfg e TaskStatus.SUCCESS st Hm) as (A & _).
    exact A.
Qed.

(** A pipeline failure changes nothing but [total_attempts]. *)
Lemma attempt_pipeline_failure cfg st e status :
  phase1 cfg e = P1Pipeline status ->
  attempt cfg st e = Again (set_total (total_attempts st + 1) st).
Proof. intros H. unfold attempt. by rewrite H. Qed.

(** When the body of Phase 2 returns (a classified failure, success, or
    the hold), [agent_attempts] has grown by exactly one. *)
Lemma phase2_returns_charges_once cfg st e flow :
  phase1 cfg e = P1Ok ->
  fst (phase2_body cfg e (first_frame st)) = Returns flow ->
  agent_attempts (state_of (attempt cfg st e)) = agent_attempts st + 1.
Proof.
  intros H1 Hret.
  destruct (attempt_cases cfg st e)
    as [ | | ? ? Hb | ? Hm Hb | status ? Hm | ? Hm Hb | ? Hm | ? Hm ];
    simpl; try congruence; try (rewrite Hb in Hret; discriminate);
    match goal with
    | |- agent_attempts (run (closed_frame _ _ ?s _)) = _ =>
        by destruct (closed_frame_effect cfg e s st Hm) as (_ & B & _)
    end.
Qed.

Lemma attempt_has_effect cfg st e :
  attempt_effect (attempt_file cfg e) st (state_of (attempt cfg st e)).
Proof.
  assert (Hclosed : forall status,
            e_mkdir_ok e = true ->
            attempt_effect (attempt_file cfg e) st
              (run (closed_frame cfg e status (first_frame st)))).
  { intros status Hm.
    destruct (closed_frame_effect cfg e status st Hm)
      as (_ & _ & _ & C & T & _ & W).
    right. split; [exact C|]. split; [exact T|].
    intros Hw. destruct (W Hw) as (t & Hf & Hd & _).
    exists (append_task t (empty_session cfg e)), t. auto. }
  destruct (attempt_cases cfg st e)
    as [ | | | ? Hm | status ? Hm | ? Hm | ? Hm | ? Hm ]; simpl;
    try (left; split; reflexivity); by apply Hclosed.
Qed.

End AttemptFacts.

(** ** The retry loop *)

Section LoopFacts.
Import Datetime Logger Runner.

(** Neither the wall-clock budget nor the shutdown signal stops the loop
    at the top of this iteration. *)
Definition quiet_top (cfg : Config) (e : AttemptEnv) : Prop :=
  (Qlt_bool 0 (max_sec_per_task cfg)
   && Qle_bool (max_sec_per_task cfg) (e_wall_elapsed e)) = false
  /\ e_shutdown e = false.

Lemma limits_not_reached cfg st e :
  total_attempts st < max_total_attempts cfg ->
  agent_attempts st < max_agent_attempts cfg ->
  quiet_top cfg e ->
  limits_reached cfg st e = false.
Proof.
  intros Ht Ha [Hw Hs]. unfold limits_reached. rewrite Hw, Hs.
  replace (max_total_attempts cfg <=? total_attempts st) with false by lia.
  replace (max_agent_attempts cfg <=? agent_attempts st) with false by lia.
  reflexivity.
Qed.

Lemma limits_reached_total cfg st e :
  max_total_attempts cfg <= total_attempts st ->
  limits_reached cfg st e = true.
Proof.
  intros H. unfold limits_reached.
  replace (max_total_attempts cfg <=? total_attempts st) with true by lia.
  reflexivity.
Qed.

Lemma limits_false_total cfg st e :
  limits_reached cfg st e = false ->
  total_attempts st < max_total_attempts cfg.
Proof.
  unfold limits_reached. intros H.
  destruct (max_total_attempts cfg <=? total_attempts st) eqn:E;
    [discriminate | lia].
Qed.

(** The loop needs no more iterations than [max_total_attempts] allows. *)
Lemma retry_loop_terminates cfg env :
  forall fuel i st,
    (Z.to_nat (max_total_attempts cfg - total_attempts st) < fuel)%nat ->
    retry_loop fuel cfg env i st <> OutOfFuel.
Proof.
  induction fuel as [|fuel IH]; intros i st Hfuel; [lia|]. simpl.
  destruct (limits_reached cfg st (env i)) eqn:Hl; [discriminate|].
  apply limits_false_total in Hl.
  pose proof (attempt_total cfg st (env i)) as Htot.
  destruct (attempt cfg st (env i)) as [st'| | |]; try discriminate.
  simpl in Htot. apply IH. lia.
Qed.

Lemma run_automation_returns cfg env fs0 :
  run_automation cfg env fs0 <> OutOfFuel.
Proof.
  unfold run_automation.
  pose proof (retry_loop_terminates cfg env
                (S (Z.to_nat (max_total_attempts cfg))) 0%nat
                (initial_state fs0)) as H.
  destruct (retry_loop _ cfg env 0%nat (initial_state fs0));
    try discriminate.
  exfalso. apply H; [|reflexivity]. simpl. lia.
Qed.

Lemma set_total_same st : set_total (total_attempts st) st = st.
Proof. by destruct st. Qed.

(** When Phase 1 fails with a pipeline error in every iteration, the loop
    runs until [total_attempts] reaches the limit and nothing else moves. *)
Lemma all_pipeline_failures cfg env :
  (forall k, exists status, phase1 cfg (env k) = P1Pipeline status) ->
  (forall k, quiet_top cfg (env k)) ->
  forall fuel i st,
    agent_attempts st < max_agent_attempts cfg ->
    total_attempts st <= max_total_attempts cfg ->
    (Z.to_nat (max_total_attempts cfg - total_attempts st) < fuel)%nat ->
    retry_loop fuel cfg env i st
    = Returned (set_total (max_total_attempts cfg) st).
Proof.
  intros Hfail Hquiet.
  induction fuel as [|fuel IH]; intros i st Ha Ht Hfuel; [lia|]. simpl.
  destruct (Z.eq_dec (total_attempts st) (max_total_attempts cfg)) as [E|E].
  - rewrite limits_reached_total by lia. rewrite <- E.
    by rewrite set_total_same.
  - rewrite limits_not_reached by (auto; lia).
    destruct (Hfail i) as [status Hs].
    rewrite (attempt_pipeline_failure cfg st (env i) status Hs).
    rewrite IH; simpl; auto; lia.
Qed.

Lemma attempt_classified cfg st e :
  phase1 cfg e = P1Ok ->
  fst (phase2_body cfg e (first_frame st)) = Returns FlowContinue ->
  exists st',
    attempt cfg st e = Again st'
    /\ total_attempts st' = total_attempts st + 1
    /\ agent_attempts st' = agent_attempts st + 1
    /\ task_success st' = task_success st.
Proof.
  intros H1 Hret.
  pose proof (attempt_total cfg st e) as Ht.
  pose proof (phase2_returns_charges_once cfg st e _ H1 Hret) as Ha.
  destruct (attempt_cases cfg st e)
    as [ | | ? ? Hb | ? Hm Hb | status ? Hm | ? Hm Hb | ? Hm Hb | ? Hm Hb ];
    try congruence; try (rewrite Hb in Hret; discriminate).
  eexists. split; [reflexivity|]. simpl in *. split_and!; auto.
  by destruct (closed_frame_effect cfg e status st Hm) as (_ & _ & S & _).
Qed.

Lemma attempt_success cfg st e :
  phase1 cfg e = P1Ok ->
  fst (phase2_body cfg e (first_frame st)) = Returns FlowBreak ->
  exists st',
    attempt cfg st e = Stop st'
    /\ total_attempts st' = total_attempts st + 1
    /\ agent_attempts st' = agent_attempts st + 1
    /\ task_success st' = true.
Proof.
  intros H1 Hret.
  pose proof (attempt_total cfg st e) as Ht.
  pose proof (phase2_returns_charges_once cfg st e _ H1 Hret) as Ha.
  destruct (attempt_cases cfg st e)
    as [ | | ? ? Hb | ? Hm Hb | status ? Hm Hb | ? Hm Hb | ? Hm Hb | ? Hm Hb ];
    try congruence; try (rewrite Hb in Hret; discriminate).
  eexists. split; [reflexivity|]. simpl in *. auto.
Qed.

Lemma deprecate_earlier_counters st :
  total_attempts (deprecate_earlier st) = total_attempts st
  /\ agent_attempts (deprecate_earlier st) = agent_attempts st
  /\ agent_json_paths (deprecate_earlier st) = agent_json_paths st
  /\ task_success (deprecate_earlier st) = task_success st.
Proof.
  unfold deprecate_earlier. destruct (1 <? _)%nat; simpl; auto.
Qed.

End LoopFacts.

(** ** Scripted runs used by the concrete checks *)

Definition default_config : Runner.Config :=
  {| Runner.max_agent_attempts := 3;
     Runner.max_total_attempts := 10;
     Runner.max_sec_per_task := 0;
     Runner.cfg_task_name := "fmwc/task 1";
     Runner.cfg_agent_name := "chatgpt_web";
     Runner.cfg_prompt_version := 1;
     Runner.cfg_task_source := "fmwc";
     Runner.files_to_upload := [];
     Runner.json_logs_dir := "runs/json_logs";
     Runner.no_hold := true |}.

(** One iteration of a script: whether navigation succeeds, what
    [process_all_prompts] does, what the steps after SUCCESS do, and the
    second at which the logger is created.  Everything else goes well. *)
Definition scripted (navigate : bool) (prompts : Outcome bool)
    (after_success : Outcome unit) (sec : nat) : Runner.AttemptEnv :=
  {| Runner.e_wall_elapsed := 0;
     Runner.e_shutdown := false;
     Runner.e_launch := Returns tt;
     Runner.e_navigate := navigate;
     Runner.e_state := AgentState.READY;
     Runner.e_login_states := fun _ => AgentState.READY;
     Runner.e_upload := true;
     Runner.e_pipeline_teardown := Returns tt;
     Runner.e_mkdir_ok := true;
     Runner.e_now_init := sample_time sec;
     Runner.e_now_start := sample_time sec;
     Runner.e_prompt_events := [];
     Runner.e_prompts := prompts;
     Runner.e_timed_out := false;
     Runner.e_download := Returns ["solutions/model.xlsx"];
     Runner.e_validate := fun _ => Returns (true, TaskStatus.SUCCESS);
     Runner.e_rename := Returns tt;
     Runner.e_now_end := sample_time (sec + 1);
     Runner.e_history_and_upload := after_success;
     Runner.e_hold_released := true;
     Runner.e_teardown := Returns tt |}.

Definition navigation_fails : Runner.AttemptEnv :=
  scripted false (Returns true) (Returns tt) 0.

Definition prompt_fails (sec : nat) : Runner.AttemptEnv :=
  scripted true (Returns false) (Returns tt) sec.

Definition succeeds (sec : nat) : Runner.AttemptEnv :=
  scripted true (Returns true) (Returns tt) sec.

(** Two pipeline failures, one agent failure, one success. *)
Definition accounting_script (k : nat) : Runner.AttemptEnv :=
  match k with
  | 0%nat | 1%nat => navigation_fails
  | 2%nat => prompt_fails 10
  | _ => succeeds 20
  end.

Section Accounting.
Import Datetime Logger Runner.

Lemma phase1_pipeline_statuses cfg e status :
  phase1 cfg e = P1Pipeline status ->
  status = TaskStatus.NAVIGATION_FAILED \/ status = TaskStatus.AUTH_FAILED
  \/ status = TaskStatus.RATE_LIMITED \/ status = TaskStatus.UPLOAD_FAILED.
Proof.
  unfold phase1, pipeline.
  destruct (e_launch e); [|discriminate].
  destruct (negb (e_navigate e)).
  { destruct (e_pipeline_teardown e); [|discriminate]. intros [= <-]. auto. }
  destruct (AgentState.eqb (e_state e) AgentState.AUTH_REQUIRED).
  - destruct (negb (AgentState.eqb (login_wait _ _ _ _) AgentState.READY)).
    { destruct (e_pipeline_teardown e); [|discriminate]. intros [= <-]. auto. }
    destruct (AgentState.eqb (login_wait _ _ _ _) AgentState.RATE_LIMITED).
    { destruct (e_pipeline_teardown e); [|discriminate]. intros [= <-]. auto. }
    destruct (files_to_upload cfg); [discriminate|].
    destruct (negb (e_upload e)); [|discriminate].
    destruct (e_pipeline_teardown e); [|discriminate]. intros [= <-]. auto.
  - destruct (AgentState.eqb (e_state e) AgentState.RATE_LIMITED).
    { destruct (e_pipeline_teardown e); [|discriminate]. intros [= <-]. auto. }
    destruct (files_to_upload cfg); [discriminate|].
    destruct (negb (e_upload e)); [|discriminate].
    destruct (e_pipeline_teardown e); [|discriminate]. intros [= <-]. auto.
Qed.

End Accounting.

(** C1.  Retry accounting.  Every iteration adds one to [total_attempts];
    a pipeline failure leaves [agent_attempts] alone; an iteration whose
    Phase 2 ends in a classified outcome (an agent failure or SUCCESS)
    adds one to [agent_attempts]; hence two pipeline failures, one agent
    failure and one success end with 4 and 2. *)
Theorem retry_accounting :
  (forall cfg st e,
     Runner.total_attempts (state_of (Runner.attempt cfg st e))
     = Runner.total_attempts st + 1)
  /\ (forall cfg st e status,
        Runner.phase1 cfg e = Runner.P1Pipeline status ->
        Runner.agent_attempts (state_of (Runner.attempt cfg st e))
        = Runner.agent_attempts st)
  /\ (forall cfg st e flow,
        Runner.phase1 cfg e = Runner.P1Ok ->
        fst (Runner.phase2_body cfg e (first_frame st)) = Returns flow ->
        Runner.agent_attempts (state_of (Runner.attempt cfg st e))
        = Runner.agent_attempts st + 1)
  /\ (forall cfg env fs0,
        4 <= Runner.max_total_attempts cfg ->
        2 <= Runner.max_agent_attempts cfg ->
        (forall k, (k < 4)%nat -> quiet_top cfg (env k)) ->
        (exists s, Runner.phase1 cfg (env 0%nat) = Runner.P1Pipeline s) ->
        (exists s, Runner.phase1 cfg (env 1%nat) = Runner.P1Pipeline s) ->
        Runner.phase1 cfg (env 2%nat) = Runner.P1Ok ->
        (forall f, fst (Runner.phase2_body cfg (env 2%nat) f)
                   = Returns Runner.FlowContinue) ->
        Runner.phase1 cfg (env 3%nat) = Runner.P1Ok ->
        (forall f, fst (Runner.phase2_body cfg (env 3%nat) f)
                   = Returns Runner.FlowBreak) ->
        exists st,
          Runner.run_automation cfg env fs0 = Runner.Returned st
          /\ Runner.total_attempts st = 4
          /\ Runner.agent_attempts st = 2
          /\ Runner.task_success st = true).
Proof.
  split_and!.
  - apply attempt_total.
  - intros cfg st e status H.
    by rewrite (attempt_pipeline_failure cfg st e status H).
  - apply phase2_returns_charges_once.
  - intros cfg env fs0 Hmt Hma Hq [s0 H0] [s1 H1] H2 B2 H3 B3.
    unfold Runner.run_automation.
    destruct (Z.to_nat (Runner.max_total_attempts cfg))
      as [|[|[|[|n]]]] eqn:E; try lia.
    cbn [Runner.retry_loop].
    rewrite limits_not_reached by (first [apply Hq; lia | simpl; lia]).
    rewrite (attempt_pipeline_failure _ _ _ _ H0).
    rewrite limits_not_reached by (first [apply Hq; lia | simpl; lia]).
    rewrite (attempt_pipeline_failure _ _ _ _ H1).
    rewrite limits_not_reached by (first [apply Hq; lia | simpl; lia]).
    match goal with
    | |- context [Runner.attempt cfg ?st (env 2%nat)] =>
        destruct (attempt_classified cfg st (env 2%nat) H2 (B2 _))
          as (st3 & -> & T3 & A3 & S3)
    end.
    simpl in T3, A3, S3.
    rewrite limits_not_reached by (first [apply Hq; lia | simpl; lia]).
    destruct (attempt_success cfg st3 (env 3%nat) H3 (B3 _))
      as (st4 & -> & T4 & A4 & S4).
    exists (Runner.deprecate_earlier st4). split; [reflexivity|].
    destruct (deprecate_earlier_counters st4) as (-> & -> & _ & ->).
    split_and!; [lia | lia | exact S4].
Qed.

Lemma retry_accounting_witness :
  exists st,
    Runner.run_automation default_config accounting_script empty_fs
      = Runner.Returned st
    /\ Runner.total_attempts st = 4
    /\ Runner.agent_attempts st = 2
    /\ Runner.task_success st = true.
Proof.
  apply (proj2 (proj2 (proj2 retry_accounting))
           default_config accounting_script empty_fs).
  - simpl. lia.
  - simpl. lia.
  - intros k _. destruct k as [|[|[|k]]]; split; reflexivity.
  - exists TaskStatus.NAVIGATION_FAILED. reflexivity.
  - exists TaskStatus.NAVIGATION_FAILED. reflexivity.
  - reflexivity.
  - intros f. reflexivity.
  - reflexivity.
  - intros f. reflexivity.
Defined.

(** C5.  An iteration whose Phase 1 raises a pipeline error (navigation,
    auth, rate limit or upload) hands on the same [agent_attempts], the
    same list of records and the same disk, with [total_attempts] one
    higher; and when navigation fails in every iteration, the loop ends
    with [total_attempts] at its limit, no record and [agent_attempts]
    still 0. *)
Theorem pipeline_failure_leaves_no_record :
  (forall cfg st e status,
     Runner.phase1 cfg e = Runner.P1Pipeline status ->
     (status = TaskStatus.NAVIGATION_FAILED \/ status = TaskStatus.AUTH_FAILED
      \/ status = TaskStatus.RATE_LIMITED
      \/ status = TaskStatus.UPLOAD_FAILED)
     /\ exists st',
          Runner.attempt cfg st e = Runner.Again st'
          /\ Runner.total_attempts st' = Runner.total_attempts st + 1
          /\ Runner.agent_attempts st' = Runner.agent_attempts st
          /\ Runner.agent_json_paths st' = Runner.agent_json_paths st
          /\ Runner.fs st' = Runner.fs st)
  /\ (forall cfg env fs0,
        0 <= Runner.max_total_attempts cfg ->
        0 < Runner.max_agent_attempts cfg ->
        (forall k, Runner.phase1 cfg (env k)
                   = Runner.P1Pipeline TaskStatus.NAVIGATION_FAILED) ->
        (forall k, quiet_top cfg (env k)) ->
        Runner.run_automation cfg env fs0
        = Runner.Returned
            {| Runner.total_attempts := Runner.max_total_attempts cfg;
               Runner.agent_attempts := 0;
               Runner.agent_json_paths := [];
               Runner.fs := fs0;
               Runner.task_success := false |}).
Proof.
  split.
  - intros cfg st e status H. split.
    + by apply (phase1_pipeline_statuses cfg e).
    + eexists. split; [by apply (attempt_pipeline_failure cfg st e status)|].
      simpl. auto.
  - intros cfg env fs0 Hmt Hma Hnav Hq.
    unfold Runner.run_automation.
    rewrite (all_pipeline_failures cfg env); simpl; eauto; lia.
Qed.

Lemma pipeline_failure_leaves_no_record_witness :
  Runner.run_automation default_config (fun _ => navigation_fails) empty_fs
  = Runner.Returned
      {| Runner.total_attempts := 10;
         Runner.agent_attempts := 0;
         Runner.agent_json_paths := [];
         Runner.fs := empty_fs;
         Runner.task_success := false |}.
Proof.
  apply (proj2 pipeline_failure_leaves_no_record
           default_config (fun _ => navigation_fails) empty_fs).
  - simpl. lia.
  - simpl. lia.
  - intros k. reflexivity.
  - intros k. split; reflexivity.
Defined.

(** ** Unexpected exceptions in Phase 2 *)

Section UnexpectedFacts.
Import Datetime Logger Runner.

Lemma attempt_never_crashes_in_phase2 cfg st e :
  phase1 cfg e = P1Ok -> forall s, attempt cfg st e <> Crash s.
Proof.
  intros H1 s. unfold attempt. rewrite H1.
  destruct (phase2_body cfg e _) as [[[ | | ]|] f]; discriminate.
Qed.

End UnexpectedFacts.

(** The steps after SUCCESS raise: with the task name [fmwc/task 1] the
    conversation file [conversation_<stamp>_fmwc/task 1.json] lies in a
    directory that does not exist, and [open] raises. *)
Definition raises_after_success : Runner.AttemptEnv :=
  scripted true (Returns true) Raises 20.

(** C6 as stated, at [raises_after_success]: an exception is raised in
    Phase 2 and caught, but the record of the attempt keeps the status
    "success" it was closed with, and [agent_attempts] has moved from 0
    to 2. *)
Lemma exception_after_success_keeps_status :
  Runner.phase1 default_config raises_after_success = Runner.P1Ok
  /\ fst (Runner.phase2_body default_config raises_after_success
            (first_frame (Runner.initial_state empty_fs))) = Raises
  /\ exists st',
       Runner.attempt default_config (Runner.initial_state empty_fs)
         raises_after_success = Runner.Again st'
       /\ Runner.agent_attempts st' = 2
       /\ exists d t,
            Logger.files (Runner.fs st')
              !! attempt_file default_config raises_after_success = Some d
            /\ Logger.tasks d = [t]
            /\ Logger.task_status t = Some "success"
            /\ Logger.task_status t
               <> Some (TaskStatus.value TaskStatus.UNKNOWN).
Proof.
  split; [reflexivity|]. split; [reflexivity|].
  eexists. split; [reflexivity|]. split; [reflexivity|].
  eexists. eexists. split; [vm_compute; reflexivity|].
  split; [reflexivity|]. split; [reflexivity|]. discriminate.
Qed.

(** C6, amended.  An exception raised in the body of Phase 2 never leaves
    [run_automation]: the handler runs, [agent_attempts] ends higher than
    it was, and the loop continues.  What the handler records depends on
    how far the attempt had come: no logger yet, no record; a record still
    open, closed as "unknown" and appended to the list of records; a
    record already closed as "success", left as it is. *)
Theorem unexpected_exception_handled :
  forall cfg st e,
    Runner.phase1 cfg e = Runner.P1Ok ->
    (forall s, Runner.attempt cfg st e <> Runner.Crash s)
    /\ forall f',
        Runner.phase2_body cfg e (first_frame st) = (Raises, f') ->
        let st' := Runner.run (Runner.phase2_handler e f') in
        Runner.attempt cfg st e = Runner.Again st'
        /\ Runner.total_attempts st' = Runner.total_attempts st + 1
        /\ Runner.agent_attempts st < Runner.agent_attempts st'
        /\ ((Runner.e_mkdir_ok e = false
             /\ Runner.agent_attempts st' = Runner.agent_attempts st + 1
             /\ Runner.agent_json_paths st' = Runner.agent_json_paths st
             /\ Runner.fs st' = Runner.fs st)
            \/ (Runner.e_mkdir_ok e = true
                /\ f' = open_frame cfg e (first_frame st)
                /\ Runner.agent_attempts st' = Runner.agent_attempts st + 1
                /\ Runner.agent_json_paths st'
                   = Runner.agent_json_paths st ++ [attempt_file cfg e]
                /\ (Logger.writable (Runner.fs st) (attempt_file cfg e) = true ->
                    exists d t,
                      Logger.files (Runner.fs st') !! attempt_file cfg e
                        = Some d
                      /\ Logger.tasks d = [t]
                      /\ Logger.task_status t
                         = Some (TaskStatus.value TaskStatus.UNKNOWN)))
            \/ (Runner.e_mkdir_ok e = true
                /\ f' = closed_frame cfg e TaskStatus.SUCCESS (first_frame st)
                /\ Runner.agent_json_paths st'
                   = Runner.agent_json_paths st ++ [attempt_file cfg e]
                /\ (Logger.writable (Runner.fs st) (attempt_file cfg e) = true ->
                    exists d t,
                      Logger.files (Runner.fs st') !! attempt_file cfg e
                        = Some d
                      /\ Logger.tasks d = [t]
                      /\ Logger.task_status t
                         = Some (TaskStatus.value TaskStatus.SUCCESS)))).
Proof.
  intros cfg st e H1. split; [by apply attempt_never_crashes_in_phase2|].
  intros f' Hb st'.
  assert (Hatt : Runner.attempt cfg st e = Runner.Again st').
  { unfold Runner.attempt. rewrite H1. fold (first_frame st). by rewrite Hb. }
  split; [exact Hatt|].
  pose proof (attempt_total cfg st e) as Ht. rewrite Hatt in Ht. simpl in Ht.
  split; [exact Ht|].
  destruct (phase2_body_cases cfg e (first_frame st))
    as [[Hm Hc] | [Hm [Hc | (status & [Hc | (-> & [Hc | [Hc | Hc]])])]]];
    rewrite Hc in Hb; try discriminate; injection Hb as <-.
  - (* the logger was never constructed *)
    subst st'. simpl. split; [lia|]. left. split_and!; auto.
  - (* the record is open *)
    subst st'. rewrite (handler_on_open_frame cfg e st Hm).
    destruct (closed_frame_effect cfg e TaskStatus.UNKNOWN st Hm)
      as (_ & A & _ & P & _ & _ & W).
    split; [lia|]. right. left. split_and!; auto.
    intros Hw. destruct (W Hw) as (t & Hf & _ & Hs).
    exists (Logger.append_task t (empty_session cfg e)), t. auto.
  - (* the record was closed as SUCCESS before the exception *)
    subst st'. rewrite (handler_on_closed_frame cfg e _ st Hm).
    destruct (closed_frame_effect cfg e TaskStatus.SUCCESS st Hm)
      as (_ & A & _ & P & _ & _ & W).
    split; [simpl; lia|]. right. right. split_and!; auto.
    intros Hw. destruct (W Hw) as (t & Hf & _ & Hs).
    exists (Logger.append_task t (empty_session cfg e)), t. auto.
Qed.

(** An exception in [process_all_prompts]: the record is still open. *)
Definition prompts_raise : Runner.AttemptEnv :=
  scripted true Raises (Returns tt) 20.

Lemma unexpected_exception_handled_witness :
  Runner.attempt default_config (Runner.initial_state empty_fs) prompts_raise
  = Runner.Again
      (Runner.run
         (Runner.phase2_handler prompts_raise
            (open_frame default_config prompts_raise
               (first_frame (Runner.initial_state empty_fs))))).
Proof.
  apply (proj2 (unexpected_exception_handled default_config
                  (Runner.initial_state empty_fs) prompts_raise
                  ltac:(reflexivity))
           (open_frame default_config prompts_raise
              (first_frame (Runner.initial_state empty_fs)))).
  reflexivity.
Defined.

(** ** Post-loop deprecation *)

Section DeprecationFacts.
Import Datetime Logger Runner.

Definition all_writable (fs : FileSystem) : Prop :=
  forall q, writable fs q = true.



(** The records so far come from earlier iterations, one file each, and
    the iteration index is [total_attempts]. *)
Definition records_from (cfg : Config) (env : nat -> AttemptEnv) (i : nat)
    (st : RunState) : Prop :=
  Z.of_nat i = total_attempts st
  /\ NoDup (agent_json_paths st)
  /\ forall p, p ∈ agent_json_paths st ->
       exists k, (k < i)%nat /\ p = attempt_file cfg (env k).

(** No two of the iterations the limit allows name the same file. *)
Definition distinct_files (cfg : Config) (env : nat -> AttemptEnv) : Prop :=
  forall i j, (i < j < Z.to_nat (max_total_attempts cfg))%nat ->
    attempt_file cfg (env i) <> attempt_file cfg (env j).

Lemma attempt_effect_records_from cfg env i st st' :
  distinct_files cfg env ->
  total_attempts st < max_total_attempts cfg ->
  total_attempts st' = total_attempts st + 1 ->
  records_from cfg env i st ->
  attempt_effect (attempt_file cfg (env i)) st st' ->
  records_from cfg env (S i) st'.
Proof.
  intros Hdist Hlt Htot (Hi & Hnd & Hfrom) [[Hp _] | (Hp & _)];
    unfold records_from; rewrite Hp; (split; [lia|]).
  - split; [exact Hnd|]. intros p Hin.
    destruct (Hfrom p Hin) as (k & Hk & ->). exists k. split; [lia|done].
  - split.
    + apply NoDup_app. split; [exact Hnd|]. split; [|apply NoDup_singleton].
      intros p Hin Hp'. apply list_elem_of_singleton in Hp'. subst p.
      destruct (Hfrom _ Hin) as (k & Hk & Heq).
      apply (Hdist k i); [lia | by symmetry].
    + intros p Hin. apply elem_of_app in Hin as [Hin | Hin].
      * destruct (Hfrom p Hin) as (k & Hk & ->). exists k. split; [lia|done].
      * apply list_elem_of_singleton in Hin. exists i. split; [lia|done].
Qed.


Lemma mark_other p q reason fs :
  p <> q ->
  files (mark_json_deprecated p reason fs) !! q = files fs !! q.
Proof.
  intros Hne. unfold mark_json_deprecated.
  destruct (files fs !! p); [by apply write_file_lookup_ne | done].
Qed.

Lemma mark_writable p reason fs :
  writable (mark_json_deprecated p reason fs) = writable fs.
Proof.
  unfold mark_json_deprecated.
  destruct (files fs !! p); [apply write_file_writable | done].
Qed.

Lemma mark_same p reason fs d :
  writable fs p = true -> files fs !! p = Some d ->
  files (mark_json_deprecated p reason fs) !! p
  = Some (deprecate_all reason d).
Proof.
  intros Hw Hd. unfold mark_json_deprecated. rewrite Hd.
  by apply write_file_lookup.
Qed.

Lemma deprecate_all_idem reason d :
  deprecate_all reason (deprecate_all reason d) = deprecate_all reason d.
Proof.
  unfold deprecate_all. simpl. f_equal. rewrite map_map.
  apply map_ext. intros t. reflexivity.
Qed.

Definition mark_all (reason : string) (paths : list string)
    (fs : FileSystem) : FileSystem :=
  fold_left (fun fs path => mark_json_deprecated path reason fs) paths fs.

Lemma mark_all_writable reason paths :
  forall fs, writable (mark_all reason paths fs) = writable fs.
Proof.
  unfold mark_all. induction paths as [|p rest IH]; intros fs; simpl;
    [done|].
  rewrite IH. apply mark_writable.
Qed.

Lemma mark_all_not_in reason paths q :
  forall fs, q ∉ paths ->
    files (mark_all reason paths fs) !! q = files fs !! q.
Proof.
  unfold mark_all. induction paths as [|p rest IH]; intros fs Hq; simpl;
    [done|].
  apply not_elem_of_cons in Hq as [Hne Hq].
  rewrite IH by exact Hq. apply mark_other. congruence.
Qed.


End DeprecationFacts.


(** Three attempts that reach Phase 2, ten seconds apart: two prompt
    failures and a success. *)
Definition three_records_script (k : nat) : Runner.AttemptEnv :=
  match k with
  | 0%nat => prompt_fails 10
  | 1%nat => prompt_fails 20
  | _ => succeeds (10 * S k)
  end.

(** The state in which that run ends. *)
Definition three_records_final : Runner.RunState :=
  Eval vm_compute in
    match Runner.run_automation default_config three_records_script empty_fs
    with
    | Runner.Returned st => st
    | _ => Runner.initial_state empty_fs
    end.




Remark same_second_same_file :
  attempt_file default_config (prompt_fails 20)
  = attempt_file default_config (succeeds 20).
Proof. reflexivity. Qed.

(* ===================================================================== *)
(** * Further properties of the modelled code                             *)
(* ===================================================================== *)

(** ** Python values: string length, slices, rounded durations *)

(** [len] and [[:n]] count code points, not bytes: for an e-acute (two
    bytes) followed by [a]. *)
Example py_len_counts_code_points :
  let e_acute :=
    String (ascii_of_nat 195) (String (ascii_of_nat 169) EmptyString) in
  py_len (e_acute ++ "a") = 2%nat
  /\ String.length (e_acute ++ "a") = 3%nat
  /\ py_prefix 1 (e_acute ++ "a") = e_acute.
Proof. vm_compute. auto. Qed.

(** [round(x, 2)] on durations: 1.234567 s gives 1.23; 0.005 s gives 0.01
    (the double lies above the tie); 0.125 s, a double, gives 0.12. *)
Example round2_samples :
  Datetime.round2 1234567 = 123
  /\ Datetime.round2 5000 = 1
  /\ Datetime.round2 15000 = 1
  /\ Datetime.round2 125000 = 12
  /\ Datetime.round2 375000 = 38
  /\ Datetime.round2 (-1234567) = -123
  /\ Datetime.round2 0 = 0.
Proof. vm_compute. auto 10. Qed.

(** ** agents/base.py: the two status sets *)

(** Every status lies in exactly one of [AGENT_STATUSES] and
    [PIPELINE_STATUSES], and neither set lists a status twice. *)
Theorem status_sets_partition :
  (forall s : TaskStatus.t,
     ((s ∈ TaskStatus.AGENT_STATUSES) /\ (s ∉ TaskStatus.PIPELINE_STATUSES))
     \/ ((s ∉ TaskStatus.AGENT_STATUSES)
         /\ (s ∈ TaskStatus.PIPELINE_STATUSES)))
  /\ NoDup TaskStatus.AGENT_STATUSES
  /\ NoDup TaskStatus.PIPELINE_STATUSES
  /\ (forall a b : TaskStatus.t,
        TaskStatus.value a = TaskStatus.value b -> a = b).
Proof.
  split_and!.
  - intros s. unfold TaskStatus.AGENT_STATUSES, TaskStatus.PIPELINE_STATUSES.
    destruct s; [left | left | left | left | left | left
                 | right | right | right | right | right];
      split; rewrite ?elem_of_cons, ?elem_of_nil;
      try (intuition discriminate); intuition.
  - unfold TaskStatus.AGENT_STATUSES.
    repeat (apply NoDup_cons; split;
            [rewrite ?elem_of_cons, ?elem_of_nil; intuition discriminate|]).
    apply NoDup_nil_2.
  - unfold TaskStatus.PIPELINE_STATUSES.
    repeat (apply NoDup_cons; split;
            [rewrite ?elem_of_cons, ?elem_of_nil; intuition discriminate|]).
    apply NoDup_nil_2.
  - intros a b H. apply TaskStatus.status_eqb_eq.
    unfold TaskStatus.eqb. rewrite H. apply String.eqb_refl.
Qed.

(** ** engine/completion_logger.py: names, entries and the disk *)

Section LoggerMore.
Import Datetime Logger.

Fixpoint string_forall (P : ascii -> bool) (s : string) : bool :=
  match s with
  | EmptyString => true
  | String c rest => P c && string_forall P rest
  end.

Lemma replace_char_allowed c :
  allowed_char c = true -> replace_char c = c.
Proof.
  unfold replace_char.
  destruct (Ascii.eqb c "/") eqn:E1;
    [apply Ascii.eqb_eq in E1; subst; discriminate|].
  destruct (Ascii.eqb c "\") eqn:E2;
    [apply Ascii.eqb_eq in E2; subst; discriminate|].
  destruct (Ascii.eqb c " ") eqn:E3;
    [apply Ascii.eqb_eq in E3; subst; discriminate|].
  reflexivity.
Qed.

Lemma clean_name_fixed s :
  string_forall allowed_char s = true -> _clean_name s = s.
Proof.
  induction s as [|c rest IH]; simpl; [reflexivity|].
  intros H. apply andb_true_iff in H as [Hc Hrest].
  rewrite (replace_char_allowed c Hc), Hc, (IH Hrest). reflexivity.
Qed.

Lemma clean_name_allowed s :
  string_forall allowed_char (_clean_name s) = true.
Proof.
  induction s as [|c rest IH]; simpl; [reflexivity|].
  destruct (allowed_char (replace_char c)) eqn:E; [|exact IH].
  simpl. by rewrite E, IH.
Qed.

(** [_clean_name] keeps only letters, digits, [.], [_] and [-]; it never
    lengthens the name; cleaning a clean name changes nothing. *)
Theorem clean_name_safe :
  forall name : string,
    string_forall allowed_char (_clean_name name) = true
    /\ (String.length (_clean_name name) <= String.length name)%nat
    /\ _clean_name (_clean_name name) = _clean_name name.
Proof.
  intros name. split_and!.
  - apply clean_name_allowed.
  - induction name as [|c rest IH]; simpl; [lia|].
    destruct (allowed_char (replace_char c)); simpl; lia.
  - apply clean_name_fixed, clean_name_allowed.
Qed.

Lemma py_prefix_spec s :
  forall n,
    py_len (py_prefix n s) = Nat.min n (py_len s)
    /\ String.prefix (py_prefix n s) s = true
    /\ ((py_len s <= n)%nat -> py_prefix n s = s).
Proof.
  induction s as [|c rest IH]; intros n.
  - simpl. rewrite Nat.min_0_r. auto.
  - cbn [py_prefix py_len]. destruct (is_continuation c) eqn:Ec.
    + destruct (IH n) as (Hl & Hp & He).
      cbn [py_len]. rewrite Ec. cbn [String.prefix].
      split_and!; [exact Hl | | intros H; by rewrite He].
      destruct (ascii_dec c c) as [_|Hne]; [exact Hp | by destruct Hne].
    + destruct n as [|m].
      * simpl. split_and!; [reflexivity | reflexivity | lia].
      * destruct (IH m) as (Hl & Hp & He).
        cbn [py_len]. rewrite Ec. cbn [String.prefix].
        split_and!; [simpl; by rewrite Hl | | intros H; rewrite He; [done | lia]].
        destruct (ascii_dec c c) as [_|Hne]; [exact Hp | by destruct Hne].
Qed.

(** [start_prompt] stores a prefix of the prompt of at most 500
    characters (code points), the whole prompt when it is no longer than
    that. *)
Theorem start_prompt_truncates :
  forall (text : string) (now : datetime) (cl : CompletionLogger)
         (fs : FileSystem),
    exists p,
      current_prompt (fst (start_prompt text now cl fs)) = Some p
      /\ py_len (prompt_text p) = Nat.min 500 (py_len text)
      /\ String.prefix (prompt_text p) text = true
      /\ ((py_len text <= 500)%nat -> prompt_text p = text)
      /\ prompt_success p = None /\ prompt_end_time p = None.
Proof.
  intros text now cl fs. eexists. split; [reflexivity|].
  cbn [prompt_text prompt_success prompt_end_time].
  destruct (py_prefix_spec text 500) as (Hl & Hp & He). auto.
Qed.

(** Every mutating call writes [session_file] and no other file, and none
    of them changes which file the logger writes. *)
Theorem logger_writes_only_session_file :
  forall (cl : CompletionLogger) (fs : FileSystem) (name text : string)
         (n len : Z) (ok : bool) (status : TaskStatus.t) (now : datetime)
         (q : string),
    q <> session_file cl ->
    files (snd (start_task name n now cl fs)) !! q = files fs !! q
    /\ files (snd (end_task status now cl fs)) !! q = files fs !! q
    /\ files (snd (start_prompt text now cl fs)) !! q = files fs !! q
    /\ files (snd (end_prompt ok len now cl fs)) !! q = files fs !! q
    /\ session_file (fst (start_task name n now cl fs)) = session_file cl
    /\ session_file (fst (end_task status now cl fs)) = session_file cl
    /\ session_file (fst (start_prompt text now cl fs)) = session_file cl
    /\ session_file (fst (end_prompt ok len now cl fs)) = session_file cl.
Proof.
  intros cl fs name text n len ok status now q Hq.
  assert (Hw : forall cl', session_file cl' = session_file cl ->
            files (_write_to_disk cl' fs) !! q = files fs !! q).
  { intros cl' E. unfold _write_to_disk. apply write_file_lookup_ne.
    rewrite E. congruence. }
  split_and!; try reflexivity.
  - by apply Hw.
  - unfold end_task. destruct (current_task cl); [by apply Hw | reflexivity].
  - by apply Hw.
  - unfold end_prompt. destruct (current_prompt cl); [|reflexivity].
    simpl. apply Hw. by destruct (current_task cl).
  - unfold end_task. by destruct (current_task cl).
  - unfold end_prompt. destruct (current_prompt cl); [|reflexivity].
    by destruct (current_task cl).
Qed.

Lemma logger_writes_only_session_file_witness :
  files (snd (start_task "demo" 1 (sample_time 3) sample_logger empty_fs))
    !! "json_logs/other.json" = files empty_fs !! "json_logs/other.json".
Proof.
  apply (logger_writes_only_session_file sample_logger empty_fs "demo" ""
           1 0 true TaskStatus.SUCCESS (sample_time 3)
           "json_logs/other.json").
  discriminate.
Defined.

End LoggerMore.

(** One prompt as the agent logs it: [start_prompt], later [end_prompt]. *)
Record Exchange : Type := mk_exchange {
  ex_text : string;
  ex_start : Datetime.datetime;
  ex_ok : bool;
  ex_len : Z;
  ex_end : Datetime.datetime
}.

Definition log_exchange (x : Exchange)
    (st : Logger.CompletionLogger * Logger.FileSystem)
  : Logger.CompletionLogger * Logger.FileSystem :=
  let '(cl1, fs1) :=
    Logger.start_prompt (ex_text x) (ex_start x) (fst st) (snd st) in
  Logger.end_prompt (ex_ok x) (ex_len x) (ex_end x) cl1 fs1.

Definition log_exchanges (xs : list Exchange)
    (st : Logger.CompletionLogger * Logger.FileSystem)
  : Logger.CompletionLogger * Logger.FileSystem :=
  fold_left (fun st x => log_exchange x st) xs st.

(** The entry a logged prompt leaves in the task. *)
Definition exchange_entry (x : Exchange) : Logger.PromptEntry :=
  {| Logger.prompt_text := py_prefix 500 (ex_text x);
     Logger.prompt_start_time := ex_start x;
     Logger.prompt_end_time := Some (ex_end x);
     Logger.prompt_success := Some (ex_ok x);
     Logger.prompt_duration_seconds :=
       Some (Datetime.seconds_between (ex_end x) (ex_start x));
     Logger.response_length :=
       if ex_len x =? 0 then None else Some (ex_len x) |}.

Section LoggerLifecycle.
Import Datetime Logger.

Lemma log_exchanges_open (xs : list Exchange) :
  forall cl fs t,
    current_task cl = Some t ->
    current_task (fst (log_exchanges xs (cl, fs)))
      = Some {| task_name := task_name t;
                attempt_number := attempt_number t;
                start_time := start_time t; end_time := end_time t;
                task_status := task_status t; agent_failed := agent_failed t;
                agent_failed_reason := agent_failed_reason t;
                deprecated := deprecated t;
                deprecated_reason := deprecated_reason t;
                duration_seconds := duration_seconds t;
                prompts := prompts t ++ map exchange_entry xs |}
    /\ session_data (fst (log_exchanges xs (cl, fs))) = session_data cl
    /\ session_file (fst (log_exchanges xs (cl, fs))) = session_file cl
    /\ (xs <> [] -> current_prompt (fst (log_exchanges xs (cl, fs))) = None)
    /\ writable (snd (log_exchanges xs (cl, fs))) = writable fs.
Proof.
  induction xs as [|x rest IH]; intros cl fs t Ht.
  - simpl. rewrite app_nil_r. destruct t. simpl. split_and!; auto. done.
  - change (log_exchanges (x :: rest) (cl, fs))
      with (log_exchanges rest (log_exchange x (cl, fs))).
    assert (Hstep : exists cl1 fs1,
              log_exchange x (cl, fs) = (cl1, fs1)
              /\ current_task cl1 = Some (add_prompt (exchange_entry x) t)
              /\ current_prompt cl1 = None
              /\ session_data cl1 = session_data cl
              /\ session_file cl1 = session_file cl
              /\ writable fs1 = writable fs).
    { unfold log_exchange. simpl. unfold end_prompt. simpl. rewrite Ht.
      eexists. eexists. split; [reflexivity|]. simpl.
      split_and!; auto.
      unfold _write_to_disk. simpl. by rewrite !write_file_writable. }
    destruct Hstep as (cl1 & fs1 & -> & T1 & P1 & D1 & F1 & W1).
    destruct (IH cl1 fs1 _ T1) as (A & B & C & D & E).
    rewrite A, B, C, E. simpl. rewrite <- app_assoc. simpl.
    split_and!; auto; try congruence.
    intros _. destruct rest as [|y rest']; [exact P1|].
    apply D. discriminate.
Qed.

(** A whole session: construct the logger, start the task, log the
    prompts, end the task.  The file then holds the logger's document: one
    task with the given name, attempt number and status, its prompts in
    the order they were logged; [agent_failed] says whether the status is
    other than SUCCESS; nothing is left in progress. *)
Theorem session_round_trip :
  forall (dir ident agent src name : string) (pv n : Z)
         (t0 t1 t2 : datetime) (xs : list Exchange) (status : TaskStatus.t)
         (fs : FileSystem) (cl0 : CompletionLogger) (fs0 : FileSystem),
    init dir (Some ident) agent pv src true t0 fs = Returns (cl0, fs0) ->
    writable fs (session_file cl0) = true ->
    let '(cl1, fs1) := start_task name n t1 cl0 fs0 in
    let '(cl2, fs2) := log_exchanges xs (cl1, fs1) in
    let '(cl3, fs3) := end_task status t2 cl2 fs2 in
    files fs3 !! session_file cl0 = Some (session_data cl3)
    /\ current_task cl3 = None
    /\ exists t,
         tasks (session_data cl3) = [t]
         /\ task_name t = name /\ attempt_number t = n
         /\ task_status t = Some (TaskStatus.value status)
         /\ agent_failed t = Some (negb (TaskStatus.eqb status TaskStatus.SUCCESS))
         /\ deprecated t = false
         /\ prompts t = map exchange_entry xs.
Proof.
  intros dir ident agent src name pv n t0 t1 t2 xs status fs cl0 fs0 Hinit Hw.
  unfold init in Hinit. injection Hinit as <- <-.
  cbn [start_task].
  match goal with
  | |- context [log_exchanges xs (?c, ?f)] =>
      destruct (log_exchanges_open xs c f (new_task name n t1) eq_refl)
        as (A & B & C & _ & E);
      destruct (log_exchanges xs (c, f)) as [cl2 fs2]
  end.
  simpl in A, B, C, E. unfold end_task. rewrite A. simpl.
  split_and!.
  - unfold _write_to_disk. simpl. rewrite C. apply write_file_lookup.
    rewrite E. unfold _write_to_disk. simpl.
    rewrite !write_file_writable. exact Hw.
  - reflexivity.
  - eexists. rewrite B. simpl. split; [reflexivity|]. simpl.
    split_and!; reflexivity.
Qed.

Lemma session_round_trip_witness :
  let '(cl1, fs1) := start_task "demo" 1 (sample_time 3) sample_logger
                       (_write_to_disk sample_logger empty_fs) in
  let '(cl2, fs2) :=
    log_exchanges [mk_exchange "first prompt" (sample_time 4) true 120
                     (sample_time 30)] (cl1, fs1) in
  let '(cl3, fs3) := end_task TaskStatus.TIMEOUT (sample_time 40) cl2 fs2 in
  files fs3 !! session_file sample_logger = Some (session_data cl3)
  /\ current_task cl3 = None
  /\ exists t,
       tasks (session_data cl3) = [t]
       /\ task_name t = "demo" /\ attempt_number t = 1
       /\ task_status t = Some (TaskStatus.value TaskStatus.TIMEOUT)
       /\ agent_failed t
          = Some (negb (TaskStatus.eqb TaskStatus.TIMEOUT TaskStatus.SUCCESS))
       /\ deprecated t = false
       /\ prompts t
          = map exchange_entry
              [mk_exchange "first prompt" (sample_time 4) true 120
                 (sample_time 30)].
Proof.
  apply (session_round_trip "json_logs" "demo" "chatgpt_web" "fmwc" "demo"
           1 1 (sample_time 2) (sample_time 3) (sample_time 40)
           [mk_exchange "first prompt" (sample_time 4) true 120
              (sample_time 30)]
           TaskStatus.TIMEOUT empty_fs sample_logger
           (_write_to_disk sample_logger empty_fs));
    reflexivity.
Defined.

(** A prompt logged while no task is active is dropped: after
    [start_prompt] and [end_prompt] the document and the (absent) task are
    what they were, and no prompt is in progress. *)
Theorem prompt_without_task_is_dropped :
  forall (cl : CompletionLogger) (fs : FileSystem) (x : Exchange),
    current_task cl = None ->
    let st := log_exchange x (cl, fs) in
    session_data (fst st) = session_data cl
    /\ current_task (fst st) = None
    /\ current_prompt (fst st) = None.
Proof.
  intros cl fs x Ht. unfold log_exchange. simpl. unfold end_prompt. simpl.
  rewrite Ht. simpl. auto.
Qed.

Lemma prompt_without_task_is_dropped_witness :
  session_data
    (fst (log_exchange
            (mk_exchange "lost" (sample_time 4) true 7 (sample_time 5))
            (sample_logger, empty_fs)))
  = session_data sample_logger.
Proof.
  apply (prompt_without_task_is_dropped sample_logger empty_fs
           (mk_exchange "lost" (sample_time 4) true 7 (sample_time 5))).
  reflexivity.
Defined.

(** A second [start_task] replaces the task in progress: of two tasks
    started in a row only the second reaches the document. *)
Theorem restarted_task_replaces_first :
  forall (cl : CompletionLogger) (fs : FileSystem) (name1 name2 : string)
         (n1 n2 : Z) (t1 t2 t3 : datetime) (status : TaskStatus.t),
    let '(cl1, fs1) := start_task name1 n1 t1 cl fs in
    let '(cl2, fs2) := start_task name2 n2 t2 cl1 fs1 in
    let '(cl3, fs3) := end_task status t3 cl2 fs2 in
    tasks (session_data cl3)
    = tasks (session_data cl) ++ [close_task status t3 (new_task name2 n2 t2)]
    /\ current_task cl3 = None.
Proof. intros. simpl. auto. Qed.

End LoggerLifecycle.

(** ** engine/runner.py: deprecation marks, Phase 1, loop bounds *)

Local Set Warnings "-clear-no-such-hyp".

Section RunnerMore.
Import Datetime Logger Runner.

(** [mark_json_deprecated]: a missing file and a file that cannot be
    written are left alone (nothing is created); other files are never
    touched; on a file that can be written every task entry gets the flag
    and the reason and keeps the rest; marking twice is marking once. *)
Theorem mark_json_deprecated_effect :
  forall (p reason : string) (fs : FileSystem),
    (files fs !! p = None -> mark_json_deprecated p reason fs = fs)
    /\ (writable fs p = false -> mark_json_deprecated p reason fs = fs)
    /\ (forall q, q <> p ->
          files (mark_json_deprecated p reason fs) !! q = files fs !! q)
    /\ (forall d, files fs !! p = Some d -> writable fs p = true ->
          exists d',
            files (mark_json_deprecated p reason fs) !! p = Some d'
            /\ length (tasks d') = length (tasks d)
            /\ Forall (fun t => deprecated t = true
                                /\ deprecated_reason t = Some reason)
                 (tasks d')
            /\ map task_name (tasks d') = map task_name (tasks d)
            /\ map task_status (tasks d') = map task_status (tasks d)
            /\ map prompts (tasks d') = map prompts (tasks d))
    /\ mark_json_deprecated p reason (mark_json_deprecated p reason fs)
       = mark_json_deprecated p reason fs.
Proof.
  intros p reason fs. split_and!.
  - intros H. unfold mark_json_deprecated. by rewrite H.
  - intros H. unfold mark_json_deprecated, write_file. rewrite H.
    by destruct (files fs !! p).
  - intros q Hq. apply mark_other. congruence.
  - intros d Hd Hw. exists (deprecate_all reason d).
    split; [by apply mark_same|]. simpl. rewrite length_map, !map_map. simpl.
    split_and!; auto.
    apply Forall_forall. intros t Ht. apply list_elem_of_fmap in Ht.
    destruct Ht as (t0 & -> & _). simpl. auto.
  - unfold mark_json_deprecated at 2.
    destruct (files fs !! p) as [d|] eqn:Hd.
    + unfold write_file. destruct (writable fs p) eqn:Hw.
      * unfold mark_json_deprecated, write_file. simpl.
        rewrite lookup_insert_eq, Hw, deprecate_all_idem.
        by rewrite insert_insert_eq, Hd.
      * unfold mark_json_deprecated, write_file. by rewrite Hd, Hw.
    + unfold mark_json_deprecated. by rewrite Hd.
Qed.

Lemma mark_json_deprecated_effect_witness :
  mark_json_deprecated "json_logs/missing.json" "Superseded by later attempt"
    empty_fs = empty_fs.
Proof.
  apply (proj1 (mark_json_deprecated_effect "json_logs/missing.json"
                  "Superseded by later attempt" empty_fs)).
  reflexivity.
Defined.

#[local] Instance AgentState_eq_dec : EqDecision AgentState.t.
Proof. solve_decision. Defined.

Lemma login_wait_never_ready polls :
  forall n i s,
    s <> AgentState.READY ->
    (forall k, (i <= k < i + n)%nat -> polls k <> AgentState.READY) ->
    login_wait polls n i s <> AgentState.READY.
Proof.
  induction n as [|n IH]; intros i s Hs H; simpl; [exact Hs|].
  pose proof (H i ltac:(lia)) as Hi.
  destruct (AgentState.eqb (polls i) AgentState.READY) eqn:E.
  - apply AgentState.state_eqb_eq in E. contradiction.
  - apply IH; [exact Hi|]. intros k Hk. apply H. lia.
Qed.

Lemma login_wait_ready polls :
  forall n i s,
    (exists k, (i <= k < i + n)%nat /\ polls k = AgentState.READY) ->
    login_wait polls n i s = AgentState.READY.
Proof.
  induction n as [|n IH]; intros i s (k & Hk & Hr); simpl; [lia|].
  destruct (AgentState.eqb (polls i) AgentState.READY) eqn:E.
  - by apply AgentState.state_eqb_eq in E.
  - apply IH. exists k. split; [|exact Hr].
    destruct (decide (k = i)) as [-> | Hne]; [|lia].
    apply AgentState.state_eqb_eq in Hr. congruence.
Qed.

Lemma login_wait_cases polls s :
  s <> AgentState.READY ->
  (login_wait polls 30 0 s = AgentState.READY
   /\ exists k, (k < 30)%nat /\ polls k = AgentState.READY)
  \/ (login_wait polls 30 0 s <> AgentState.READY
      /\ forall k, (k < 30)%nat -> polls k <> AgentState.READY).
Proof.
  intros Hs.
  destruct (decide (Exists (fun k => polls k = AgentState.READY) (seq 0 30)))
    as [Hex | Hnex].
  - apply Exists_exists in Hex as (k & Hin & Hr).
    apply elem_of_seq in Hin.
    left. split; [|exists k; split; [lia | exact Hr]].
    apply login_wait_ready. exists k. split; [lia | exact Hr].
  - right.
    assert (Hall : forall k, (k < 30)%nat -> polls k <> AgentState.READY).
    { intros k Hk Hr. apply Hnex. apply Exists_exists. exists k.
      split; [apply elem_of_seq; lia | exact Hr]. }
    split; [|exact Hall].
    apply login_wait_never_ready; [exact Hs|]. intros k Hk. apply Hall. lia.
Qed.

(** Which pipeline error Phase 1 raises.  Navigation failure comes first;
    a login page is waited on for 30 polls and becomes AUTH_FAILED when
    none of them reads READY; RATE_LIMITED is raised only for a page that
    showed the limit at once; the upload is tried, and can fail, only when
    there are files to upload. *)
Theorem pipeline_error_classification :
  forall (cfg : Config) (e : AttemptEnv),
    (pipeline cfg e = inl TaskStatus.NAVIGATION_FAILED
     <-> e_navigate e = false)
    /\ (pipeline cfg e = inl TaskStatus.AUTH_FAILED
        <-> e_navigate e = true
            /\ e_state e = AgentState.AUTH_REQUIRED
            /\ forall k, (k < 30)%nat ->
                 e_login_states e k <> AgentState.READY)
    /\ (pipeline cfg e = inl TaskStatus.RATE_LIMITED
        <-> e_navigate e = true /\ e_state e = AgentState.RATE_LIMITED)
    /\ (pipeline cfg e = inl TaskStatus.UPLOAD_FAILED
        <-> e_navigate e = true
            /\ e_state e <> AgentState.RATE_LIMITED
            /\ (e_state e = AgentState.AUTH_REQUIRED ->
                exists k, (k < 30)%nat
                  /\ e_login_states e k = AgentState.READY)
            /\ files_to_upload cfg <> []
            /\ e_upload e = false).
Proof.
  intros cfg e. unfold pipeline.
  destruct (e_navigate e); cbn [negb]; [|split_and!; naive_solver].
  destruct (AgentState.eqb (e_state e) AgentState.AUTH_REQUIRED) eqn:Ea.
  - apply AgentState.state_eqb_eq in Ea. rewrite Ea.
    destruct (login_wait_cases (e_login_states e) AgentState.AUTH_REQUIRED
                ltac:(discriminate)) as [[Hr Hex] | [Hn Hall]].
    + rewrite Hr. cbn [AgentState.eqb negb].
      destruct (files_to_upload cfg) as [|f fsl];
        [|destruct (e_upload e)]; cbn [negb];
        split_and!; naive_solver.
    + replace (AgentState.eqb (login_wait (e_login_states e) 30 0
                                 AgentState.AUTH_REQUIRED) AgentState.READY)
        with false.
      2:{ symmetry. destruct (AgentState.eqb _ _) eqn:E; [|reflexivity].
          apply AgentState.state_eqb_eq in E. contradiction. }
      cbn [negb]. split_and!; naive_solver.
  - assert (Hna : e_state e <> AgentState.AUTH_REQUIRED).
    { intros H. apply AgentState.state_eqb_eq in H. congruence. }
    destruct (AgentState.eqb (e_state e) AgentState.RATE_LIMITED) eqn:Er.
    + apply AgentState.state_eqb_eq in Er. split_and!; naive_solver.
    + assert (Hnr : e_state e <> AgentState.RATE_LIMITED).
      { intros H. apply AgentState.state_eqb_eq in H. congruence. }
      destruct (files_to_upload cfg) as [|f fsl];
        [|destruct (e_upload e)]; cbn [negb];
        split_and!; naive_solver.
Qed.

End RunnerMore.

Section LoopMore.
Import Datetime Logger Runner.

Lemma attempt_agent_bounds cfg st e :
  agent_attempts st <= agent_attempts (state_of (attempt cfg st e))
  /\ agent_attempts (state_of (attempt cfg st e)) <= agent_attempts st + 2.
Proof.
  destruct (attempt_cases cfg st e)
    as [ | | | ? Hm | status ? Hm | ? Hm | ? Hm | ? Hm ]; simpl; try lia;
    match goal with
    | |- context [closed_frame _ _ ?s _] =>
        destruct (closed_frame_effect cfg e s st Hm) as (_ & B & _); lia
    end.
Qed.

Lemma limits_reached_agent cfg st e :
  max_agent_attempts cfg <= agent_attempts st ->
  limits_reached cfg st e = true.
Proof.
  intros H. unfold limits_reached.
  replace (max_agent_attempts cfg <=? agent_attempts st) with true by lia.
  by rewrite orb_true_r.
Qed.

Lemma limits_false_agent cfg st e :
  limits_reached cfg st e = false ->
  agent_attempts st < max_agent_attempts cfg.
Proof.
  unfold limits_reached. intros H.
  destruct (max_agent_attempts cfg <=? agent_attempts st) eqn:E; [|lia].
  by rewrite orb_true_r in H.
Qed.

(** The state a run ends in, when it ends. *)
Definition final_state (r : RunResult) : option RunState :=
  match r with
  | Returned st | Crashed st | Held st => Some st
  | OutOfFuel => None
  end.

Definition within_bounds (cfg : Config) (st : RunState) : Prop :=
  0 <= total_attempts st <= Z.max 0 (max_total_attempts cfg)
  /\ 0 <= agent_attempts st <= Z.max 0 (max_agent_attempts cfg + 1)
  /\ agent_attempts st <= 2 * total_attempts st.

Lemma retry_loop_within_bounds cfg env :
  forall fuel i st st',
    within_bounds cfg st ->
    final_state (retry_loop fuel cfg env i st) = Some st' ->
    within_bounds cfg st'.
Proof.
  induction fuel as [|fuel IH]; intros i st st' Hb; simpl; [discriminate|].
  destruct (limits_reached cfg st (env i)) eqn:Hlim;
    [intros [= <-]; exact Hb|].
  pose proof (limits_false_total _ _ _ Hlim) as Ht.
  pose proof (limits_false_agent _ _ _ Hlim) as Ha.
  pose proof (attempt_total cfg st (env i)) as Htot.
  pose proof (attempt_agent_bounds cfg st (env i)) as [Hlo Hhi].
  assert (Hb1 : within_bounds cfg (state_of (attempt cfg st (env i)))).
  { destruct Hb as ((T0 & T1) & (A0 & A1) & D). unfold within_bounds.
    rewrite Htot. lia. }
  destruct (attempt cfg st (env i)) as [st1 | st1 | st1 | st1];
    simpl in Hb1; simpl.
  - by apply IH.
  - by intros [= <-].
  - by intros [= <-].
  - by intros [= <-].
Qed.

(** However the attempts go, [run_automation] stops within the iteration
    bound, with [total_attempts] between 0 and the configured limit,
    [agent_attempts] at most one above its limit, and never more than two
    agent charges per iteration. *)
Theorem run_automation_bounds :
  forall (cfg : Config) (env : nat -> AttemptEnv) (fs0 : FileSystem),
    exists st,
      final_state (run_automation cfg env fs0) = Some st
      /\ 0 <= total_attempts st <= Z.max 0 (max_total_attempts cfg)
      /\ 0 <= agent_attempts st <= Z.max 0 (max_agent_attempts cfg + 1)
      /\ agent_attempts st <= 2 * total_attempts st.
Proof.
  intros cfg env fs0.
  pose proof (run_automation_returns cfg env fs0) as Hfuel.
  assert (Hb0 : within_bounds cfg (initial_state fs0)).
  { unfold within_bounds. simpl. lia. }
  pose proof (retry_loop_within_bounds cfg env
                (S (Z.to_nat (max_total_attempts cfg))) 0%nat
                (initial_state fs0)) as Hloop.
  unfold run_automation in *.
  destruct (retry_loop _ cfg env 0%nat (initial_state fs0)) as [st|st|st|];
    [| | |done].
  - exists (deprecate_earlier st). split; [reflexivity|].
    destruct (deprecate_earlier_counters st) as (-> & -> & _).
    by apply (Hloop st Hb0).
  - exists st. split; [reflexivity|]. by apply (Hloop st Hb0).
  - exists st. split; [reflexivity|]. by apply (Hloop st Hb0).
Qed.

Lemma attempt_classified_paths cfg st e :
  phase1 cfg e = P1Ok ->
  fst (phase2_body cfg e (first_frame st)) = Returns FlowContinue ->
  exists st',
    attempt cfg st e = Again st'
    /\ total_attempts st' = total_attempts st + 1
    /\ agent_attempts st' = agent_attempts st + 1
    /\ task_success st' = task_success st
    /\ agent_json_paths st' = agent_json_paths st ++ [attempt_file cfg e].
Proof.
  intros H1 Hret.
  destruct (attempt_cases cfg st e)
    as [ | | ? ? Hb | ? Hm Hb | status ? Hm | ? Hm Hb | ? Hm Hb | ? Hm Hb ];
    try congruence; try (rewrite Hb in Hret; discriminate).
  eexists. split; [reflexivity|].
  destruct (closed_frame_effect cfg e status st Hm)
    as (A & B & C & D & _). auto.
Qed.

Lemma agent_failures_loop cfg env :
  (forall k, quiet_top cfg (env k)) ->
  (forall k, phase1 cfg (env k) = P1Ok) ->
  (forall k f, fst (phase2_body cfg (env k) f) = Returns FlowContinue) ->
  forall fuel i st,
    agent_attempts st <= max_agent_attempts cfg ->
    total_attempts st + (max_agent_attempts cfg - agent_attempts st)
      <= max_total_attempts cfg ->
    (Z.to_nat (max_agent_attempts cfg - agent_attempts st) < fuel)%nat ->
    exists st',
      retry_loop fuel cfg env i st = Returned st'
      /\ agent_attempts st' = max_agent_attempts cfg
      /\ total_attempts st'
         = total_attempts st + (max_agent_attempts cfg - agent_attempts st)
      /\ task_success st' = task_success st
      /\ length (agent_json_paths st')
         = (length (agent_json_paths st)
            + Z.to_nat (max_agent_attempts cfg - agent_attempts st))%nat.
Proof.
  intros Hq H1 Hb.
  induction fuel as [|fuel IH]; intros i st Ha Ht Hfuel; [lia|]. simpl.
  destruct (Z.eq_dec (agent_attempts st) (max_agent_attempts cfg)) as [E|E].
  - rewrite limits_reached_agent by lia. exists st.
    split; [reflexivity|]. rewrite E, Z.sub_diag. simpl.
    split_and!; auto; lia.
  - rewrite limits_not_reached by (auto; lia).
    destruct (attempt_classified_paths cfg st (env i) (H1 i) (Hb i _))
      as (st1 & -> & T1 & A1 & S1 & P1).
    destruct (IH (S i) st1) as (st' & Hrun & A' & T' & S' & P');
      try lia.
    exists st'. split; [exact Hrun|].
    rewrite P1, length_app in P'. simpl in P'.
    split_and!; [exact A' | lia | congruence | lia].
Qed.

(** When every attempt reaches Phase 2 and ends in a classified agent
    failure, the loop stops after exactly [max_agent_attempts] attempts,
    each charged and each leaving a record, however much of
    [max_total_attempts] is left. *)
Theorem agent_failures_exhaust_agent_budget :
  forall (cfg : Config) (env : nat -> AttemptEnv) (fs0 : FileSystem),
    0 <= max_agent_attempts cfg <= max_total_attempts cfg ->
    (forall k, quiet_top cfg (env k)) ->
    (forall k, phase1 cfg (env k) = P1Ok) ->
    (forall k f, fst (phase2_body cfg (env k) f) = Returns FlowContinue) ->
    exists st,
      run_automation cfg env fs0 = Returned st
      /\ total_attempts st = max_agent_attempts cfg
      /\ agent_attempts st = max_agent_attempts cfg
      /\ task_success st = false
      /\ length (agent_json_paths st) = Z.to_nat (max_agent_attempts cfg).
Proof.
  intros cfg env fs0 Hlim Hq H1 Hb.
  destruct (agent_failures_loop cfg env Hq H1 Hb
              (S (Z.to_nat (max_total_attempts cfg))) 0%nat
              (initial_state fs0))
    as (st & Hrun & A & T & S & P); simpl; try lia.
  unfold run_automation. rewrite Hrun.
  exists (deprecate_earlier st). split; [reflexivity|].
  destruct (deprecate_earlier_counters st) as (-> & -> & -> & ->).
  simpl in *. split_and!; auto; lia.
Qed.

Lemma agent_failures_exhaust_agent_budget_witness :
  exists st,
    run_automation default_config (fun k => prompt_fails (10 + k)) empty_fs
      = Returned st
    /\ total_attempts st = 3
    /\ agent_attempts st = 3
    /\ task_success st = false
    /\ length (agent_json_paths st) = 3%nat.
Proof.
  apply (agent_failures_exhaust_agent_budget default_config
           (fun k => prompt_fails (10 + k)) empty_fs).
  - simpl. lia.
  - intros k. split; reflexivity.
  - intros k. reflexivity.
  - intros k f. reflexivity.
Defined.

End LoopMore.

Section SuccessRecord.
Import Datetime Logger Runner.

Lemma attempt_again_keeps_failure cfg st e st' :
  attempt cfg st e = Again st' -> task_success st' = task_success st.
Proof.
  intros Hatt. pose proof (attempt_cases cfg st e) as Hc.
  rewrite Hatt in Hc.
  inversion Hc as [ | | | ? Hm | status ? Hm | ? Hm | | ]; subst; simpl;
    try reflexivity;
    match goal with
    | |- context [closed_frame _ _ ?s _] =>
        by destruct (closed_frame_effect cfg e s st Hm) as (_ & _ & S & _)
    end.
Qed.

Lemma attempt_stop_record cfg st e st' :
  attempt cfg st e = Stop st' ->
  writable (fs st) (attempt_file cfg e) = true ->
  task_success st' = true
  /\ agent_json_paths st' = agent_json_paths st ++ [attempt_file cfg e]
  /\ exists d t,
       files (fs st') !! attempt_file cfg e = Some d
       /\ tasks d = [t]
       /\ task_status t = Some (TaskStatus.value TaskStatus.SUCCESS)
       /\ deprecated t = false.
Proof.
  intros Hatt Hw. pose proof (attempt_cases cfg st e) as Hc.
  rewrite Hatt in Hc.
  inversion Hc as [ | | | | | | | ? Hm ]; subst.
  destruct (closed_frame_effect cfg e TaskStatus.SUCCESS st Hm)
    as (_ & _ & _ & P & _ & _ & W).
  simpl. split; [reflexivity|]. split; [exact P|].
  destruct (W Hw) as (t & Hf & Hd & Hs).
  exists (append_task t (empty_session cfg e)), t. auto.
Qed.

Lemma attempt_effect_writable p st st' :
  all_writable (fs st) -> attempt_effect p st st' -> all_writable (fs st').
Proof.
  intros Hw [[_ Hf] | (_ & [TW _] & _)] q; [by rewrite Hf | by rewrite TW].
Qed.

Lemma retry_loop_success cfg env :
  distinct_files cfg env ->
  forall fuel i st st',
    all_writable (fs st) -> records_from cfg env i st ->
    task_success st = false ->
    retry_loop fuel cfg env i st = Returned st' ->
    task_success st' = true ->
    NoDup (agent_json_paths st')
    /\ exists p d t,
         last (agent_json_paths st') = Some p
         /\ files (fs st') !! p = Some d
         /\ tasks d = [t]
         /\ task_status t = Some (TaskStatus.value TaskStatus.SUCCESS)
         /\ deprecated t = false.
Proof.
  intros Hdist.
  induction fuel as [|fuel IH]; intros i st st' Hw Hfrom Hfail; simpl;
    [discriminate|].
  destruct (limits_reached cfg st (env i)) eqn:Hlim;
    [intros [= <-] Hs; congruence|].
  apply limits_false_total in Hlim.
  pose proof (attempt_has_effect cfg st (env i)) as Heff.
  pose proof (attempt_total cfg st (env i)) as Htot.
  destruct (attempt cfg st (env i)) as [st1 | st1 | st1 | st1] eqn:Hatt;
    simpl in Heff, Htot; try discriminate.
  - apply (IH (S i)).
    + by apply (attempt_effect_writable (attempt_file cfg (env i)) st).
    + by apply (attempt_effect_records_from cfg env i st).
    + rewrite (attempt_again_keeps_failure _ _ _ _ Hatt). exact Hfail.
  - intros [= <-] _.
    destruct (attempt_stop_record _ _ _ _ Hatt (Hw _)) as (_ & P & d & t & H).
    split.
    + by destruct (attempt_effect_records_from cfg env i st st1 Hdist Hlim
                     Htot Hfrom Heff) as (_ & Hnd & _).
    + exists (attempt_file cfg (env i)), d, t. split; [|exact H].
      rewrite P. apply last_snoc.
Qed.

(** [run_automation] returns True only when the last record is a task
    closed with status "success", and that record is not deprecated by
    the post-loop pass (on a log directory that can be written, with one
    file per attempt). *)
Theorem success_has_live_success_record :
  forall (cfg : Config) (env : nat -> AttemptEnv) (fs0 : FileSystem)
         (st : RunState),
    (forall q, writable fs0 q = true) ->
    distinct_files cfg env ->
    run_automation cfg env fs0 = Returned st ->
    task_success st = true ->
    exists p d t,
      last (agent_json_paths st) = Some p
      /\ files (fs st) !! p = Some d
      /\ tasks d = [t]
      /\ task_status t = Some (TaskStatus.value TaskStatus.SUCCESS)
      /\ deprecated t = false.
Proof.
  intros cfg env fs0 st Hw Hdist Hrun Hs.
  unfold run_automation in Hrun.
  destruct (retry_loop _ cfg env 0%nat (initial_state fs0))
    as [st0| | |] eqn:Hloop; try discriminate.
  injection Hrun as <-.
  destruct (deprecate_earlier_counters st0) as (_ & _ & Hp & Hs').
  rewrite Hs' in Hs. rewrite Hp.
  assert (Hfrom0 : records_from cfg env 0 (initial_state fs0)).
  { split; [reflexivity|]. split; [apply NoDup_nil_2|].
    intros p Hin. by apply elem_of_nil in Hin. }
  destruct (retry_loop_success cfg env Hdist _ _ (initial_state fs0) st0
              Hw Hfrom0 eq_refl Hloop Hs)
    as (Hnd & p & d & t & Hl & Hf & H).
  exists p, d, t. split; [exact Hl|]. split; [|exact H].
  unfold deprecate_earlier.
  destruct (1 <? length (agent_json_paths st0))%nat; [|exact Hf].
  cbn [fs].
  fold (mark_all "Superseded by later attempt"
          (removelast (agent_json_paths st0)) (fs st0)).
  rewrite mark_all_not_in; [exact Hf|].
  destruct (exists_last (l := agent_json_paths st0)) as (l' & a & Hl').
  { intros E. rewrite E in Hl. discriminate. }
  rewrite Hl' in Hl, Hnd |- *. rewrite removelast_last.
  rewrite last_snoc in Hl. injection Hl as ->.
  apply NoDup_app in Hnd as (_ & Hdisj & _).
  intros Hin. apply (Hdisj p Hin). by apply list_elem_of_singleton.
Qed.

Lemma success_has_live_success_record_witness :
  exists p d t,
    last (agent_json_paths three_records_final) = Some p
    /\ files (fs three_records_final) !! p = Some d
    /\ tasks d = [t]
    /\ task_status t = Some (TaskStatus.value TaskStatus.SUCCESS)
    /\ deprecated t = false.
Proof.
  apply (success_has_live_success_record default_config three_records_script
           empty_fs three_records_final);
    [reflexivity | | vm_compute; reflexivity | reflexivity].
  intros i j [Hij Hj] Heq. simpl in Hj.
  do 10 (destruct j as [|j];
         [do 10 (destruct i as [|i];
                 [try lia; vm_compute in Heq; discriminate|]); lia|]).
  lia.
Defined.

End SuccessRecord.

(** ** agents/chatgpt.py: what wait_for_response returns *)

Section ChatGPTMore.
Import ChatGPT.

(** Whatever the page shows, a text returned by [wait_for_response] is
    longer than 50 characters, and it is either the text on which the
    stabilization loop completed or, after the overall timeout, the last
    text extracted. *)
Theorem chatgpt_response_is_long :
  forall (a : Agent) (sc : Script) (r : string),
    fst (wait_for_response a sc) = Response (Some r) ->
    (50 < py_len r)%nat
    /\ (stabilize (snd (wait_for_response a sc)) (stab_samples sc)
          (initial_stab_state (pre_count sc)) = Completed r
        \/ (stabilize (snd (wait_for_response a sc)) (stab_samples sc)
              (initial_stab_state (pre_count sc)) = TimedOut
            /\ final_response sc = Some r)).
Proof. exact wait_for_response_some. Qed.

Lemma chatgpt_response_is_long_witness :
  (50 < py_len answer)%nat.
Proof.
  apply (chatgpt_response_is_long default_chatgpt
           {| pre_count := 2;
              start_samples := fun _ =>
                {| ss_shutdown := false; ss_generating := true;
                   ss_count := 2 |};
              stab_samples := steady_run;
              final_response := None |} answer).
  vm_compute. reflexivity.
Defined.

(** A sample on which a completion can be declared: no shutdown, within
    the overall wait, quiet with text [r] and [c] articles, and past the
    elapsed-time floor. *)
Definition settled (a : Agent) (r : string) (c : Z) (x : StabSample)
  : Prop :=
  Qlt_bool (st_elapsed_top x) (max_wait_per_prompt a) = true
  /\ st_shutdown x = false
  /\ quiet_with r c x
  /\ (min_elapsed_sec a <= st_elapsed x)%Q.

Lemma stab_step_settled a s x r c :
  settled a r c x -> (50 < py_len r)%nat ->
  0 <= stable_count s ->
  last_response_text s = r -> last_article_count s = c ->
  (required_stable <= stable_count s + 1
   /\ stab_step a s x = Complete r)
  \/ (stable_count s + 1 < required_stable
      /\ stab_step a s x
         = Continue {| stable_count := stable_count s + 1;
                       last_response_text := r;
                       last_article_count := c;
                       ever_saw_generating := ever_saw_generating s |}).
Proof.
  intros (_ & _ & (Hg & Ht & Hc) & He) Hl Hk Hr Hcnt.
  unfold stab_step. rewrite Hg, Hc, Hcnt, Z.eqb_refl, Ht, Hr, String.eqb_refl.
  simpl.
  destruct (required_stable <=? stable_count s + 1) eqn:E.
  - left. split; [lia|].
    apply Nat.ltb_lt in Hl. rewrite Hl.
    apply Qle_bool_iff in He. by rewrite He.
  - right. split; [lia|]. reflexivity.
Qed.

Lemma stabilize_settled (a : Agent) (r : string) (c : Z) :
  (50 < py_len r)%nat ->
  forall window rest s,
    Forall (settled a r c) window ->
    0 <= stable_count s ->
    last_response_text s = r -> last_article_count s = c ->
    (Z.to_nat (required_stable - stable_count s) <= length window)%nat ->
    (1 <= length window)%nat ->
    stabilize a (window ++ rest) s = Completed r.
Proof.
  intros Hl. induction window as [|x w IH]; intros rest s Hall Hk Hr Hc Hn H1;
    [simpl in H1; lia|].
  inversion Hall as [|? ? Hx Hw]; subst.
  simpl. destruct Hx as (Htop & Hsh & Hq & He). rewrite Htop, Hsh.
  destruct (stab_step_settled a s x _ _
              (conj Htop (conj Hsh (conj Hq He))) Hl Hk eq_refl eq_refl)
    as [[_ ->] | [Hlt ->]]; [reflexivity|].
  unfold required_stable in *. cbn [length] in Hn, H1.
  apply IH; cbn [stable_count last_response_text last_article_count];
    auto; lia.
Qed.

Lemma stabilize_app (a : Agent) (pre : list StabSample) :
  forall rest s s1,
    stabilize a pre s = Polling s1 ->
    stabilize a (pre ++ rest) s = stabilize a rest s1.
Proof.
  induction pre as [|x pre IH]; intros rest s s1; simpl.
  - by intros [= ->].
  - destruct (Qlt_bool _ _); [|discriminate].
    destruct (st_shutdown x); [discriminate|].
    destruct (stab_step a s x) as [r0|s']; [discriminate|].
    apply IH.
Qed.

Lemma stab_step_nonneg a s x s' :
  0 <= stable_count s -> stab_step a s x = Continue s' ->
  0 <= stable_count s'.
Proof.
  intros Hk. unfold stab_step.
  destruct (st_generating x || _); [intros [= <-]; simpl; lia|].
  destruct (negb _); simpl.
  - destruct (required_stable <=? 0); intros [= <-]; simpl; lia.
  - destruct (required_stable <=? stable_count s + 1).
    + destruct (50 <? _)%nat;
        [destruct (Qle_bool _ _); [discriminate|] |];
        intros [= <-]; simpl; lia.
    + intros [= <-]. simpl. lia.
Qed.

Lemma stabilize_polling_nonneg (a : Agent) (pre : list StabSample) :
  forall s s1, 0 <= stable_count s -> stabilize a pre s = Polling s1 ->
    0 <= stable_count s1.
Proof.
  induction pre as [|x pre IH]; intros s s1 Hk; simpl.
  - by intros [= <-].
  - destruct (Qlt_bool _ _); [|discriminate].
    destruct (st_shutdown x); [discriminate|].
    destruct (stab_step a s x) as [r0|s'] eqn:Hstep; [discriminate|].
    apply IH. by apply (stab_step_nonneg a s x).
Qed.

(** Once generation has started: whatever was polled before, six settled
    samples in a row with the same text, longer than 50 characters, make
    [wait_for_response] return that text. *)
Theorem chatgpt_settled_text_is_returned :
  forall (a : Agent) (sc : Script) (pre six rest : list StabSample)
         (s1 : StabState) (r : string) (c : Z),
    start_phase (start_samples sc) (pre_count sc) 60 0 = Started ->
    stab_samples sc = pre ++ six ++ rest ->
    stabilize a pre (initial_stab_state (pre_count sc)) = Polling s1 ->
    length six = 6%nat ->
    Forall (settled a r c) six ->
    (50 < py_len r)%nat ->
    fst (wait_for_response a sc) = Response (Some r).
Proof.
  intros a sc pre six rest s1 r c Hstart Hsamples Hpre Hlen Hall Hl.
  assert (Hrun : forall a', max_wait_per_prompt a' = max_wait_per_prompt a ->
            agent_mode a' = agent_mode a ->
            stabilize a' (stab_samples sc)
              (initial_stab_state (pre_count sc)) = Completed r).
  { intros a' Hmw Ham.
    assert (Hsame : forall l s, stabilize a' l s = stabilize a l s).
    { induction l as [|x l IHl]; intros s; simpl; [reflexivity|].
      rewrite Hmw.
      assert (Hstep : stab_step a' s x = stab_step a s x).
      { unfold stab_step, min_elapsed_sec. by rewrite Ham. }
      rewrite Hstep. destruct (Qlt_bool _ _); [|reflexivity].
      destruct (st_shutdown x); [reflexivity|].
      destruct (stab_step a s x); [reflexivity | apply IHl]. }
    rewrite Hsame, Hsamples, (stabilize_app a pre _ _ _ Hpre).
    assert (Hk : 0 <= stable_count s1).
    { apply (stabilize_polling_nonneg a pre
               (initial_stab_state (pre_count sc))); [simpl; lia | exact Hpre]. }
    destruct six as [|x0 w]; [discriminate|].
    inversion Hall as [|? ? Hx Hw]; subst.
    change ((x0 :: w) ++ rest) with (x0 :: (w ++ rest)).
    simpl. destruct Hx as (Htop & Hsh & (Hg & Ht & Hc) & He).
    rewrite Htop, Hsh.
    destruct (stab_step a s1 x0) as [r0|s2] eqn:Hstep.
    - destruct (stab_step_complete a s1 x0 r0 Hstep)
        as (_ & _ & _ & (_ & Hr0 & _) & _).
      congruence.
    - subst r c.
      apply (stabilize_settled a (default "" (st_text x0)) (st_count x0) Hl);
        auto.
      + by apply (stab_step_nonneg a s1 x0).
      + revert Hstep. unfold stab_step. rewrite Hg. simpl.
        destruct (negb (st_count x0 =? _)); simpl; [by intros [= <-]|].
        destruct (negb _); simpl.
        * destruct (required_stable <=? 0); by intros [= <-].
        * destruct (required_stable <=? _).
          -- destruct (50 <? _)%nat;
               [destruct (Qle_bool _ _); [discriminate|] |];
               by intros [= <-].
          -- by intros [= <-].
      + revert Hstep. unfold stab_step. rewrite Hg. simpl.
        destruct (st_count x0 =? last_article_count s1) eqn:Ec; simpl;
          [|by intros [= <-]].
        apply Z.eqb_eq in Ec.
        destruct (negb _); simpl.
        * destruct (required_stable <=? 0); by intros [= <-].
        * destruct (required_stable <=? _).
          -- destruct (50 <? _)%nat;
               [destruct (Qle_bool _ _); [discriminate|] |];
               by intros [= <-].
          -- by intros [= <-].
      + pose proof (stab_step_nonneg a s1 x0 s2 Hk Hstep).
        simpl in Hlen. unfold required_stable. lia.
      + simpl in Hlen. lia. }
  unfold wait_for_response. rewrite Hstart.
  destruct (_baseline_set a); cbn [fst];
    rewrite Hrun; reflexivity.
Qed.

Lemma chatgpt_settled_text_is_returned_witness :
  fst (wait_for_response default_chatgpt
         {| pre_count := 2;
            start_samples := fun _ =>
              {| ss_shutdown := false; ss_generating := true;
                 ss_count := 2 |};
            stab_samples := [busy_sample 280] ++ steady_run ++ [];
            final_response := None |})
  = Response (Some answer).
Proof.
  apply (chatgpt_settled_text_is_returned default_chatgpt _
           [busy_sample 280] steady_run []
           {| stable_count := 0; last_response_text := answer;
              last_article_count := 3; ever_saw_generating := true |}
           answer 3).
  - reflexivity.
  - reflexivity.
  - vm_compute. reflexivity.
  - reflexivity.
  - repeat constructor; vm_compute; try reflexivity; discriminate.
  - vm_compute. lia.
Defined.

End ChatGPTMore.

(* ===================================================================== *)
(** ** agents: process_all_prompts                                        *)
(* ===================================================================== *)

(** [ConversationMessage] of agents/base.py ([metadata] is never filled
    by the code below and is left out). *)
Record ConversationMessage : Type := mk_message {
  role : string;
  content : string;
  timestamp : option Datetime.datetime
}.

(** What a prompt loop has come to: it returned, or the observations of
    one of its waits ran out while it was still polling. *)
Inductive PromptsResult : Type :=
| Finished (ok : bool)
| Waiting.

Module ChatGPTSession.
Import Datetime ChatGPT.

(** Per prompt: the result of [submit_prompt] (which catches every
    exception), what [wait_for_response] observes, and the two clock
    readings of the recorded messages. *)
Record PromptRun : Type := mk_run {
  pr_submit : bool;
  pr_wait : Script;
  pr_now_user : datetime;
  pr_now_assistant : datetime
}.

Record Session : Type := mk_session {
  agent : Agent;
  messages : list ConversationMessage;
  current_response_count : Z
}.

Definition with_agent (a : Agent) (s : Session) : Session :=
  {| agent := a; messages := messages s;
     current_response_count := current_response_count s |}.

Definition record_exchange (prompt response : string) (x : PromptRun)
    (a : Agent) (s : Session) : Session :=
  {| agent := a;
     messages :=
       messages s
       ++ [ {| role := "user"; content := prompt;
               timestamp := Some (pr_now_user x) |};
            {| role := "assistant"; content := response;
               timestamp := Some (pr_now_assistant x) |} ];
     current_response_count := current_response_count s + 1 |}.

(** The [for i, prompt in enumerate(prompts, 1)] loop. *)
Fixpoint prompt_loop (prompts : list string) (i : nat)
    (run : nat -> PromptRun) (s : Session) : PromptsResult * Session :=
  match prompts with
  | [] => (Finished true, s)
  | prompt :: rest =>
      let x := run i in
      if pr_submit x then
        match wait_for_response (agent s) (pr_wait x) with
        | (Pending, a') => (Waiting, with_agent a' s)
        | (Response None, a') => (Finished false, with_agent a' s)
        | (Response (Some r), a') =>
            prompt_loop rest (S i) run (record_exchange prompt r x a' s)
        end
      else (Finished false, s)
  end.

(** [upload_files] catches every exception, so its result is a bool. *)
Definition process_all_prompts (prompts files_to_upload : list string)
    (upload_files : bool) (run : nat -> PromptRun) (s : Session)
  : PromptsResult * Session :=
  match prompts with
  | [] => (Finished false, s)
  | _ =>
      if match files_to_upload with [] => true | _ => upload_files end
      then prompt_loop prompts 1 run s
      else (Finished false, s)
  end.

End ChatGPTSession.

Module ClaudeSession.
Import Datetime Logger.

(** [config.get("prompts", [])]: a list, or a single string. *)
Inductive Prompts : Type :=
| PromptStr (s : string)
| PromptList (l : list string).

Definition prompt_list (p : Prompts) : list string :=
  match p with
  | PromptStr "" => []
  | PromptStr s => [s]
  | PromptList l => l
  end.

(** Per prompt: the shutdown flag at the top of the iteration, the clock
    at [start_prompt], the result of [submit_prompt] (which catches every
    exception), what [wait_for_response] samples, and the clock at
    [end_prompt]. *)
Record PromptRun : Type := mk_run {
  cr_shutdown : bool;
  cr_now_start : datetime;
  cr_submit : bool;
  cr_wait : list Claude.Sample;
  cr_now_end : datetime
}.

Record Session : Type := mk_session {
  messages : list ConversationMessage;
  completion_logger : option CompletionLogger;
  fs : FileSystem
}.

(** [if self.completion_logger: self.completion_logger.<call>] *)
Definition logging
    (call : CompletionLogger -> FileSystem -> CompletionLogger * FileSystem)
    (s : Session) : Session :=
  match completion_logger s with
  | None => s
  | Some cl =>
      let (cl', fs') := call cl (fs s) in
      {| messages := messages s; completion_logger := Some cl';
         fs := fs' |}
  end.

Definition add_message (m : ConversationMessage) (s : Session) : Session :=
  {| messages := messages s ++ [m];
     completion_logger := completion_logger s; fs := fs s |}.

Fixpoint prompt_loop (a : Claude.Agent) (prompts : list string) (i : nat)
    (run : nat -> PromptRun) (s : Session) : PromptsResult * Session :=
  match prompts with
  | [] => (Finished true, s)
  | prompt :: rest =>
      let x := run i in
      if cr_shutdown x then (Finished false, s)
      else
        let s1 := logging (start_prompt prompt (cr_now_start x)) s in
        if cr_submit x then
          (* submit_prompt records the user message on success *)
          let s2 :=
            add_message {| role := "user"; content := prompt;
                           timestamp := None |} s1 in
          match Claude.wait_for_response a (cr_wait x) with
          | Pending => (Waiting, s2)
          | Response None =>
              (Finished false, logging (end_prompt false 0 (cr_now_end x)) s2)
          | Response (Some r) =>
              (* wait_for_response records a non-empty response *)
              let s3 :=
                if String.eqb r "" then s2
                else add_message {| role := "assistant"; content := r;
                                    timestamp := None |} s2 in
              prompt_loop a rest (S i) run
                (logging (end_prompt true (Z.of_nat (py_len r))
                            (cr_now_end x)) s3)
          end
        else
          (Finished false, logging (end_prompt false 0 (cr_now_end x)) s1)
  end.

Definition process_all_prompts (a : Claude.Agent) (prompts : Prompts)
    (files_to_upload : list string) (upload_files : bool)
    (run : nat -> PromptRun) (s : Session) : PromptsResult * Session :=
  match prompt_list prompts with
  | [] => (Finished false, s)
  | l =>
      if match files_to_upload with [] => true | _ => upload_files end
      then prompt_loop a l 1 run s
      else (Finished false, s)
  end.

End ClaudeSession.

(** ** process_all_prompts: what the conversation and the log record *)

Definition spoken (m : ConversationMessage) : string * string :=
  (role m, content m).

Fixpoint exchanges (prompts responses : list string)
  : list (string * string) :=
  match prompts, responses with
  | p :: ps, r :: rs => ("user", p) :: ("assistant", r) :: exchanges ps rs
  | _, _ => []
  end.

Section ChatGPTPrompts.
Import ChatGPTSession.

Variable run : nat -> PromptRun.

Lemma chatgpt_prompt_loop_spec :
  forall prompts i s res s',
    prompt_loop prompts i run s = (res, s') ->
    exists rs,
      (length rs <= length prompts)%nat
      /\ Forall (fun r => (50 < py_len r)%nat) rs
      /\ map spoken (messages s')
         = map spoken (messages s) ++ exchanges prompts rs
      /\ current_response_count s'
         = current_response_count s + Z.of_nat (length rs)
      /\ (res = Finished true <-> length rs = length prompts).
Proof.
  induction prompts as [|p rest IH]; intros i s res s'; simpl.
  - intros [= <- <-]. exists []. simpl.
    rewrite app_nil_r. split_and!; first [done | lia | by constructor].
  - destruct (pr_submit (run i)).
    + destruct (ChatGPT.wait_for_response (agent s) (pr_wait (run i)))
        as [w a'] eqn:Hw.
      destruct w as [[r|]|].
      * intros H. destruct (IH _ _ _ _ H) as (rs & Hlen & Hall & Hm & Hc & Hr).
        exists (r :: rs). simpl in *.
        split_and!.
        -- lia.
        -- constructor; [|exact Hall].
           apply (wait_for_response_some (agent s) (pr_wait (run i)) r).
           by rewrite Hw.
        -- rewrite Hm, map_app. simpl. by rewrite <- app_assoc.
        -- lia.
        -- rewrite Hr. lia.
      * intros [= <- <-]. exists []. simpl.
        rewrite app_nil_r.
        split_and!; first [done | lia | by constructor
                          | split; [discriminate | lia]].
      * intros [= <- <-]. exists []. simpl.
        rewrite app_nil_r.
        split_and!; first [done | lia | by constructor
                          | split; [discriminate | lia]].
    + intros [= <- <-]. exists []. simpl.
      rewrite app_nil_r.
      split_and!; first [done | lia | by constructor
                        | split; [discriminate | lia]].
Qed.

(** ChatGPT's [process_all_prompts] adds to the conversation only whole
    exchanges, in prompt order: a user message with the prompt followed by
    an assistant message with its response, each response longer than 50
    characters, and the response counter grows by the number of exchanges.
    It returns True exactly when there is at least one prompt and every
    prompt got its exchange. *)
Theorem chatgpt_prompts_recorded :
  forall prompts files_to_upload upload_files s res s',
    process_all_prompts prompts files_to_upload upload_files run s
      = (res, s') ->
    exists rs,
      (length rs <= length prompts)%nat
      /\ Forall (fun r => (50 < py_len r)%nat) rs
      /\ map spoken (messages s')
         = map spoken (messages s) ++ exchanges prompts rs
      /\ current_response_count s'
         = current_response_count s + Z.of_nat (length rs)
      /\ (res = Finished true ->
          prompts <> [] /\ length rs = length prompts).
Proof.
  intros prompts files up s res s'. unfold process_all_prompts.
  assert (Hstop : (res, s') = (Finished false, s) -> exists rs : list string,
      (length rs <= length prompts)%nat
      /\ Forall (fun r => (50 < py_len r)%nat) rs
      /\ map spoken (messages s')
         = map spoken (messages s) ++ exchanges prompts rs
      /\ current_response_count s'
         = current_response_count s + Z.of_nat (length rs)
      /\ (res = Finished true ->
          prompts <> [] /\ length rs = length prompts)).
  { intros [= -> ->]. exists []. simpl.
    destruct prompts; simpl; rewrite app_nil_r;
      split_and!; first [done | lia | by constructor]. }
  destruct prompts as [|p rest]; [intros H; by apply Hstop|].
  destruct (match files with [] => true | _ => up end);
    [|intros H; by apply Hstop].
  intros H.
  destruct (chatgpt_prompt_loop_spec _ _ _ _ _ H)
    as (rs & Hlen & Hall & Hm & Hc & Hr).
  exists rs. split_and!; auto.
  intros Hres. split; [discriminate | by apply Hr].
Qed.

End ChatGPTPrompts.

Definition one_prompt_run : ChatGPTSession.PromptRun :=
  {| ChatGPTSession.pr_submit := true;
     ChatGPTSession.pr_wait :=
       {| ChatGPT.pre_count := 2;
          ChatGPT.start_samples := fun _ =>
            {| ChatGPT.ss_shutdown := false; ChatGPT.ss_generating := true;
               ChatGPT.ss_count := 2 |};
          ChatGPT.stab_samples := steady_run;
          ChatGPT.final_response := None |};
     ChatGPTSession.pr_now_user := sample_time 0;
     ChatGPTSession.pr_now_assistant := sample_time 1 |}.

Definition fresh_chatgpt_session : ChatGPTSession.Session :=
  {| ChatGPTSession.agent := default_chatgpt;
     ChatGPTSession.messages := [];
     ChatGPTSession.current_response_count := 0 |}.

Lemma chatgpt_prompts_recorded_witness :
  let out :=
    ChatGPTSession.process_all_prompts ["Build the model"] [] true
      (fun _ => one_prompt_run) fresh_chatgpt_session in
  fst out = Finished true
  /\ exists rs,
      (length rs <= 1)%nat
      /\ Forall (fun r => (50 < py_len r)%nat) rs
      /\ map spoken (ChatGPTSession.messages (snd out))
         = [] ++ exchanges ["Build the model"] rs
      /\ ChatGPTSession.current_response_count (snd out)
         = 0 + Z.of_nat (length rs)
      /\ (fst out = Finished true ->
          ["Build the model"] <> [] /\ length rs = 1%nat).
Proof.
  split; [vm_compute; reflexivity|].
  apply (chatgpt_prompts_recorded (fun _ => one_prompt_run)
           ["Build the model"] [] true fresh_chatgpt_session).
  vm_compute. reflexivity.
Defined.

Section ClaudePrompts.
Import Datetime Logger ClaudeSession.

Variable a : Claude.Agent.
Variable run : nat -> PromptRun.

Definition add_prompts (new : list PromptEntry) (t : TaskEntry) : TaskEntry :=
  fold_left (fun t p => add_prompt p t) new t.

Definition closed_prompt (p : PromptEntry) : Prop :=
  prompt_end_time p <> None /\ prompt_success p <> None.

Lemma claude_prompt_loop_logged :
  forall ps i s ok s' cl t,
    prompt_loop a ps i run s = (Finished ok, s') ->
    completion_logger s = Some cl ->
    current_prompt cl = None ->
    current_task cl = Some t ->
    exists cl' new,
      completion_logger s' = Some cl'
      /\ current_prompt cl' = None
      /\ current_task cl' = Some (add_prompts new t)
      /\ session_data cl' = session_data cl
      /\ session_file cl' = session_file cl
      /\ (length new <= length ps)%nat
      /\ Forall closed_prompt new
      /\ (ok = true <->
          map prompt_text new = map (py_prefix 500) ps
          /\ Forall (fun p => prompt_success p = Some true) new).
Proof.
  intros ps; induction ps as [|p rest IH]; intros i s ok s' cl t; simpl.
  - intros [= <- <-] Hl Hp Ht. exists cl, []. simpl.
    split_and!;
      first [done | lia | by constructor
            | split; [intros _; split; [done | constructor] | done]].
  - destruct (cr_shutdown (run i)).
    { intros [= <- <-] Hl Hp Ht. exists cl, []. simpl.
      split_and!;
        first [done | lia | by constructor
              | split; [done | intros [H _]; discriminate]]. }
    intros H Hl Hp Ht. revert H.
    set (p0 := {| prompt_text := py_prefix 500 p;
                  prompt_start_time := cr_now_start (run i);
                  prompt_end_time := None; prompt_success := None;
                  prompt_duration_seconds := None;
                  response_length := None |}).
    set (s1 := logging (start_prompt p (cr_now_start (run i))) s).
    assert (Hs1 : completion_logger s1
                  = Some (set_current_prompt (Some p0) cl)).
    { unfold s1, logging. rewrite Hl. reflexivity. }
    clearbody s1.
    assert (Hend : forall s0 ok0 len,
      completion_logger s0 = Some (set_current_prompt (Some p0) cl) ->
      completion_logger (logging (end_prompt ok0 len (cr_now_end (run i))) s0)
      = Some (set_current_prompt None
                (set_current_task
                   (Some (add_prompt
                            (close_prompt ok0 len (cr_now_end (run i)) p0) t))
                   (set_current_prompt (Some p0) cl)))).
    { intros s0 ok0 len Hs0. unfold logging, end_prompt. rewrite Hs0.
      cbn [current_prompt set_current_prompt current_task].
      rewrite Ht. reflexivity. }
    assert (Hfail : forall s0 len,
      completion_logger s0 = Some (set_current_prompt (Some p0) cl) ->
      (Finished false, logging (end_prompt false len (cr_now_end (run i))) s0)
        = (Finished ok, s') ->
      exists cl' new,
        completion_logger s' = Some cl'
        /\ current_prompt cl' = None
        /\ current_task cl' = Some (add_prompts new t)
        /\ session_data cl' = session_data cl
        /\ session_file cl' = session_file cl
        /\ (length new <= S (length rest))%nat
        /\ Forall closed_prompt new
        /\ (ok = true <->
            map prompt_text new
              = py_prefix 500 p
                :: map (py_prefix 500) rest
            /\ Forall (fun p => prompt_success p = Some true) new)).
    { intros s0 len Hs0 [= <- <-].
      eexists _, [close_prompt false len (cr_now_end (run i)) p0].
      split; [apply (Hend s0 false len Hs0)|].
      cbn [current_prompt current_task session_data set_current_prompt
           set_current_task session_file add_prompts fold_left length].
      split_and!; first [done | lia | idtac].
      - repeat constructor; discriminate.
      - split; [done|]. intros [_ Hs].
        inversion Hs as [|? ? Hx _]. discriminate. }
    destruct (cr_submit (run i)); [|by apply Hfail].
    set (s2 := add_message _ s1).
    assert (Hs2 : completion_logger s2
                  = Some (set_current_prompt (Some p0) cl)) by exact Hs1.
    clearbody s2.
    destruct (Claude.wait_for_response a (cr_wait (run i))) as [[r|]|];
      [| by apply Hfail | discriminate].
    set (s3 := if String.eqb r "" then _ else _).
    assert (Hs3 : completion_logger s3
                  = Some (set_current_prompt (Some p0) cl)).
    { unfold s3. by destruct (String.eqb r ""). }
    clearbody s3.
    set (p1 := close_prompt true (Z.of_nat (py_len r))
                 (cr_now_end (run i)) p0).
    intros H.
    destruct (IH _ _ _ _ _ (add_prompt p1 t) H
                (Hend s3 true _ Hs3) eq_refl eq_refl)
      as (cl' & new & A & B & C & D & E & F & G & K).
    exists cl', (p1 :: new).
    cbn [session_data session_file set_current_prompt set_current_task]
      in D, E.
    cbn [add_prompts fold_left length map].
    split_and!; first [done | lia | idtac].
    + constructor; [split; discriminate | exact G].
    + rewrite K. split.
      * intros [Hm Hs]. split; [by rewrite Hm | by constructor].
      * intros [Hm Hs]. inversion Hs; subst. injection Hm as Hm.
        by split.
Qed.

(** Claude's [process_all_prompts], called with a logger that has a task
    open and no prompt open, leaves no prompt open when it returns: every
    prompt it started is closed and appended, in order, to the open task,
    and the session data and file name are untouched.  It returns True
    exactly when every configured prompt is among them and each is marked
    successful. *)
Theorem claude_prompts_logged :
  forall prompts files_to_upload upload_files s ok s' cl t,
    process_all_prompts a prompts files_to_upload upload_files run s
      = (Finished ok, s') ->
    completion_logger s = Some cl ->
    current_prompt cl = None ->
    current_task cl = Some t ->
    exists cl' new,
      completion_logger s' = Some cl'
      /\ current_prompt cl' = None
      /\ current_task cl' = Some (add_prompts new t)
      /\ session_data cl' = session_data cl
      /\ session_file cl' = session_file cl
      /\ Forall closed_prompt new
      /\ (ok = true <->
          prompt_list prompts <> []
          /\ (files_to_upload = [] \/ upload_files = true)
          /\ map prompt_text new
             = map (py_prefix 500) (prompt_list prompts)
          /\ Forall (fun p => prompt_success p = Some true) new).
Proof.
  intros prompts files up s ok s' cl t. unfold process_all_prompts.
  intros H Hl Hp Ht.
  assert (Hstop : (Finished false, s) = (Finished ok, s') ->
    (prompt_list prompts = [] \/ (files <> [] /\ up = false)) ->
    exists cl' new,
      completion_logger s' = Some cl'
      /\ current_prompt cl' = None
      /\ current_task cl' = Some (add_prompts new t)
      /\ session_data cl' = session_data cl
      /\ session_file cl' = session_file cl
      /\ Forall closed_prompt new
      /\ (ok = true <->
          prompt_list prompts <> []
          /\ (files = [] \/ up = true)
          /\ map prompt_text new
             = map (py_prefix 500) (prompt_list prompts)
          /\ Forall (fun p => prompt_success p = Some true) new)).
  { intros [= <- <-] Hwhy. exists cl, []. simpl.
    split_and!; first [done | by constructor | idtac].
    split; [done|]. intros (H1 & H2 & _).
    destruct Hwhy as [Hn | [Hf Hu]]; [by destruct H1|].
    destruct H2 as [H2|H2]; [by destruct Hf | congruence]. }
  destruct (prompt_list prompts) as [|p rest] eqn:Hpl;
    [apply Hstop; auto|].
  destruct files as [|f files].
  - destruct (claude_prompt_loop_logged _ _ _ _ _ _ _ H Hl Hp Ht)
      as (cl' & new & A & B & C & D & E & F & G & K).
    exists cl', new. split_and!; auto.
    rewrite K. split; [intros [? ?]; split_and!; auto; discriminate|].
    intros (_ & _ & ? & ?). by split.
  - destruct up.
    + destruct (claude_prompt_loop_logged _ _ _ _ _ _ _ H Hl Hp Ht)
        as (cl' & new & A & B & C & D & E & F & G & K).
      exists cl', new. split_and!; auto.
      rewrite K. split; [intros [? ?]; split_and!; auto; discriminate|].
      intros (_ & _ & ? & ?). by split.
    + apply Hstop; [exact H | right; by split].
Qed.

End ClaudePrompts.

Definition claude_answering_run : ClaudeSession.PromptRun :=
  {| ClaudeSession.cr_shutdown := false;
     ClaudeSession.cr_now_start := sample_time 4;
     ClaudeSession.cr_submit := true;
     ClaudeSession.cr_wait :=
       [ {| Claude.cs_shutdown := false;
            Claude.cs_state := AgentState.RUNNING;
            Claude.cs_responses := Returns 1;
            Claude.cs_final_state := AgentState.RUNNING;
            Claude.cs_response := None |};
         {| Claude.cs_shutdown := false;
            Claude.cs_state := AgentState.READY;
            Claude.cs_responses := Returns 2;
            Claude.cs_final_state := AgentState.READY;
            Claude.cs_response := Some "Done." |} ];
     ClaudeSession.cr_now_end := sample_time 8 |}.

Definition open_task_logger : Logger.CompletionLogger :=
  fst (Logger.start_task "demo" 1 (sample_time 3) sample_logger empty_fs).

Definition claude_session : ClaudeSession.Session :=
  {| ClaudeSession.messages := [];
     ClaudeSession.completion_logger := Some open_task_logger;
     ClaudeSession.fs := empty_fs |}.

Definition claude_session_end : ClaudeSession.Session :=
  snd (ClaudeSession.process_all_prompts
         {| Claude.max_wait_per_prompt := 600; Claude.check_interval := 1 |}
         (ClaudeSession.PromptStr "Build the model") [] true
         (fun _ => claude_answering_run) claude_session).

Lemma claude_prompts_logged_witness :
  exists cl' new,
    ClaudeSession.completion_logger claude_session_end = Some cl'
    /\ Logger.current_prompt cl' = None
    /\ Logger.current_task cl'
       = Some (add_prompts new
                 (Logger.new_task "demo" 1 (sample_time 3)))
    /\ Logger.session_data cl' = Logger.session_data open_task_logger
    /\ Logger.session_file cl' = Logger.session_file open_task_logger
    /\ Forall closed_prompt new
    /\ (true = true <->
        ClaudeSession.prompt_list (ClaudeSession.PromptStr "Build the model")
          <> []
        /\ (@nil string = [] \/ true = true)
        /\ map Logger.prompt_text new
           = map (py_prefix 500)
               (ClaudeSession.prompt_list
                  (ClaudeSession.PromptStr "Build the model"))
        /\ Forall (fun p => Logger.prompt_success p = Some true) new).
Proof.
  apply (claude_prompts_logged
           {| Claude.max_wait_per_prompt := 600; Claude.check_interval := 1 |}
           (fun _ => claude_answering_run)
           (ClaudeSession.PromptStr "Build the model") [] true
           claude_session true claude_session_end open_task_logger
           (Logger.new_task "demo" 1 (sample_time 3)));
    [vm_compute; reflexivity | reflexivity | reflexivity | reflexivity].
Defined.
